(** * Secure-Flask-Portal: encryption at rest and role gating

    A shallow embedding of [utils.py], [models.py], [forms.py], [app.py]
    and [init_db.py], followed by the properties of the field cipher, the
    record store, the route guards and the seeding of the database.

    Conventions.
    - A Python [str] is a list of code points, [bytes] a list of octets,
      both carried by [Z].
    - Python exceptions are values of [exn]; a computation that touches the
      process (environment, key file, cached cipher, database, flashed
      messages) is a function [World -> result A * World].  Mutations made
      before an exception is raised stay in the world, as in Python.
    - The [cryptography.fernet] primitive is an interface ([Fernet]); its
      documented behaviour is the record [FernetLaws].
    - SQLite is modelled by the three tables as lists in insertion order,
      with [AUTOINCREMENT] row ids and per-connection enforcement of the
      declared foreign keys.
    - Where Python accepts the decimal digits of every script ([\d],
      [int], [float]), the model reads the ASCII digits.
    - [werkzeug.security] is an interface as well ([Security]); [login]
      and the seeding of [init_db.py] are stated over it. *)

From Stdlib Require Import ZArith List String Ascii Bool Lia.
From Stdlib Require Import Sorting.Sorted Sorting.Permutation.
From Stdlib Require Import Floats.SpecFloat.
From stdpp Require Import base gmap strings.

Import ListNotations.
Local Open Scope Z_scope.

(* ===================================================================== *)
(** ** Text: [str], [bytes], [str.strip] and the UTF-8 codec              *)
(* ===================================================================== *)

Module Text.

(** A Python [str]: a sequence of code points. *)
Abbreviation str := (list Z).

(** A Python [bytes]: a sequence of octets. *)
Abbreviation bytes := (list Z).

(** An ASCII literal as a [str]. *)
Definition py (s : string) : list Z :=
  map (fun a => Z.of_N (N_of_ascii a)) (list_ascii_of_string s).

(** [str.isspace] on one code point (the Unicode white-space set used by
    [str.strip()] without arguments). *)
Definition is_space (c : Z) : bool :=
  ((0x09 <=? c) && (c <=? 0x0D)) || ((0x1C <=? c) && (c <=? 0x20))
  || (c =? 0x85) || (c =? 0xA0) || (c =? 0x1680)
  || ((0x2000 <=? c) && (c <=? 0x200A))
  || (c =? 0x2028) || (c =? 0x2029) || (c =? 0x202F) || (c =? 0x205F)
  || (c =? 0x3000).

(** Removal of the leading characters that satisfy [p]. *)
Fixpoint lstrip_by (p : Z -> bool) (s : str) : str :=
  match s with
  | [] => []
  | c :: r => if p c then lstrip_by p r else s
  end.

Definition rstrip_by (p : Z -> bool) (s : str) : str :=
  rev (lstrip_by p (rev s)).

Definition strip_by (p : Z -> bool) (s : str) : str :=
  rstrip_by p (lstrip_by p s).

(** [s.strip()] *)
Definition strip (s : str) : str := strip_by is_space s.

(** Truthiness of a [str] or [bytes]: non-empty. *)
Definition truthy {A} (s : list A) : bool :=
  match s with [] => false | _ => true end.

Definition is_surrogate (c : Z) : bool := (0xD800 <=? c) && (c <=? 0xDFFF).

(** A code point that UTF-8 can carry: a Unicode scalar value. *)
Definition is_scalar (c : Z) : bool :=
  (0 <=? c) && (c <? 0x110000) && negb (is_surrogate c).

(** UTF-8 encoding of one code point; [None] is [UnicodeEncodeError]. *)
Definition encode_cp (c : Z) : option (list Z) :=
  if negb (is_scalar c) then None
  else if c <? 0x80 then Some [c]
  else if c <? 0x800 then
    Some [Z.lor 0xC0 (Z.shiftr c 6); Z.lor 0x80 (Z.land c 0x3F)]
  else if c <? 0x10000 then
    Some [Z.lor 0xE0 (Z.shiftr c 12);
          Z.lor 0x80 (Z.land (Z.shiftr c 6) 0x3F);
          Z.lor 0x80 (Z.land c 0x3F)]
  else
    Some [Z.lor 0xF0 (Z.shiftr c 18);
          Z.lor 0x80 (Z.land (Z.shiftr c 12) 0x3F);
          Z.lor 0x80 (Z.land (Z.shiftr c 6) 0x3F);
          Z.lor 0x80 (Z.land c 0x3F)].

(** [s.encode("utf-8")] *)
Fixpoint utf8_encode (s : list Z) : option (list Z) :=
  match s with
  | [] => Some []
  | c :: r =>
      match encode_cp c, utf8_encode r with
      | Some b, Some br => Some (b ++ br)
      | _, _ => None
      end
  end.

(** A continuation octet [10xxxxxx]. *)
Definition is_cont (b : Z) : bool := (0x80 <=? b) && (b <? 0xC0).

Definition cons_opt (c : Z) (r : option (list Z)) : option (list Z) :=
  match r with Some l => Some (c :: l) | None => None end.

(** [b.decode("utf-8")], strict: overlong forms, surrogates, code points
    above U+10FFFF and truncated sequences are [UnicodeDecodeError]
    ([None]). *)
Fixpoint utf8_decode (b : list Z) : option (list Z) :=
  match b with
  | [] => Some []
  | b0 :: r0 =>
      if (0 <=? b0) && (b0 <? 0x80) then cons_opt b0 (utf8_decode r0)
      else if (0xC2 <=? b0) && (b0 <? 0xE0) then
        match r0 with
        | b1 :: r1 =>
            if is_cont b1 then
              cons_opt (Z.lor (Z.shiftl (Z.land b0 0x1F) 6) (Z.land b1 0x3F))
                       (utf8_decode r1)
            else None
        | _ => None
        end
      else if (0xE0 <=? b0) && (b0 <? 0xF0) then
        match r0 with
        | b1 :: b2 :: r2 =>
            let c := Z.lor (Z.shiftl (Z.land b0 0x0F) 12)
                       (Z.lor (Z.shiftl (Z.land b1 0x3F) 6) (Z.land b2 0x3F)) in
            if is_cont b1 && is_cont b2 && (0x800 <=? c) && negb (is_surrogate c)
            then cons_opt c (utf8_decode r2)
            else None
        | _ => None
        end
      else if (0xF0 <=? b0) && (b0 <? 0xF5) then
        match r0 with
        | b1 :: b2 :: b3 :: r3 =>
            let c := Z.lor (Z.shiftl (Z.land b0 0x07) 18)
                       (Z.lor (Z.shiftl (Z.land b1 0x3F) 12)
                          (Z.lor (Z.shiftl (Z.land b2 0x3F) 6) (Z.land b3 0x3F))) in
            if is_cont b1 && is_cont b2 && is_cont b3
               && (0x10000 <=? c) && (c <? 0x110000)
            then cons_opt c (utf8_decode r3)
            else None
        | _ => None
        end
      else None
  end.

(** Decimal digits of a natural number, most significant first. *)
Fixpoint uint_digits (d : Decimal.uint) : list Z :=
  match d with
  | Decimal.Nil => []
  | Decimal.D0 r => 48 :: uint_digits r
  | Decimal.D1 r => 49 :: uint_digits r
  | Decimal.D2 r => 50 :: uint_digits r
  | Decimal.D3 r => 51 :: uint_digits r
  | Decimal.D4 r => 52 :: uint_digits r
  | Decimal.D5 r => 53 :: uint_digits r
  | Decimal.D6 r => 54 :: uint_digits r
  | Decimal.D7 r => 55 :: uint_digits r
  | Decimal.D8 r => 56 :: uint_digits r
  | Decimal.D9 r => 57 :: uint_digits r
  end.

(** [str(n)] for [n >= 0]. *)
Definition decimal_of_Z (n : Z) : list Z := uint_digits (N.to_uint (Z.to_N n)).

Definition is_digit (c : Z) : bool := (48 <=? c) && (c <=? 57).

Definition digit_val (c : Z) : Z := c - 48.

(** ASCII [str.lower()] on one code point (enough for the case-insensitive
    keywords of [float]). *)
Definition ascii_lower (c : Z) : Z :=
  if (65 <=? c) && (c <=? 90) then c + 32 else c.

Definition str_eqb (a b : list Z) : bool :=
  if decide (a = b) then true else false.

End Text.

(* ===================================================================== *)
(** ** Python [float]: parsing a literal and fixed-point formatting       *)
(* ===================================================================== *)

Module PyFloat.
Import Text.

(** A Python [float] is an IEEE-754 binary64 value. *)
Abbreviation float := spec_float.

Definition prec : Z := 53.
Definition emax : Z := 1024.

(** White space of the C locale ([Py_ISSPACE]). *)
Definition is_c_space (c : Z) : bool := (c =? 32) || ((9 <=? c) && (c <=? 13)).

(** What [float(str)] does to its argument before parsing: a non-ASCII
    white-space character counts as a blank; any other non-ASCII character
    makes the literal invalid (decimal digits of other scripts, which
    Python maps to ASCII digits, are outside this model). *)
Fixpoint to_ascii (s : str) : option str :=
  match s with
  | [] => Some []
  | c :: r =>
      if (0 <=? c) && (c <? 128) then cons_opt c (to_ascii r)
      else if is_space c then cons_opt 32 (to_ascii r)
      else None
  end.

(** Underscores are dropped, and are legal only between two digits. *)
Fixpoint drop_underscores (prev : Z) (s : str) : option str :=
  match s with
  | [] => if prev =? 95 then None else Some []
  | c :: r =>
      if c =? 95 then
        if is_digit prev then drop_underscores c r else None
      else if (prev =? 95) && negb (is_digit c) then None
      else cons_opt c (drop_underscores c r)
  end.

(** A parsed literal: an infinity, a NaN, or [(-1)^neg * m * 10^e10]. *)
Inductive literal :=
| L_inf (neg : bool)
| L_nan
| L_dec (neg : bool) (m : Z) (e10 : Z).

(** Reads a run of digits: the accumulated value, how many digits were
    read, and the rest of the input. *)
Fixpoint take_digits (s : str) (acc : Z) (n : Z) : Z * Z * str :=
  match s with
  | c :: r =>
      if is_digit c then take_digits r (10 * acc + digit_val c) (n + 1)
      else (acc, n, s)
  | [] => (acc, n, [])
  end.

Definition take_sign (s : str) : bool * str :=
  match s with
  | 45 :: r => (true, r)
  | 43 :: r => (false, r)
  | _ => (false, s)
  end.

(** The exponent part: [e] or [E], an optional sign and at least one
    digit, up to the end of the input. *)
Definition parse_exponent (s : str) : option Z :=
  match s with
  | [] => Some 0
  | c :: r =>
      if (c =? 101) || (c =? 69) then
        let '(neg, r1) := take_sign r in
        match take_digits r1 0 0 with
        | (v, n, []) => if 0 <? n then Some (if neg then - v else v) else None
        | _ => None
        end
      else None
  end.

Definition parse_number (neg : bool) (s : str) : option literal :=
  let '(ip, n1, r1) := take_digits s 0 0 in
  let '(m, n2, r2) :=
    match r1 with
    | 46 :: rf => take_digits rf ip 0
    | _ => (ip, 0, r1)
    end in
  if 0 <? n1 + n2 then
    match parse_exponent r2 with
    | Some e => Some (L_dec neg m (e - n2))
    | None => None
    end
  else None.

Definition parse_literal (s : str) : option literal :=
  let '(neg, r) := take_sign s in
  let low := map ascii_lower r in
  if str_eqb low (py "inf") || str_eqb low (py "infinity") then Some (L_inf neg)
  else if str_eqb low (py "nan") then Some L_nan
  else parse_number neg r.

(** The binary64 value nearest to the literal, ties to even. *)
Definition float_of_literal (l : literal) : float :=
  match l with
  | L_inf s => S754_infinity s
  | L_nan => S754_nan
  | L_dec s (Zpos p) e =>
      if 0 <=? e then binary_round prec emax s (Z.to_pos (Zpos p * 10 ^ e)) 0
      else SFdiv prec emax (S754_finite s p 0)
                 (S754_finite false (Z.to_pos (10 ^ (- e))) 0)
  | L_dec s _ _ => S754_zero s
  end.

(** [float(s)]; [None] is [ValueError]. *)
Definition py_float (s : str) : option float :=
  match to_ascii s with
  | None => None
  | Some a =>
      match drop_underscores 0 (strip_by is_c_space a) with
      | None => None
      | Some t => option_map float_of_literal (parse_literal t)
      end
  end.

(** [x > 0] *)
Definition gt_zero (x : float) : bool := SFltb (S754_zero false) x.

(** The integer nearest to [n / d], ties to even ([0 <= n], [0 < d]). *)
Definition round_half_even (n d : Z) : Z :=
  let q := n / d in
  match 2 * (n mod d) ?= d with
  | Lt => q
  | Gt => q + 1
  | Eq => if Z.even q then q else q + 1
  end.

(** [m * 2^e] in hundredths, correctly rounded. *)
Definition hundredths (m : positive) (e : Z) : Z :=
  if 0 <=? e then Zpos m * 2 ^ e * 100
  else round_half_even (Zpos m * 100) (2 ^ (- e)).

Definition two_digits (n : Z) : str := [48 + n / 10; 48 + n mod 10].

Definition sign_str (s : bool) : str := if s then [45] else [].

(** [f"{x:.2f}"] *)
Definition format_2f (x : float) : str :=
  match x with
  | S754_nan => py "nan"
  | S754_infinity s => sign_str s ++ py "inf"
  | S754_zero s => sign_str s ++ py "0.00"
  | S754_finite s m e =>
      let h := hundredths m e in
      sign_str s ++ decimal_of_Z (h / 100) ++ [46] ++ two_digits (h mod 100)
  end.

(** Thousands separators, on the digits taken least significant first. *)
Fixpoint group3 (rev_digits : str) : str :=
  match rev_digits with
  | a :: b :: c :: r =>
      match r with
      | [] => [a; b; c]
      | _ => a :: b :: c :: 44 :: group3 r
      end
  | _ => rev_digits
  end.

(** [f"{x:,.2f}"] *)
Definition format_comma_2f (x : float) : str :=
  match x with
  | S754_nan => py "nan"
  | S754_infinity s => sign_str s ++ py "inf"
  | S754_zero s => sign_str s ++ py "0.00"
  | S754_finite s m e =>
      let h := hundredths m e in
      sign_str s ++ rev (group3 (rev (decimal_of_Z (h / 100))))
        ++ [46] ++ two_digits (h mod 100)
  end.

End PyFloat.

(* ===================================================================== *)
(** ** The persisted tables ([init_db.initialize_database])               *)
(* ===================================================================== *)

Module Schema.
Import Text.

(** Row of [Users]. *)
Record User := mkUser {
  u_id : Z;
  u_username : str;
  u_password_hash : str;
  u_full_name : str;
  u_security_level : Z;
  u_emp_id : option Z
}.

(** Row of [Employees]. *)
Record Employee := mkEmployee {
  e_id : Z;
  e_name : str;
  e_email : str;
  e_department : str;
  e_security_level : Z
}.

(** Row of [EmpPayRaise]; [comments_encrypted] is the only nullable blob. *)
Record PayRaise := mkPayRaise {
  pr_id : Z;
  pr_emp_id : Z;
  pr_user_id : Z;
  payraise_date_encrypted : bytes;
  raiseamt_encrypted : bytes;
  comments_encrypted : option bytes
}.

(** The file [app.db]: the three tables in insertion order and, for each,
    the largest row id handed out so far (SQLite's [sqlite_sequence], kept
    because the keys are declared [AUTOINCREMENT]). *)
Record Database := mkDatabase {
  Users : list User;
  Employees : list Employee;
  EmpPayRaise : list PayRaise;
  seq_Users : Z;
  seq_Employees : Z;
  seq_EmpPayRaise : Z
}.

Definition empty_db : Database := mkDatabase [] [] [] 0 0 0.

(** An open connection.  SQLite enforces the declared foreign keys only on
    a connection that issued [PRAGMA foreign_keys = ON]. *)
Record Connection := mkConnection { foreign_keys : bool }.

(** [sqlite3.connect(path)]: enforcement is off until the pragma is sent. *)
Definition sqlite3_connect : Connection := mkConnection false.

(** [conn.execute("PRAGMA foreign_keys = ON;")] *)
Definition pragma_foreign_keys_on (c : Connection) : Connection :=
  mkConnection true.

Definition max_id (ids : list Z) : Z := fold_right Z.max 0 ids.

(** The row id an [AUTOINCREMENT] key gets: one more than every id in the
    table and every id ever handed out. *)
Definition next_rowid (ids : list Z) (seq : Z) : Z := Z.max (max_id ids) seq + 1.

Definition has_employee (db : Database) (emp_id : Z) : bool :=
  existsb (fun e => e_id e =? emp_id) (Employees db).

Definition has_user (db : Database) (user_id : Z) : bool :=
  existsb (fun u => u_id u =? user_id) (Users db).

End Schema.

(* ===================================================================== *)
(** ** The process: exceptions, the world and its monad                   *)
(* ===================================================================== *)

Module Runtime.
Import Text Schema.

(** The Python exceptions the modelled code can raise. *)
Inductive exn :=
| ValueError
| RuntimeError
| UnicodeEncodeError
| UnicodeDecodeError
| InvalidToken
| IntegrityError
| KeyError.

Inductive result (A : Type) :=
| Ok (a : A)
| Raise (e : exn).
Arguments Ok {A} a.
Arguments Raise {A} e.

(** The [cryptography.fernet.Fernet] primitive.  [fernet_rand] is what one
    call draws from the operating system (random octets and the clock). *)
Class Fernet := {
  fernet_rand : Type;
  (** [Fernet(key)] accepts the key (32 url-safe base64-encoded octets). *)
  fernet_key_ok : bytes -> bool;
  (** [Fernet.generate_key()] *)
  fernet_generate_key : fernet_rand -> bytes;
  (** [Fernet(key).encrypt(data)] *)
  fernet_encrypt : bytes -> fernet_rand -> bytes -> bytes;
  (** [Fernet(key).decrypt(token)]; [None] is [InvalidToken]. *)
  fernet_decrypt : bytes -> bytes -> option bytes
}.

(** The file [key.key] of the project root. *)
Record File := mkFile { file_bytes : bytes; file_mode : Z }.

Section World.
Context `{Fernet}.

Record World := mkWorld {
  (** [os.environ] *)
  environ : gmap string (list Z);
  (** [get_project_root() / "key.key"], when it exists *)
  key_file : option File;
  (** the process umask, applied when a file is created *)
  umask : Z;
  (** [utils._FERNET_INSTANCE]: the key of the cached cipher *)
  _FERNET_INSTANCE : option (list Z);
  (** [app.db] *)
  database : Database;
  (** messages passed to [flash], oldest first *)
  flashed : list string;
  (** the operating system's randomness, and how much of it was drawn *)
  os_random : nat -> fernet_rand;
  os_draws : nat
}.

Definition set_environ (f : gmap string (list Z) -> gmap string (list Z))
  (w : World) : World :=
  mkWorld (f (environ w)) (key_file w) (umask w) (_FERNET_INSTANCE w)
    (database w) (flashed w) (os_random w) (os_draws w).

Definition set_key_file (f : option File) (w : World) : World :=
  mkWorld (environ w) f (umask w) (_FERNET_INSTANCE w)
    (database w) (flashed w) (os_random w) (os_draws w).

Definition set_FERNET_INSTANCE (k : option (list Z)) (w : World) : World :=
  mkWorld (environ w) (key_file w) (umask w) k
    (database w) (flashed w) (os_random w) (os_draws w).

Definition set_database (d : Database) (w : World) : World :=
  mkWorld (environ w) (key_file w) (umask w) (_FERNET_INSTANCE w)
    d (flashed w) (os_random w) (os_draws w).

Definition set_flashed (l : list string) (w : World) : World :=
  mkWorld (environ w) (key_file w) (umask w) (_FERNET_INSTANCE w)
    (database w) l (os_random w) (os_draws w).

Definition set_os_draws (n : nat) (w : World) : World :=
  mkWorld (environ w) (key_file w) (umask w) (_FERNET_INSTANCE w)
    (database w) (flashed w) (os_random w) n.

(** A computation of the process. *)
Definition M (A : Type) : Type := World -> result A * World.

Definition ret {A} (a : A) : M A := fun w => (Ok a, w).

Definition raise {A} (e : exn) : M A := fun w => (Raise e, w).

Definition bind {A B} (m : M A) (k : A -> M B) : M B :=
  fun w =>
    match m w with
    | (Ok a, w') => k a w'
    | (Raise e, w') => (Raise e, w')
    end.

Definition gets {A} (f : World -> A) : M A := fun w => (Ok (f w), w).

Definition modify (f : World -> World) : M unit := fun w => (Ok tt, f w).

(** One draw from the operating system's randomness. *)
Definition urandom : M fernet_rand :=
  fun w => (Ok (os_random w (os_draws w)), set_os_draws (S (os_draws w)) w).

(** [flash(message)] *)
Definition flash (msg : string) : M unit :=
  modify (fun w => set_flashed (flashed w ++ [msg]) w).

(** [s.encode("utf-8")] *)
Definition py_encode (s : str) : M bytes :=
  match utf8_encode s with
  | Some b => ret b
  | None => raise UnicodeEncodeError
  end.

(** [b.decode("utf-8")] *)
Definition py_decode (b : bytes) : M str :=
  match utf8_decode b with
  | Some s => ret s
  | None => raise UnicodeDecodeError
  end.

(** [with conn: body]: the body's writes are committed when it returns and
    rolled back when it raises. *)
Definition transaction {A} (body : Database -> result (A * Database)) : M A :=
  fun w =>
    match body (database w) with
    | Ok (a, db') => (Ok a, set_database db' w)
    | Raise e => (Raise e, w)
    end.

End World.

Declare Scope py_scope.
Delimit Scope py_scope with py.
Notation "x <- c1 ;; c2" := (bind c1 (fun x => c2))
  (at level 100, c1 at next level, right associativity) : py_scope.
Notation "c1 ;; c2" := (bind c1 (fun _ => c2))
  (at level 100, right associativity) : py_scope.

End Runtime.

(* ===================================================================== *)
(** ** [utils.py]: key manager, field cipher, validators                  *)
(* ===================================================================== *)

Module utils.
Import Text PyFloat Schema Runtime.
Local Open Scope py_scope.

Section KeyAndCipher.
Context `{Fernet}.

(** [_load_fernet_key()]: the environment variable first, then the key
    file, else [RuntimeError]. *)
Definition _load_fernet_key : M bytes :=
  env_key <- gets (fun w => environ w !! "FERNET_KEY") ;;
  match env_key with
  | Some ((_ :: _) as k) => py_encode k
  | _ =>
      key_path <- gets key_file ;;
      match key_path with
      | Some f => ret (file_bytes f)
      | None => raise RuntimeError
      end
  end.

(** [get_fernet()]: the cached cipher, built on first use.  [Fernet(key)]
    raises [ValueError] on a malformed key and leaves the cache empty. *)
Definition get_fernet : M bytes :=
  inst <- gets _FERNET_INSTANCE ;;
  match inst with
  | Some f => ret f
  | None =>
      key <- _load_fernet_key ;;
      if fernet_key_ok key
      then modify (set_FERNET_INSTANCE (Some key)) ;; ret key
      else raise ValueError
  end.

(** [encrypt_text(plain)]; [plain = None] is Python's [None]. *)
Definition encrypt_text (plain : option str) : M bytes :=
  match plain with
  | None => raise ValueError
  | Some p =>
      fernet <- get_fernet ;;
      data <- py_encode (strip p) ;;
      r <- urandom ;;
      ret (fernet_encrypt fernet r data)
  end.

(** [decrypt_text(cipher)] *)
Definition decrypt_text (cipher : option bytes) : M str :=
  match cipher with
  | None => raise ValueError
  | Some c =>
      fernet <- get_fernet ;;
      match fernet_decrypt fernet c with
      | Some data => py_decode data
      | None => raise InvalidToken
      end
  end.

End KeyAndCipher.

(** *** [datetime.strptime(s, "%Y-%m-%d")] *)

Definition is_leap (y : Z) : bool :=
  ((y mod 4 =? 0) && negb (y mod 100 =? 0)) || (y mod 400 =? 0).

Definition days_in_month (y m : Z) : Z :=
  if m =? 2 then (if is_leap y then 29 else 28)
  else if (m =? 4) || (m =? 6) || (m =? 9) || (m =? 11) then 30
  else 31.

(** The text before the first ['-'] and, when there is one, what follows
    it. *)
Fixpoint split_dash (s : str) : str * option str :=
  match s with
  | [] => ([], None)
  | c :: r =>
      if c =? 45 then ([], Some r)
      else let '(t, rest) := split_dash r in (c :: t, rest)
  end.

(** [%Y]: [\d\d\d\d] *)
Definition match_Y (t : str) : option Z :=
  match t with
  | [a; b; c; d] =>
      if is_digit a && is_digit b && is_digit c && is_digit d
      then Some (1000 * digit_val a + 100 * digit_val b
                 + 10 * digit_val c + digit_val d)
      else None
  | _ => None
  end.

Definition in_range (lo hi c : Z) : bool := (lo <=? c) && (c <=? hi).

(** [%m]: [1[0-2]|0[1-9]|[1-9]] *)
Definition match_m (t : str) : option Z :=
  match t with
  | [a; b] =>
      if (a =? 49) && in_range 48 50 b then Some (10 + digit_val b)
      else if (a =? 48) && in_range 49 57 b then Some (digit_val b)
      else None
  | [a] => if in_range 49 57 a then Some (digit_val a) else None
  | _ => None
  end.

(** [%d]: [3[0-1]|[1-2]\d|0[1-9]|[1-9]| [1-9]] *)
Definition match_d (t : str) : option Z :=
  match t with
  | [a; b] =>
      if (a =? 51) && in_range 48 49 b then Some (30 + digit_val b)
      else if in_range 49 50 a && is_digit b
      then Some (10 * digit_val a + digit_val b)
      else if ((a =? 48) || (a =? 32)) && in_range 49 57 b
      then Some (digit_val b)
      else None
  | [a] => if in_range 49 57 a then Some (digit_val a) else None
  | _ => None
  end.

(** The parsed date; [None] is [ValueError] (the text does not match the
    format, data remains after it, or the day does not exist).  Digits are
    the ASCII ones. *)
Definition strptime_Ymd (s : str) : option (Z * Z * Z) :=
  match split_dash s with
  | (ty, Some r1) =>
      match split_dash r1 with
      | (tm, Some td) =>
          match match_Y ty, match_m tm, match_d td with
          | Some y, Some m, Some d =>
              if (1 <=? y) && (d <=? days_in_month y m)
              then Some (y, m, d) else None
          | _, _, _ => None
          end
      | _ => None
      end
  | _ => None
  end.

(** [is_valid_date(date_str)] *)
Definition is_valid_date (date_str : str) : bool :=
  if negb (truthy date_str) || negb (truthy (strip date_str)) then false
  else
    match strptime_Ymd (strip date_str) with
    | Some _ => true
    | None => false
    end.

(** [is_positive_number(value)] *)
Definition is_positive_number (value : str) : bool :=
  if negb (truthy value) || negb (truthy (strip value)) then false
  else
    match py_float value with
    | Some x => gt_zero x
    | None => false
    end.

End utils.

(* ===================================================================== *)
(** ** [init_db.py]: the key bootstrap                                    *)
(* ===================================================================== *)

Module init_db.
Import Text Schema Runtime.
Local Open Scope py_scope.

Section Bootstrap.
Context `{Fernet}.

(** [os.environ[name] = value]; a value with a NUL is [ValueError]. *)
Definition os_environ_set (name : string) (value : str) : M unit :=
  if existsb (Z.eqb 0) value then raise ValueError
  else modify (set_environ (fun env => <[name := value]> env)).

(** [key_path.write_bytes(data)]: a file that did not exist is created
    with the permissions the umask leaves of [0o666]. *)
Definition write_bytes (data : bytes) : M unit :=
  modify (fun w =>
    let mode := match key_file w with
                | Some f => file_mode f
                | None => Z.ldiff 0x1B6 (* 0o666 *) (umask w)
                end in
    set_key_file (Some (mkFile data mode)) w).

(** [os.chmod(key_path, mode)] (the file exists wherever it is called). *)
Definition chmod (mode : Z) : M unit :=
  modify (fun w =>
    match key_file w with
    | Some f => set_key_file (Some (mkFile (file_bytes f) mode)) w
    | None => w
    end).

(** [ensure_fernet_key(project_root)], at the project root. *)
Definition ensure_fernet_key : M bytes :=
  env_key <- gets (fun w => environ w !! "FERNET_KEY") ;;
  match env_key with
  | Some ((_ :: _) as k) => py_encode k
  | _ =>
      key_path <- gets key_file ;;
      match key_path with
      | Some f =>
          let key_bytes := file_bytes f in
          s <- py_decode key_bytes ;;
          os_environ_set "FERNET_KEY" s ;;
          ret key_bytes
      | None =>
          r <- urandom ;;
          let key_bytes := fernet_generate_key r in
          write_bytes key_bytes ;;
          chmod 0x180 (* 0o600 *) ;;
          s <- py_decode key_bytes ;;
          os_environ_set "FERNET_KEY" s ;;
          ret key_bytes
      end
  end.

End Bootstrap.

End init_db.

(* ===================================================================== *)
(** ** [models.py]: the record store                                      *)
(* ===================================================================== *)

Module models.
Import Text PyFloat Schema Runtime utils.
Local Open Scope py_scope.

(** *** The SQL statements *)

(** [INSERT INTO Employees (name, email, department, security_level)] *)
Definition insert_Employees (name email department : str) (security_level : Z)
  (db : Database) : result (Z * Database) :=
  let id := next_rowid (map e_id (Employees db)) (seq_Employees db) in
  Ok (id, mkDatabase (Users db)
            (Employees db ++ [mkEmployee id name email department security_level])
            (EmpPayRaise db) (seq_Users db) id (seq_EmpPayRaise db)).


(** [INSERT INTO EmpPayRaise (emp_id, user_id, payraise_date_encrypted,
    raiseamt_encrypted, comments_encrypted)].  The two foreign keys are
    checked only on a connection that enforces them. *)
Definition insert_EmpPayRaise (conn : Connection) (emp_id user_id : Z)
  (date amt : bytes) (comments : option bytes) (db : Database)
  : result (Z * Database) :=
  if foreign_keys conn
     && negb (has_employee db emp_id && has_user db user_id)
  then Raise IntegrityError
  else
    let id := next_rowid (map pr_id (EmpPayRaise db)) (seq_EmpPayRaise db) in
    Ok (id, mkDatabase (Users db) (Employees db)
              (EmpPayRaise db ++ [mkPayRaise id emp_id user_id date amt comments])
              (seq_Users db) (seq_Employees db) id).

(** Insertion into a list ordered by [le]. *)
Fixpoint insert_by {A} (le : A -> A -> bool) (x : A) (l : list A) : list A :=
  match l with
  | [] => [x]
  | y :: r => if le x y then x :: l else y :: insert_by le x r
  end.

(** [ORDER BY]: the rows ordered by [le] (rows that compare equal keep
    their relative order). *)
Definition order_by {A} (le : A -> A -> bool) (l : list A) : list A :=
  fold_right (insert_by le) [] l.

(** Code-point order on [str] (SQLite's [BINARY] collation). *)
Fixpoint str_leb (a b : str) : bool :=
  match a, b with
  | [], _ => true
  | _ :: _, [] => false
  | x :: a', y :: b' => (x <? y) || ((x =? y) && str_leb a' b')
  end.

(** [FROM EmpPayRaise pr JOIN Employees e ON e.id = pr.emp_id]: one row
    for each pay raise and each employee it refers to. *)
Definition join_Employees (db : Database) (pr : PayRaise)
  : list (Employee * PayRaise) :=
  map (fun e => (e, pr)) (List.filter (fun e => e_id e =? pr_emp_id pr) (Employees db)).

Definition id_desc (x y : Employee * PayRaise) : bool :=
  pr_id (snd y) <=? pr_id (snd x).

(** [SELECT ... FROM EmpPayRaise pr JOIN Employees e ON e.id = pr.emp_id
    WHERE keep(pr) ORDER BY pr.id DESC] *)
Definition select_payraises (keep : PayRaise -> bool) (db : Database)
  : list (Employee * PayRaise) :=
  order_by id_desc
    (flat_map (join_Employees db) (List.filter keep (EmpPayRaise db))).

(** *** The functions of [models.py] *)

(** [_get_connection()]: a fresh connection; nothing but the row factory
    is configured on it. *)
Definition _get_connection : Connection := sqlite3_connect.

(** One decrypted pay raise, as the dictionary the listings build; the
    keys a listing does not set are [None]. *)
Record Entry := mkEntry {
  id : option Z;
  employee_name : str;
  user_id : option Z;
  payraise_date : str;
  raise_amount : str;
  comments : str;
  raise_amount_display : option str
}.

(** [for row in rows: results.append(body(row))] *)
Fixpoint for_each `{Fernet} {A B} (body : A -> M B) (rows : list A)
  : M (list B) :=
  match rows with
  | [] => ret []
  | row :: rest =>
      x <- body row ;;
      xs <- for_each body rest ;;
      ret (x :: xs)
  end.

Section Store.
Context `{Fernet}.

(** [get_user_by_username(username)] *)
Definition get_user_by_username (username : str) : M (option User) :=
  gets (fun w =>
    List.find (fun u => str_eqb (u_username u) username) (Users (database w))).



(** [get_employees()] *)
Definition get_employees : M (list Employee) :=
  gets (fun w =>
    order_by (fun a b => str_leb (e_name a) (e_name b)) (Employees (database w))).


(** [create_employee(name, email, department, security_level)] *)
Definition create_employee (name email department : str) (security_level : Z)
  : M Z :=
  transaction (insert_Employees name email department security_level).

(** [create_payraise(user_id, emp_id, date_str, raise_amt, comments)] *)
Definition create_payraise (user_id emp_id : Z) (date_str : str)
  (raise_amt : float) (comments : option str) : M Z :=
  encrypted_date <- encrypt_text (Some (strip date_str)) ;;
  encrypted_amt <- encrypt_text (Some (format_2f raise_amt)) ;;
  encrypted_comments <-
    match comments with
    | Some ((_ :: _) as c) =>
        e <- encrypt_text (Some (strip c)) ;; ret (Some e)
    | _ => ret None
    end ;;
  transaction
    (insert_EmpPayRaise _get_connection emp_id user_id
       encrypted_date encrypted_amt encrypted_comments).

(** The [comments] value of a listed row: decrypted when the blob is
    neither [NULL] nor empty, else the empty string. *)
Definition decrypt_comments (c : option bytes) : M str :=
  match c with
  | Some ((_ :: _) as blob) => decrypt_text (Some blob)
  | _ => ret []
  end.

(** [get_payraises_for_user(user_id)] *)
Definition get_payraises_for_user (user_id : Z) : M (list Entry) :=
  rows <- gets (fun w =>
    select_payraises (fun pr => pr_user_id pr =? user_id) (database w)) ;;
  for_each (fun row : Employee * PayRaise =>
    d <- decrypt_text (Some (payraise_date_encrypted (snd row))) ;;
    a <- decrypt_text (Some (raiseamt_encrypted (snd row))) ;;
    c <- decrypt_comments (comments_encrypted (snd row)) ;;
    ret (mkEntry None (e_name (fst row)) None d a c None)) rows.

(** [get_all_payraises()] *)
Definition get_all_payraises : M (list Entry) :=
  rows <- gets (fun w => select_payraises (fun _ => true) (database w)) ;;
  for_each (fun row : Employee * PayRaise =>
    d <- decrypt_text (Some (payraise_date_encrypted (snd row))) ;;
    a <- decrypt_text (Some (raiseamt_encrypted (snd row))) ;;
    c <- decrypt_comments (comments_encrypted (snd row)) ;;
    ret (mkEntry (Some (pr_id (snd row))) (e_name (fst row))
           (Some (pr_user_id (snd row))) d a c None)) rows.

End Store.

End models.

(* ===================================================================== *)
(** ** [forms.py]: the form dataclasses                                   *)
(* ===================================================================== *)

Module forms.
Import Text PyFloat utils.

(** [(data.get(key) or "").strip()] *)
Definition field (data : gmap string (list Z)) (key : string) : str :=
  strip (match data !! key with Some v => v | None => [] end).

(** [int(s)]; [None] is [ValueError].  Digits are the ASCII ones. *)
Definition py_int (s : str) : option Z :=
  let '(neg, r) := take_sign (strip s) in
  match drop_underscores 0 r with
  | Some ds =>
      match take_digits ds 0 0 with
      | (v, n, []) => if 0 <? n then Some (if neg then - v else v) else None
      | _ => None
      end
  | None => None
  end.

Module LoginForm.

Record t := mk {
  username : str;
  password : str;
  errors : list string
}.

Definition from_mapping (data : gmap string (list Z)) : t :=
  let username := field data "username" in
  let password := field data "password" in
  let errors := [] in
  let errors :=
    if negb (truthy username) then errors ++ ["Username is required."%string]
    else errors in
  let errors :=
    if negb (truthy password) then errors ++ ["Password is required."%string]
    else errors in
  mk username password errors.

End LoginForm.

Module PayRaiseForm.

Record t := mk {
  payraise_date : str;
  raise_amount : str;
  comments : str;
  errors : list string
}.

Definition from_mapping (data : gmap string (list Z)) : t :=
  let payraise_date := field data "payraise_date" in
  let raise_amount := field data "raise_amount" in
  let comments := field data "comments" in
  let errors := [] in
  let errors :=
    if negb (is_valid_date payraise_date)
    then errors ++ ["PayRaiseDate must be a valid date (YYYY-MM-DD)."%string]
    else errors in
  let errors :=
    if negb (is_positive_number raise_amount)
    then errors ++ ["RaiseAmt must be a positive number."%string]
    else errors in
  mk payraise_date raise_amount comments errors.

End PayRaiseForm.

Module EmployeeForm.

Record t := mk {
  name : str;
  email : str;
  department : str;
  security_level : option Z;
  errors : list string
}.

Definition from_mapping (data : gmap string (list Z)) : t :=
  let name := field data "name" in
  let email := field data "email" in
  let department := field data "department" in
  let security_level_raw := field data "security_level" in
  let errors := [] in
  let errors :=
    if negb (truthy name) then errors ++ ["Employee name is required."%string]
    else errors in
  let '(security_level, errors) :=
    if truthy security_level_raw then
      match py_int security_level_raw with
      | Some n =>
          if (n =? 1) || (n =? 2) || (n =? 3) then (Some n, errors)
          else (Some n, errors ++ ["Security level must be 1, 2, or 3."%string])
      | None => (None, errors ++ ["Security level must be a number."%string])
      end
    else (None, errors ++ ["Security level is required."%string]) in
  let errors :=
    if negb (truthy department) then errors ++ ["Department is required."%string]
    else errors in
  mk name email department security_level errors.

End EmployeeForm.

End forms.

(* ===================================================================== *)
(** ** [app.py]: the guards and the gated routes                          *)
(* ===================================================================== *)

Module app.
Import Text PyFloat Schema Runtime utils models forms.
Local Open Scope py_scope.

Inductive Method := GET | POST.

(** The part of a request the views read. *)
Record Request := mkRequest {
  method : Method;
  form : gmap string (list Z)
}.

(** The session: a key that is absent, or present with the value [None],
    reads as [None]; [user_id] is never stored as [None], so for it [None]
    means that the key is absent. *)
Record Session := mkSession {
  user_id : option Z;
  security_level : option Z;
  emp_id : option Z
}.

(** What a template is rendered with. *)
Inductive Page :=
| page_plain
| page_payraise_form (f : PayRaiseForm.t)
| page_employee_form (f : EmployeeForm.t)
| page_raises (raises : list Entry)
| page_employees (employees : list Employee).

Inductive Response :=
| redirect (endpoint : string)
| render_template (template : string) (status : Z) (page : Page).

(** The response of every denial by level: [render_template("error.html"),
    404]. *)
Definition not_found : Response := render_template "error.html" 404 page_plain.

(** The [try] block of the two listing views: the display form of an
    amount, or the amount itself when it is not a number. *)
Definition with_display (entry : Entry) : Entry :=
  mkEntry (id entry) (employee_name entry) (models.user_id entry)
    (payraise_date entry) (raise_amount entry) (comments entry)
    (Some match py_float (raise_amount entry) with
          | Some amount => 36 :: format_comma_2f amount
          | None => raise_amount entry
          end).

Section Views.
Context `{Fernet}.

Definition View : Type := Session -> Request -> M Response.

(** [for message in form.errors: flash(message)] *)
Fixpoint flash_all (messages : list string) : M unit :=
  match messages with
  | [] => ret tt
  | m :: r => flash m ;; flash_all r
  end.

(** [@login_required] *)
Definition login_required (view : View) : View :=
  fun session request =>
    match user_id session with
    | None => flash "Please log in to continue." ;; ret (redirect "login")
    | Some _ => view session request
    end.

(** [@requires_security_level(min_level)] *)
Definition requires_security_level (min_level : Z) (view : View) : View :=
  fun session request =>
    match security_level session with
    | None => flash "Page not found" ;; ret not_found
    | Some level =>
        if level <? min_level
        then flash "Page not found" ;; ret not_found
        else view session request
    end.

(** [home()] *)
Definition home : View :=
  login_required (fun _ _ => ret (render_template "home.html" 200 page_plain)).

(** [show_payraises()] *)
Definition show_payraises : View :=
  login_required (fun session _ =>
    match user_id session with
    | None => raise KeyError
    | Some uid =>
        raises <- get_payraises_for_user uid ;;
        ret (render_template "show_payraises.html" 200
               (page_raises (map with_display raises)))
    end).

(** [add_payraise()] *)
Definition add_payraise : View :=
  login_required (fun session request =>
    let form :=
      PayRaiseForm.from_mapping
        (match method request with POST => form request | GET => ∅ end) in
    match method request with
    | POST =>
        match PayRaiseForm.errors form with
        | _ :: _ =>
            flash_all (PayRaiseForm.errors form) ;;
            flash "Record not added due to input errors." ;;
            ret (redirect "result")
        | [] =>
            match emp_id session with
            | None => flash "Page not found" ;; ret not_found
            | Some emp =>
                match user_id session, py_float (PayRaiseForm.raise_amount form) with
                | None, _ => raise KeyError
                | _, None => raise ValueError
                | Some uid, Some amount =>
                    create_payraise uid emp (PayRaiseForm.payraise_date form)
                      amount
                      (match PayRaiseForm.comments form with
                       | [] => None
                       | c => Some c
                       end) ;;
                    flash "Record added" ;;
                    ret (redirect "result")
                end
            end
        end
    | GET => ret (render_template "add_payraise.html" 200 (page_payraise_form form))
    end).

(** [add_employee()] *)
Definition add_employee : View :=
  login_required (requires_security_level 1 (fun session request =>
    let form :=
      EmployeeForm.from_mapping
        (match method request with POST => form request | GET => ∅ end) in
    match method request with
    | POST =>
        match EmployeeForm.errors form with
        | _ :: _ =>
            flash_all (EmployeeForm.errors form) ;;
            flash "Employee not added due to input errors." ;;
            ret (redirect "result")
        | [] =>
            create_employee (EmployeeForm.name form) (EmployeeForm.email form)
              (EmployeeForm.department form)
              (match EmployeeForm.security_level form with
               | Some 0 | None => 3
               | Some n => n
               end) ;;
            flash "Employee added successfully." ;;
            ret (redirect "result")
        end
    | GET => ret (render_template "add_employee.html" 200 (page_employee_form form))
    end)).

(** [list_employees()] *)
Definition list_employees : View :=
  login_required (requires_security_level 1 (fun session _ =>
    match security_level session with
    | Some 1 | Some 2 =>
        employees <- get_employees ;;
        ret (render_template "list_employees.html" 200 (page_employees employees))
    | _ => flash "Page not found" ;; ret not_found
    end)).

(** [list_payraises()] *)
Definition list_payraises : View :=
  login_required (requires_security_level 2 (fun session _ =>
    match security_level session with
    | Some 2 =>
        payraises <- get_all_payraises ;;
        ret (render_template "list_payraises.html" 200
               (page_raises (map with_display payraises)))
    | _ => flash "Page not found" ;; ret not_found
    end)).

(** [result()] *)
Definition result_view : View :=
  login_required (fun _ _ => ret (render_template "result.html" 200 page_plain)).

End Views.

End app.

(* ===================================================================== *)
(** ** Vocabulary of the statements                                       *)
(* ===================================================================== *)

Module Spec.
Import Text PyFloat Schema Runtime utils models forms app.

(** A [str] that UTF-8 can encode: every code point is a scalar value. *)
Definition valid_str (s : str) : bool := forallb is_scalar s.

(** Printable ASCII without blanks. *)
Definition plain_ascii (s : str) : bool :=
  forallb (fun c => (32 <? c) && (c <? 127)) s.

(** Octets of the ASCII range without NUL, as base64 produces. *)
Definition ascii_bytes (b : bytes) : bool :=
  forallb (fun c => (0 <? c) && (c <? 128)) b.

Section WithFernet.
Context `{Fernet}.

(** What the documentation of [cryptography.fernet] promises. *)
Record FernetLaws : Prop := {
  (** a token decrypts, under the key that made it, to the data *)
  fernet_roundtrip : forall k r data,
    fernet_key_ok k = true ->
    fernet_decrypt k (fernet_encrypt k r data) = Some data;
  (** a token carries the time stamp and the IV it was made with *)
  fernet_token_rand : forall k r r' data data',
    fernet_encrypt k r data = fernet_encrypt k r' data' -> r = r';
  (** a token is never empty *)
  fernet_token_nonempty : forall k r data, fernet_encrypt k r data <> [];
  (** a generated key is accepted, and is non-empty base64 text *)
  fernet_generated : forall r,
    fernet_key_ok (fernet_generate_key r) = true
    /\ ascii_bytes (fernet_generate_key r) = true
    /\ fernet_generate_key r <> []
}.

(** In [w], [get_fernet()] returns the cipher of key [k]. *)
Definition key_resolves (w : World) (k : bytes) : Prop :=
  fst (get_fernet w) = Ok k /\ fernet_key_ok k = true.

(** The world once the cipher of key [k] is cached. *)
Definition with_key (k : bytes) (w : World) : World :=
  set_FERNET_INSTANCE (Some k) w.

(** Neither source of [_load_fernet_key] has a key. *)
Definition no_key_source (w : World) : bool :=
  negb (truthy (default [] (environ w !! "FERNET_KEY")))
  && match key_file w with None => true | Some _ => false end.

(** [decrypt_text] once the key is [k]. *)
Definition decrypt_field (k : bytes) (c : bytes) : result str :=
  match fernet_decrypt k c with
  | Some data =>
      match utf8_decode data with
      | Some s => Ok s
      | None => Raise UnicodeDecodeError
      end
  | None => Raise InvalidToken
  end.

Definition decrypt_comments_field (k : bytes) (c : option bytes) : result str :=
  match c with
  | Some ((_ :: _) as blob) => decrypt_field k blob
  | _ => Ok []
  end.

(** The entry a listing builds from one selected row; [with_ids] tells
    [get_all_payraises] from [get_payraises_for_user]. *)
Definition entry_of (with_ids : bool) (k : bytes) (row : Employee * PayRaise)
  : result Entry :=
  match decrypt_field k (payraise_date_encrypted (snd row)) with
  | Raise e => Raise e
  | Ok d =>
      match decrypt_field k (raiseamt_encrypted (snd row)) with
      | Raise e => Raise e
      | Ok a =>
          match decrypt_comments_field k (comments_encrypted (snd row)) with
          | Raise e => Raise e
          | Ok c =>
              Ok (mkEntry
                    (if with_ids then Some (pr_id (snd row)) else None)
                    (e_name (fst row))
                    (if with_ids then Some (pr_user_id (snd row)) else None)
                    d a c None)
          end
      end
  end.

(** All the results of [f], or the first exception. *)
Fixpoint collect {A B} (f : A -> result B) (l : list A) : result (list B) :=
  match l with
  | [] => Ok []
  | x :: r =>
      match f x with
      | Raise e => Raise e
      | Ok y =>
          match collect f r with
          | Raise e => Raise e
          | Ok ys => Ok (y :: ys)
          end
      end
  end.

Definition is_ok {A} (r : result A) : bool :=
  match r with Ok _ => true | Raise _ => false end.

(** An optional text that can be encoded. *)
Definition valid_opt (s : option str) : bool :=
  match s with Some x => valid_str x | None => true end.

(** The comment a listing shows for what [create_payraise] was given. *)
Definition shown_comments (c : option str) : str :=
  match c with Some x => strip x | None => [] end.

End WithFernet.

(** The rows of the join in the order the pay raises were created. *)
Definition created_rows (keep : PayRaise -> bool) (db : Database)
  : list (Employee * PayRaise) :=
  flat_map (join_Employees db) (List.filter keep (EmpPayRaise db)).

(** The [pr.id] column of joined rows. *)
Definition row_ids (rows : list (Employee * PayRaise)) : list Z :=
  map (fun row => pr_id (snd row)) rows.

Fixpoint increasing (l : list Z) : bool :=
  match l with
  | [] => true
  | x :: r => forallb (Z.ltb x) r && increasing r
  end.

Fixpoint distinct (l : list Z) : bool :=
  match l with
  | [] => true
  | x :: r => negb (existsb (Z.eqb x) r) && distinct r
  end.

(** The key constraints of the schema: employee ids are distinct, and the
    pay raises, kept in creation order, have growing ids (the keys are
    [AUTOINCREMENT]). *)
Definition keys_ok (db : Database) : bool :=
  distinct (map e_id (Employees db)) && increasing (map pr_id (EmpPayRaise db)).

(** *** The access matrix *)

Inductive Level := L1 | L2 | L3.

Definition level_value (l : Level) : Z :=
  match l with L1 => 1 | L2 => 2 | L3 => 3 end.

Inductive Operation :=
| AddEmployee
| ListEmployees
| ListAllPayraises
| AddOwnPayraise.

(** The table of the access policy, as the specification words it; a
    session without level is denied everything. *)
Definition matrix_of_spec (level : option Level) (op : Operation) : bool :=
  match level, op with
  | None, _ => false
  | Some L3, (AddEmployee | ListEmployees | ListAllPayraises) => false
  | Some L1, ListAllPayraises => false
  | Some _, _ => true
  end.

(** The route behind each operation. *)
Definition route `{Fernet} (op : Operation) : View :=
  match op with
  | AddEmployee => add_employee
  | ListEmployees => list_employees
  | ListAllPayraises => list_payraises
  | AddOwnPayraise => add_payraise
  end.

(** A guard denied the request: the uniform "not found" page, or the
    redirection of a session that is not logged in. *)
Definition denied (r : result Response) : bool :=
  match r with
  | Ok (render_template "error.html" 404 page_plain) => true
  | Ok (redirect "login") => true
  | _ => false
  end.

End Spec.

(* ===================================================================== *)
(** ** A reference cipher and a reference world                           *)
(* ===================================================================== *)

Module demo.
Import Text PyFloat Schema Runtime utils models forms app Spec.

(** A stand-in for Fernet that satisfies [FernetLaws] (it protects
    nothing): the token is a version octet, the number drawn, a check sum
    of the key, and the data. *)
Definition check_sum (k : bytes) : Z := fold_right Z.add 0 k mod 256.

Definition demo_key_ok (k : bytes) : bool := Z.of_nat (length k) =? 44.

Definition demo_generate_key (r : Z) : bytes :=
  repeat (65 + r mod 26) 43 ++ [61].

Definition demo_encrypt (k : bytes) (r : Z) (data : bytes) : bytes :=
  0x80 :: r :: check_sum k :: data.

Definition demo_decrypt (k : bytes) (token : bytes) : option bytes :=
  match token with
  | v :: _ :: c :: data =>
      if (v =? 0x80) && (c =? check_sum k) then Some data else None
  | _ => None
  end.

#[export] Instance demo_fernet : Fernet := {|
  fernet_rand := Z;
  fernet_key_ok := demo_key_ok;
  fernet_generate_key := demo_generate_key;
  fernet_encrypt := demo_encrypt;
  fernet_decrypt := demo_decrypt
|}.

Definition demo_key : bytes := demo_generate_key 7.

Definition alice : Employee :=
  mkEmployee 1 (py "Alice Admin") (py "alice.admin@example.com") (py "Executive") 1.

Definition bob : Employee :=
  mkEmployee 2 (py "Bob Manager") (py "bob.manager@example.com") (py "Operations") 2.

Definition demo_users : list User :=
  [mkUser 1 (py "admin1") (py "hash1") (py "Alice Admin") 1 (Some 1);
   mkUser 2 (py "manager") (py "hash2") (py "Bob Manager") 2 (Some 2);
   mkUser 3 (py "staff") (py "hash3") (py "Cara Staff") 3 None].

(** The operating system's draws: the n-th one is [n]. *)
Definition counter (n : nat) : Z := Z.of_nat n.

(** A process with the key in its environment and two employees. *)
Definition demo_world : World :=
  mkWorld (<["FERNET_KEY" := demo_key]> ∅) None 0x12 (* 0o022 *) None
    (mkDatabase demo_users [alice; bob] [] 3 2 0) [] counter 0%nat.

(** The same process before any key exists. *)
Definition bare_world : World :=
  mkWorld ∅ None 0x12 (* 0o022 *) None
    (mkDatabase demo_users [alice; bob] [] 3 2 0) [] counter 0%nat.

(** [demo_world]'s store after two pay raises, the older one with a date
    blob that is not a token. *)
Definition corrupted_world : World :=
  mkWorld (<["FERNET_KEY" := demo_key]> ∅) None 0x12 None
    (mkDatabase demo_users [alice; bob]
       [mkPayRaise 1 1 1 [1; 2; 3] (demo_encrypt demo_key 1 (py "100.00")) None;
        mkPayRaise 2 2 2 (demo_encrypt demo_key 2 (py "2025-01-01"))
          (demo_encrypt demo_key 3 (py "1250.00")) None]
       3 2 2) [] counter 4%nat.

(** [demo_world]'s store after two pay raises that decrypt. *)
Definition two_raises_world : World :=
  mkWorld (<["FERNET_KEY" := demo_key]> ∅) None 0x12 None
    (mkDatabase demo_users [alice; bob]
       [mkPayRaise 1 1 1 (demo_encrypt demo_key 0 (py "2024-12-01"))
          (demo_encrypt demo_key 1 (py "100.00")) None;
        mkPayRaise 2 2 2 (demo_encrypt demo_key 2 (py "2025-01-01"))
          (demo_encrypt demo_key 3 (py "1250.00")) None]
       3 2 2) [] counter 4%nat.


(** The binary64 value of [12.5]. *)
Definition twelve_and_a_half : float := S754_finite false 7036874417766400 (-49).

(** A valid pay-raise form. *)
Definition demo_form : gmap string (list Z) :=
  <["payraise_date" := py "2025-01-01"]>
    (<["raise_amount" := py "12.5"]>
       (<["comments" := py "Annual merit increase"]> ∅)).

End demo.

(* ===================================================================== *)
(** ** [app.py]: logging in and out, the error pages                      *)
(* ===================================================================== *)

Module werkzeug.
Import Text Runtime.

(** [werkzeug.security]: the salt of a new hash is drawn from the
    operating system. *)
Class Security `{Fernet} := {
  generate_password_hash : fernet_rand -> str -> str;
  check_password_hash : str -> str -> bool
}.

End werkzeug.

Module app_auth.
Import Text PyFloat Schema Runtime utils models forms app werkzeug.
Local Open Scope py_scope.

(** The whole session: the keys the gated views read, and the two that
    only the templates read. *)
Record SessionData := mkSessionData {
  keys : Session;
  username : option str;
  full_name : option str
}.

(** The session after [session.clear()]. *)
Definition cleared : SessionData :=
  mkSessionData (mkSession None None None) None None.

(** What [login] answers: a redirection, or [login.html] with the form. *)
Inductive AuthResponse :=
| auth_redirect (endpoint : string)
| auth_render (template : string) (status : Z) (form : LoginForm.t).

Section Auth.
Context `{Fernet} `{!Security}.

(** [login()], the view of ["/"] and ["/login"]. *)
Definition login (session : SessionData) (request : Request)
  : M (AuthResponse * SessionData) :=
  match user_id (keys session) with
  | Some _ => ret (auth_redirect "home", session)
  | None =>
      let form :=
        LoginForm.from_mapping
          (match method request with POST => form request | GET => ∅ end) in
      match method request with
      | POST =>
          match LoginForm.errors form with
          | _ :: _ =>
              flash_all (LoginForm.errors form) ;;
              ret (auth_render "login.html" 200 form, session)
          | [] =>
              user_row <- get_user_by_username (LoginForm.username form) ;;
              match user_row with
              | Some row =>
                  if check_password_hash (u_password_hash row)
                       (LoginForm.password form)
                  then
                    flash "Logged in successfully." ;;
                    ret (auth_redirect "home",
                         mkSessionData
                           (mkSession (Some (u_id row))
                              (Some (u_security_level row)) (u_emp_id row))
                           (Some (u_username row)) (Some (u_full_name row)))
                  else
                    flash "invalid username and/or password!" ;;
                    ret (auth_render "login.html" 200 form, session)
              | None =>
                  flash "invalid username and/or password!" ;;
                  ret (auth_render "login.html" 200 form, session)
              end
          end
      | GET => ret (auth_render "login.html" 200 form, session)
      end
  end.

(** [logout()] *)
Definition logout (session : SessionData) : M (Response * SessionData) :=
  flash "You have been logged out." ;;
  ret (redirect "login", cleared).

(** [error()] *)
Definition error : M Response := ret not_found.

(** [page_not_found(error)], the handler of every unknown URL. *)
Definition page_not_found : M Response :=
  flash "Page not found" ;; ret not_found.

End Auth.

End app_auth.

(* ===================================================================== *)
(** ** Further vocabulary                                                 *)
(* ===================================================================== *)

Module SpecMore.
Import Text PyFloat Schema Runtime utils models forms app werkzeug app_auth Spec.
Local Open Scope py_scope.

Definition four_digits (y : Z) : str :=
  [48 + y / 1000; 48 + (y / 100) mod 10; 48 + (y / 10) mod 10; 48 + y mod 10].

(** A date written [YYYY-MM-DD], zero-padded. *)
Definition iso_date (y m d : Z) : str :=
  four_digits y ++ [45] ++ two_digits m ++ [45] ++ two_digits d.

(** A day of the proleptic Gregorian calendar, from year 1 on. *)
Definition real_date (y m d : Z) : bool :=
  (1 <=? y) && (1 <=? m) && (m <=? 12) && (1 <=? d) && (d <=? days_in_month y m).

(** An entry of [get_all_payraises] as [get_payraises_for_user] builds
    it: without the two ids. *)
Definition user_view (e : Entry) : Entry :=
  mkEntry None (employee_name e) None (payraise_date e) (raise_amount e)
    (comments e) (raise_amount_display e).

Definition of_user (uid : Z) (e : Entry) : bool :=
  match models.user_id e with
  | Some u => u =? uid
  | None => false
  end.

(** The seven views behind [@login_required]. *)
Inductive Gated :=
| g_home
| g_show_payraises
| g_add_payraise
| g_add_employee
| g_list_employees
| g_list_payraises
| g_result.

Definition gated_view `{Fernet} (g : Gated) : View :=
  match g with
  | g_home => home
  | g_show_payraises => show_payraises
  | g_add_payraise => add_payraise
  | g_add_employee => add_employee
  | g_list_employees => list_employees
  | g_list_payraises => list_payraises
  | g_result => result_view
  end.

(** What [@login_required] does with a session that is not logged in. *)
Definition login_refusal `{Fernet} : M Response :=
  flash "Please log in to continue." ;; ret (redirect "login").

(** [w1] can be reached from [w] by the cipher alone: same store, same
    flashed messages, and the same outcome of [get_fernet]. *)
Definition cipher_step `{Fernet} (w w1 : World) : Prop :=
  database w1 = database w
  /\ flashed w1 = flashed w
  /\ fst (get_fernet w1) = fst (get_fernet w).

(** The exceptions [get_fernet] can raise. *)
Definition key_error (e : exn) : bool :=
  match e with
  | RuntimeError | ValueError | UnicodeEncodeError => true
  | _ => false
  end.

(** What [werkzeug.security] promises: a hash checks against the password
    it was made from. *)
Definition SecurityLaws `{Fernet} `{!Security} : Prop :=
  forall r password,
    check_password_hash (generate_password_hash r password) password = true.

End SpecMore.


(* ===================================================================== *)
(** ** [init_db.py]: creating and seeding the database                    *)
(* ===================================================================== *)

Module init_db_seed.
Import Text Schema Runtime utils init_db models werkzeug.
Local Open Scope py_scope.

(** The [employee] dictionary of a seed entry. *)
Record SeedEmployee := mkSeedEmployee {
  se_name : str;
  se_email : str;
  se_department : str;
  se_security_level : Z
}.

(** An entry of the seed list. *)
Record SeedEntry := mkSeedEntry {
  s_username : str;
  s_password : str;
  s_full_name : str;
  s_security_level : Z;
  s_employee : SeedEmployee
}.

(** The list [employees] of [initialize_database]. *)
Definition employees : list SeedEntry :=
  [mkSeedEntry (py "admin1") (py "AdminPass1") (py "Alice Admin") 1
     (mkSeedEmployee (py "Alice Admin") (py "alice.admin@example.com")
        (py "Executive") 1);
   mkSeedEntry (py "manager") (py "Manager1") (py "Bob Manager") 2
     (mkSeedEmployee (py "Bob Manager") (py "bob.manager@example.com")
        (py "Operations") 2);
   mkSeedEntry (py "staff") (py "Staff1") (py "Cara Staff") 3
     (mkSeedEmployee (py "Cara Staff") (py "cara.staff@example.com")
        (py "Support") 3)].

(** How a run of [initialize_database] ends.  [TypeError] is what
    [cur.fetchone()[0]] raises when the query selected no row. *)
Inductive Outcome :=
| Returned
| Raised (e : exn)
| TypeError.

(** *** The SQL statements *)

(** [SELECT id FROM Employees WHERE name = ? AND email = ?], then
    [fetchone()] *)
Definition select_employee (name email : str) (db : Database)
  : option Employee :=
  List.find (fun e => str_eqb (e_name e) name && str_eqb (e_email e) email)
    (Employees db).

(** [SELECT id FROM Users WHERE username = ?], then [fetchone()] *)
Definition select_user (username : str) (db : Database) : option User :=
  List.find (fun u => str_eqb (u_username u) username) (Users db).

(** [SELECT emp_id FROM Users WHERE id = ?], then [fetchone()] *)
Definition select_user_by_id (user_id : Z) (db : Database) : option User :=
  List.find (fun u => u_id u =? user_id) (Users db).

(** [SELECT COUNT( * ) FROM EmpPayRaise WHERE user_id = ?] *)
Definition count_payraises (user_id : Z) (db : Database) : Z :=
  Z.of_nat (length (List.filter (fun pr => pr_user_id pr =? user_id)
                      (EmpPayRaise db))).

(** [INSERT INTO Users (username, password_hash, full_name, security_level,
    emp_id)]: [username] is [UNIQUE], [emp_id] refers to [Employees]. *)
Definition insert_Users_linked (conn : Connection)
  (username password_hash full_name : str) (security_level emp_id : Z)
  (db : Database) : result (Z * Database) :=
  if existsb (fun u => str_eqb (u_username u) username) (Users db)
  then Raise IntegrityError
  else if foreign_keys conn && negb (has_employee db emp_id)
  then Raise IntegrityError
  else
    let id := next_rowid (map u_id (Users db)) (seq_Users db) in
    Ok (id, mkDatabase
              (Users db ++ [mkUser id username password_hash full_name
                              security_level (Some emp_id)])
              (Employees db) (EmpPayRaise db) id (seq_Employees db)
              (seq_EmpPayRaise db)).

(** The row of [Users] with its [emp_id] set. *)
Definition set_emp_id (emp_id : Z) (u : User) : User :=
  mkUser (u_id u) (u_username u) (u_password_hash u) (u_full_name u)
    (u_security_level u) (Some emp_id).

(** [UPDATE Users SET emp_id = ? WHERE id = ?]; the foreign key is checked
    for the rows that are updated. *)
Definition update_Users_emp_id (conn : Connection) (emp_id user_id : Z)
  (db : Database) : result (unit * Database) :=
  if foreign_keys conn && has_user db user_id && negb (has_employee db emp_id)
  then Raise IntegrityError
  else
    Ok (tt, mkDatabase
              (map (fun u => if u_id u =? user_id then set_emp_id emp_id u
                             else u) (Users db))
              (Employees db) (EmpPayRaise db) (seq_Users db)
              (seq_Employees db) (seq_EmpPayRaise db)).

(** [INSERT INTO EmpPayRaise (...)] with the [emp_id] read from [Users],
    which may be [NULL]; the column is [NOT NULL]. *)
Definition insert_EmpPayRaise_of (conn : Connection) (emp_id : option Z)
  (user_id : Z) (date amt : bytes) (comments : option bytes) (db : Database)
  : result (Z * Database) :=
  match emp_id with
  | None => Raise IntegrityError
  | Some e => insert_EmpPayRaise conn e user_id date amt comments db
  end.

Section Seeding.
Context `{Fernet} `{!Security}.

(** [conn.execute(statement)] for a statement that writes: the connection
    sees the write at once. *)
Definition execute {A} (stmt : Database -> result (A * Database)) : M A :=
  fun w =>
    match stmt (database w) with
    | Ok (a, db') => (Ok a, set_database db' w)
    | Raise e => (Raise e, w)
    end.

(** [conn.execute(query).fetchone()] and the like. *)
Definition query {A} (q : Database -> A) : M A :=
  gets (fun w => q (database w)).

(** [for x in l: body(x)] *)
Fixpoint for_in {A} (body : A -> M unit) (l : list A) : M unit :=
  match l with
  | [] => ret tt
  | x :: rest => body x ;; for_in body rest
  end.

(** One turn of the loop [for entry in employees], up to and including
    its [conn.commit()].  An exception leaves the [with] block, which
    rolls back what the turn wrote. *)
Definition seed_entry (conn : Connection) (entry : SeedEntry) : M unit :=
  fun w =>
    let emp := s_employee entry in
    let turn :=
      emp_row <- query (select_employee (se_name emp) (se_email emp)) ;;
      emp_id <-
        match emp_row with
        | Some e => ret (e_id e)
        | None =>
            execute (insert_Employees (se_name emp) (se_email emp)
                       (se_department emp) (se_security_level emp))
        end ;;
      user_row <- query (select_user (s_username entry)) ;;
      user_id <-
        match user_row with
        | Some u => ret (u_id u)
        | None =>
            r <- urandom ;;
            let password_hash := generate_password_hash r (s_password entry) in
            execute (insert_Users_linked conn (s_username entry) password_hash
                       (s_full_name entry) (s_security_level entry) emp_id)
        end ;;
      execute (update_Users_emp_id conn emp_id user_id) in
    match turn w with
    | (Ok _, w') => (Ok tt, w')
    | (Raise e, w') => (Raise e, set_database (database w) w')
    end.

(** The end of [initialize_database]: the example pay raise of the admin
    user, if that user has none. *)
Definition seed_payraise (conn : Connection) : World -> Outcome * World :=
  fun w =>
    match select_user (py "admin1") (database w) with
    | None => (TypeError, w)
    | Some admin =>
        let admin_user_id := u_id admin in
        match select_user_by_id admin_user_id (database w) with
        | None => (TypeError, w)
        | Some row =>
            let admin_emp_id := u_emp_id row in
            let has_raises := 0 <? count_payraises admin_user_id (database w) in
            if has_raises then (Returned, w)
            else
              let insert :=
                d <- encrypt_text (Some (py "2025-01-01")) ;;
                a <- encrypt_text (Some (py "1250.00")) ;;
                c <- encrypt_text (Some (py "Annual merit increase")) ;;
                execute (insert_EmpPayRaise_of conn admin_emp_id admin_user_id
                           d a (Some c)) in
              match insert w with
              | (Ok _, w') => (Returned, w')
              | (Raise e, w') => (Raised e, w')
              end
        end
    end.

(** [initialize_database(db_path)], on [app.db].  The three
    [CREATE TABLE IF NOT EXISTS] leave the tables as they are. *)
Definition initialize_database : World -> Outcome * World :=
  fun w =>
    let conn := pragma_foreign_keys_on sqlite3_connect in
    match for_in (seed_entry conn) employees w with
    | (Raise e, w1) => (Raised e, w1)
    | (Ok _, w1) => seed_payraise conn w1
    end.

(** [main()]; the second component is what it printed. *)
Definition main : World -> (Outcome * list string) * World :=
  fun w =>
    match ensure_fernet_key w with
    | (Raise e, w1) => ((Raised e, []), w1)
    | (Ok _, w1) =>
        match initialize_database w1 with
        | (Returned, w2) =>
            ((Returned, ["Database initialized and seeded successfully."%string]),
             w2)
        | (outcome, w2) => ((outcome, []), w2)
        end
    end.

End Seeding.

End init_db_seed.

Module SpecSeed.
Import Text Schema Runtime utils init_db models forms app werkzeug app_auth.
Import Spec SpecMore init_db_seed.

(** The connection [initialize_database] works on. *)
Definition seed_conn : Connection := pragma_foreign_keys_on sqlite3_connect.

(** The store after the employee of [entry] was looked up or inserted. *)
Definition employee_step (entry : SeedEntry) (db : Database) : Z * Database :=
  let emp := s_employee entry in
  match select_employee (se_name emp) (se_email emp) db with
  | Some e => (e_id e, db)
  | None =>
      let id := next_rowid (map e_id (Employees db)) (seq_Employees db) in
      (id, mkDatabase (Users db)
             (Employees db
              ++ [mkEmployee id (se_name emp) (se_email emp)
                    (se_department emp) (se_security_level emp)])
             (EmpPayRaise db) (seq_Users db) id (seq_EmpPayRaise db))
  end.

(** The store after the user of [entry] was looked up or inserted with
    the hash [h]. *)
Definition user_step (entry : SeedEntry) (h : str) (emp_id : Z) (db : Database)
  : Z * Database :=
  match select_user (s_username entry) db with
  | Some u => (u_id u, db)
  | None =>
      let id := next_rowid (map u_id (Users db)) (seq_Users db) in
      (id, mkDatabase
             (Users db ++ [mkUser id (s_username entry) h (s_full_name entry)
                             (s_security_level entry) (Some emp_id)])
             (Employees db) (EmpPayRaise db) id (seq_Employees db)
             (seq_EmpPayRaise db))
  end.

Definition relink (emp_id user_id : Z) (u : User) : User :=
  if u_id u =? user_id then set_emp_id emp_id u else u.

(** The store after one turn of the seeding loop. *)
Definition turn_db (entry : SeedEntry) (h : str) (db : Database) : Database :=
  let '(emp_id, db1) := employee_step entry db in
  let '(user_id, db2) := user_step entry h emp_id db1 in
  mkDatabase (map (relink emp_id user_id) (Users db2)) (Employees db2)
    (EmpPayRaise db2) (seq_Users db2) (seq_Employees db2) (seq_EmpPayRaise db2).

(** The process after one turn of the seeding loop. *)
Definition turn_world `{Fernet} `{!Security} (entry : SeedEntry) (w : World)
  : World :=
  let h := generate_password_hash (os_random w (os_draws w)) (s_password entry) in
  let w1 := set_database (turn_db entry h (database w)) w in
  match select_user (s_username entry) (database w) with
  | Some _ => w1
  | None => set_os_draws (S (os_draws w)) w1
  end.

(** The process after the loop over [l]. *)
Definition loop_world `{Fernet} `{!Security} (l : list SeedEntry) (w : World)
  : World :=
  fold_left (fun w entry => turn_world entry w) l w.

(** The account of [entry] is stored and linked to an employee that
    exists. *)
Definition linked (db : Database) (entry : SeedEntry) : bool :=
  match select_user (s_username entry) db with
  | Some u =>
      match u_emp_id u with
      | Some x => has_employee db x
      | None => false
      end
  | None => false
  end.

(** Every row with the id of [entry]'s account refers to an employee. *)
Definition refers (entry : SeedEntry) (db : Database) : Prop :=
  exists u,
    select_user (s_username entry) db = Some u
    /\ forall u', In u' (Users db) -> u_id u' = u_id u ->
         exists x, u_emp_id u' = Some x /\ has_employee db x = true.

(** The employee and the account of [entry] are stored, and the account
    is linked to the employee: the turn of [entry] has nothing to do. *)
Definition settled (entry : SeedEntry) (db : Database) : Prop :=
  exists e u,
    select_employee (se_name (s_employee entry)) (se_email (s_employee entry)) db
    = Some e
    /\ select_user (s_username entry) db = Some u
    /\ forall u', In u' (Users db) -> u_id u' = u_id u ->
         u_emp_id u' = Some (e_id e).

(** The account of [entry] carries a hash of its seed password and its
    seed level. *)
Definition seeded_account `{Fernet} `{!Security} (entry : SeedEntry)
  (db : Database) : Prop :=
  exists u r,
    select_user (s_username entry) db = Some u
    /\ u_password_hash u = generate_password_hash r (s_password entry)
    /\ u_security_level u = s_security_level entry.

(** The primary key of [Users]. *)
Definition users_key (db : Database) : bool := distinct (map u_id (Users db)).

(** The pay raise [initialize_database] seeds, as the full listing shows
    it. *)
Definition seeded_entry (n uid : Z) : Entry :=
  mkEntry (Some n) (py "Alice Admin") (Some uid) (py "2025-01-01")
    (py "1250.00") (py "Annual merit increase") None.

End SpecSeed.

(** A stand-in for [werkzeug.security] over the reference cipher: the
    hash is the salt, a dollar sign and the password (it hides nothing). *)
Module demo_security.
Import Text Schema Runtime forms app werkzeug init_db_seed demo.

Definition demo_generate_password_hash (salt : Z) (password : str) : str :=
  salt :: 36 :: password.

Definition demo_check_password_hash (pwhash password : str) : bool :=
  match pwhash with
  | _ :: 36 :: p => str_eqb p password
  | _ => false
  end.

#[export] Instance demo_werkzeug : @Security demo_fernet := {|
  generate_password_hash := demo_generate_password_hash;
  check_password_hash := demo_check_password_hash
|}.

(** A new machine: no key anywhere, an empty store. *)
Definition fresh_world : World :=
  mkWorld ∅ None 0x12 (* 0o022 *) None empty_db [] counter 0%nat.

(** The same machine after [python init_db.py]. *)
Definition seeded_world : World := snd (main fresh_world).

(** The login form, filled in. *)
Definition login_form (username password : str) : gmap string (list Z) :=
  <["username" := username]> (<["password" := password]> ∅).

End demo_security.

(* ===================================================================== *)
(** * Properties                                                          *)
(* ===================================================================== *)

Import Text PyFloat Schema Runtime utils models forms app Spec.

(** ** Bit operations as arithmetic *)

Lemma lor_disjoint (a k x : Z) :
  0 <= k -> 0 <= x < 2 ^ k -> Z.lor (a * 2 ^ k) x = a * 2 ^ k + x.
Proof.
  intros Hk Hx.
  rewrite <- Z.lxor_lor, <- Z.add_nocarry_lxor; trivial;
    apply Z.bits_inj'; intros n Hn; rewrite Z.land_spec, Z.bits_0;
    destruct (Z.lt_ge_cases n k) as [Hlt | Hge].
  - rewrite Z.mul_pow2_bits_low by lia. reflexivity.
  - rewrite <- (Z.mod_small x (2 ^ k)) by lia.
    rewrite Z.mod_pow2_bits_high by lia. apply andb_false_r.
  - rewrite Z.mul_pow2_bits_low by lia. reflexivity.
  - rewrite <- (Z.mod_small x (2 ^ k)) by lia.
    rewrite Z.mod_pow2_bits_high by lia. apply andb_false_r.
Qed.

Lemma lor_0x80 x : 0 <= x < 64 -> Z.lor 0x80 x = 128 + x.
Proof. intros. apply (lor_disjoint 2 6); lia. Qed.

Lemma lor_0xC0 x : 0 <= x < 32 -> Z.lor 0xC0 x = 192 + x.
Proof. intros. apply (lor_disjoint 6 5); lia. Qed.

Lemma lor_0xE0 x : 0 <= x < 16 -> Z.lor 0xE0 x = 224 + x.
Proof. intros. apply (lor_disjoint 14 4); lia. Qed.

Lemma lor_0xF0 x : 0 <= x < 8 -> Z.lor 0xF0 x = 240 + x.
Proof. intros. apply (lor_disjoint 30 3); lia. Qed.

Lemma land_0x3F x : Z.land x 0x3F = x mod 64.
Proof. apply (Z.land_ones x 6). lia. Qed.

Lemma land_0x1F x : Z.land x 0x1F = x mod 32.
Proof. apply (Z.land_ones x 5). lia. Qed.

Lemma land_0x0F x : Z.land x 0x0F = x mod 16.
Proof. apply (Z.land_ones x 4). lia. Qed.

Lemma land_0x07 x : Z.land x 0x07 = x mod 8.
Proof. apply (Z.land_ones x 3). lia. Qed.

Lemma shiftr_6 c : Z.shiftr c 6 = c / 64.
Proof. apply (Z.shiftr_div_pow2 c 6). lia. Qed.

Lemma shiftr_12 c : Z.shiftr c 12 = c / 4096.
Proof. apply (Z.shiftr_div_pow2 c 12). lia. Qed.

Lemma shiftr_18 c : Z.shiftr c 18 = c / 262144.
Proof. apply (Z.shiftr_div_pow2 c 18). lia. Qed.

Lemma lor_shiftl_6 a x : 0 <= x < 64 -> Z.lor (Z.shiftl a 6) x = a * 64 + x.
Proof. intros. rewrite Z.shiftl_mul_pow2 by lia. apply (lor_disjoint a 6); lia. Qed.

Lemma lor_shiftl_12 a x : 0 <= x < 4096 -> Z.lor (Z.shiftl a 12) x = a * 4096 + x.
Proof. intros. rewrite Z.shiftl_mul_pow2 by lia. apply (lor_disjoint a 12); lia. Qed.

Lemma lor_shiftl_18 a x :
  0 <= x < 262144 -> Z.lor (Z.shiftl a 18) x = a * 262144 + x.
Proof. intros. rewrite Z.shiftl_mul_pow2 by lia. apply (lor_disjoint a 18); lia. Qed.

(** ** The UTF-8 codec *)

Ltac zlia := Z.div_mod_to_equations; lia.

(** Decides the comparisons of the goal whose outcome [lia] can find. *)
Ltac decide_tests :=
  repeat match goal with
  | |- context [?a <=? ?b] =>
      (rewrite (proj2 (Z.leb_le a b)) by zlia)
      || (rewrite (proj2 (Z.leb_gt a b)) by zlia)
  | |- context [?a <? ?b] =>
      (rewrite (proj2 (Z.ltb_lt a b)) by zlia)
      || (rewrite (proj2 (Z.ltb_ge a b)) by zlia)
  | |- context [?a =? ?b] =>
      (rewrite (proj2 (Z.eqb_eq a b)) by zlia)
      || (rewrite (proj2 (Z.eqb_neq a b)) by zlia)
  end.

Lemma decode_1 c rest :
  0 <= c < 0x80 -> utf8_decode (c :: rest) = cons_opt c (utf8_decode rest).
Proof. intros Hc. cbn [utf8_decode]. decide_tests. reflexivity. Qed.

Lemma decode_2 c rest :
  0x80 <= c < 0x800 ->
  utf8_decode (Z.lor 0xC0 (Z.shiftr c 6) :: Z.lor 0x80 (Z.land c 0x3F) :: rest)
  = cons_opt c (utf8_decode rest).
Proof.
  intros Hc.
  rewrite shiftr_6, land_0x3F, lor_0xC0, lor_0x80 by zlia.
  cbn [utf8_decode]. unfold is_cont. decide_tests. cbn [andb].
  rewrite land_0x1F, land_0x3F, lor_shiftl_6 by zlia.
  f_equal. zlia.
Qed.

Lemma decode_3 c rest :
  0x800 <= c < 0x10000 -> is_surrogate c = false ->
  utf8_decode (Z.lor 0xE0 (Z.shiftr c 12)
               :: Z.lor 0x80 (Z.land (Z.shiftr c 6) 0x3F)
               :: Z.lor 0x80 (Z.land c 0x3F) :: rest)
  = cons_opt c (utf8_decode rest).
Proof.
  intros Hc Hs.
  rewrite shiftr_6, shiftr_12, !land_0x3F, lor_0xE0, !lor_0x80 by zlia.
  cbn [utf8_decode]. unfold is_cont. decide_tests. cbn [andb].
  rewrite land_0x0F, !land_0x3F, (lor_shiftl_6 _ _), lor_shiftl_12 by zlia.
  replace (((224 + c / 4096) mod 16) * 4096
           + (((128 + (c / 64) mod 64) mod 64) * 64 + (128 + c mod 64) mod 64))
    with c by zlia.
  rewrite Hs. decide_tests. reflexivity.
Qed.

Lemma decode_4 c rest :
  0x10000 <= c < 0x110000 ->
  utf8_decode (Z.lor 0xF0 (Z.shiftr c 18)
               :: Z.lor 0x80 (Z.land (Z.shiftr c 12) 0x3F)
               :: Z.lor 0x80 (Z.land (Z.shiftr c 6) 0x3F)
               :: Z.lor 0x80 (Z.land c 0x3F) :: rest)
  = cons_opt c (utf8_decode rest).
Proof.
  intros Hc.
  rewrite shiftr_6, shiftr_12, shiftr_18, !land_0x3F, lor_0xF0, !lor_0x80 by zlia.
  cbn [utf8_decode]. unfold is_cont. decide_tests. cbn [andb].
  rewrite land_0x07, !land_0x3F, (lor_shiftl_6 _ _), (lor_shiftl_12 _ _),
    lor_shiftl_18 by zlia.
  replace (((240 + c / 262144) mod 8) * 262144
           + (((128 + (c / 4096) mod 64) mod 64) * 4096
              + (((128 + (c / 64) mod 64) mod 64) * 64 + (128 + c mod 64) mod 64)))
    with c by zlia.
  decide_tests. reflexivity.
Qed.

Lemma decode_encode_cp c b rest :
  encode_cp c = Some b -> utf8_decode (b ++ rest) = cons_opt c (utf8_decode rest).
Proof.
  unfold encode_cp, is_scalar.
  destruct (0 <=? c) eqn:H0; [|discriminate].
  destruct (c <? 0x110000) eqn:H1; [|discriminate].
  destruct (is_surrogate c) eqn:Hs; [discriminate|]. cbn [andb negb].
  apply Z.leb_le in H0. apply Z.ltb_lt in H1.
  destruct (c <? 0x80) eqn:C1;
    [apply Z.ltb_lt in C1; intros [= <-]; apply decode_1; lia
    |apply Z.ltb_ge in C1].
  destruct (c <? 0x800) eqn:C2;
    [apply Z.ltb_lt in C2; intros [= <-]; apply decode_2; lia
    |apply Z.ltb_ge in C2].
  destruct (c <? 0x10000) eqn:C3;
    [apply Z.ltb_lt in C3; intros [= <-]; apply decode_3; [lia|exact Hs]
    |apply Z.ltb_ge in C3].
  intros [= <-]. apply decode_4. lia.
Qed.

Lemma encode_cp_scalar c : is_scalar c = true -> exists b, encode_cp c = Some b.
Proof.
  intros Hc. unfold encode_cp. rewrite Hc. cbn [negb].
  repeat match goal with |- context [if ?t then _ else _] => destruct t end;
    eexists; reflexivity.
Qed.

(** Every encodable [str] is encoded, and decoding gives it back. *)
Lemma utf8_roundtrip s :
  valid_str s = true ->
  exists b, utf8_encode s = Some b /\ utf8_decode b = Some s.
Proof.
  unfold valid_str. induction s as [|c s IH]; intros Hs.
  - exists []. split; reflexivity.
  - cbn [forallb] in Hs. apply andb_prop in Hs as [Hc Hs].
    destruct (IH Hs) as (bs & Es & Ds).
    destruct (encode_cp_scalar c Hc) as (b & Eb).
    exists (b ++ bs). cbn [utf8_encode]. rewrite Eb, Es. split; [reflexivity|].
    rewrite (decode_encode_cp c b bs Eb), Ds. reflexivity.
Qed.

(** Base64 text is its own encoding. *)
Lemma ascii_codec b :
  ascii_bytes b = true -> utf8_decode b = Some b /\ utf8_encode b = Some b.
Proof.
  unfold ascii_bytes. induction b as [|c b IH]; intros Hb.
  - split; reflexivity.
  - cbn [forallb] in Hb. apply andb_prop in Hb as [Hc Hb].
    apply andb_prop in Hc as [Hc0 Hc1].
    apply Z.ltb_lt in Hc0. apply Z.ltb_lt in Hc1.
    destruct (IH Hb) as [D E]. split.
    + rewrite decode_1 by lia. rewrite D. reflexivity.
    + cbn [utf8_encode]. rewrite E. unfold encode_cp, is_scalar, is_surrogate.
      decide_tests. reflexivity.
Qed.

(** ** [str.strip] *)

Lemma lstrip_by_suffix p s : exists pre, s = pre ++ lstrip_by p s.
Proof.
  induction s as [|c s [pre IH]]; [exists []; reflexivity|].
  cbn [lstrip_by]. destruct (p c).
  - exists (c :: pre). cbn [app]. rewrite <- IH. reflexivity.
  - exists []. reflexivity.
Qed.

Lemma lstrip_by_head p c s : p c = false -> lstrip_by p (c :: s) = c :: s.
Proof. intros Hc. cbn [lstrip_by]. rewrite Hc. reflexivity. Qed.

Lemma lstrip_by_idem p s : lstrip_by p (lstrip_by p s) = lstrip_by p s.
Proof.
  induction s as [|c s IH]; [reflexivity|].
  cbn [lstrip_by]. destruct (p c) eqn:Hc; [exact IH|].
  apply lstrip_by_head, Hc.
Qed.

Lemma rstrip_by_prefix p s : exists post, s = rstrip_by p s ++ post.
Proof.
  unfold rstrip_by. destruct (lstrip_by_suffix p (rev s)) as [pre E].
  exists (rev pre). rewrite <- rev_app_distr, <- E. symmetry. apply rev_involutive.
Qed.

Lemma rstrip_by_idem p s : rstrip_by p (rstrip_by p s) = rstrip_by p s.
Proof. unfold rstrip_by. rewrite rev_involutive, lstrip_by_idem. reflexivity. Qed.

(** What [lstrip] leaves is empty or starts with a character it keeps. *)
Lemma lstrip_by_fixed p s t :
  lstrip_by p s = s -> (exists post, s = t ++ post) -> lstrip_by p t = t.
Proof.
  intros Hs [post E]. destruct t as [|c t]; [reflexivity|].
  subst s. cbn [app lstrip_by] in Hs. cbn [lstrip_by].
  destruct (p c); [|reflexivity].
  exfalso. destruct (lstrip_by_suffix p (t ++ post)) as [pre E].
  rewrite Hs in E. apply (f_equal (@length Z)) in E.
  rewrite !length_app in E. cbn [length] in E. rewrite length_app in E. lia.
Qed.

(** [s.strip().strip() == s.strip()] *)
Lemma strip_by_idem p s : strip_by p (strip_by p s) = strip_by p s.
Proof.
  unfold strip_by.
  rewrite (lstrip_by_fixed p (lstrip_by p s) (rstrip_by p (lstrip_by p s))).
  - apply rstrip_by_idem.
  - apply lstrip_by_idem.
  - apply rstrip_by_prefix.
Qed.

Lemma strip_idem s : strip (strip s) = strip s.
Proof. apply strip_by_idem. Qed.

Lemma forallb_rev {A} (q : A -> bool) l : forallb q (rev l) = forallb q l.
Proof.
  induction l as [|x l IH]; [reflexivity|].
  cbn [rev forallb]. rewrite forallb_app, IH. cbn [forallb].
  rewrite andb_true_r. apply andb_comm.
Qed.

Lemma forallb_lstrip_by q p s :
  forallb q s = true -> forallb q (lstrip_by p s) = true.
Proof.
  intros Hs. destruct (lstrip_by_suffix p s) as [pre E].
  rewrite E, forallb_app in Hs. apply andb_prop in Hs. tauto.
Qed.

Lemma forallb_strip_by q p s :
  forallb q s = true -> forallb q (strip_by p s) = true.
Proof.
  intros Hs. unfold strip_by, rstrip_by.
  rewrite forallb_rev. apply forallb_lstrip_by. rewrite forallb_rev.
  apply forallb_lstrip_by, Hs.
Qed.

Lemma valid_str_strip s : valid_str s = true -> valid_str (strip s) = true.
Proof. apply forallb_strip_by. Qed.

Lemma strip_by_kept p s :
  forallb (fun c => negb (p c)) s = true -> strip_by p s = s.
Proof.
  intros Hs.
  assert (L : forall t, forallb (fun c => negb (p c)) t = true -> lstrip_by p t = t).
  { intros [|c t] Ht; [reflexivity|]. cbn [forallb] in Ht.
    apply andb_prop in Ht as [Hc _]. apply lstrip_by_head.
    destruct (p c); [discriminate|reflexivity]. }
  unfold strip_by, rstrip_by. rewrite (L s Hs), L, rev_involutive;
    [reflexivity|]. rewrite forallb_rev. exact Hs.
Qed.

Lemma forallb_impl {A} (q r : A -> bool) l :
  (forall x, q x = true -> r x = true) ->
  forallb q l = true -> forallb r l = true.
Proof.
  intros Hqr. induction l as [|x l IH]; [reflexivity|].
  cbn [forallb]. intros Hl. apply andb_prop in Hl as [Hx Hl].
  rewrite (Hqr x Hx), (IH Hl). reflexivity.
Qed.

Lemma plain_ascii_strip s : plain_ascii s = true -> strip s = s.
Proof.
  intros Hs. apply strip_by_kept. revert Hs. apply forallb_impl.
  intros c Hc. apply andb_prop in Hc as [H0 H1].
  apply Z.ltb_lt in H0. apply Z.ltb_lt in H1.
  unfold is_space. decide_tests. reflexivity.
Qed.

Lemma plain_ascii_valid s : plain_ascii s = true -> valid_str s = true.
Proof.
  apply forallb_impl. intros c Hc. apply andb_prop in Hc as [H0 H1].
  apply Z.ltb_lt in H0. apply Z.ltb_lt in H1.
  unfold is_scalar, is_surrogate. decide_tests. reflexivity.
Qed.

(** ** [f"{x:.2f}"] *)

Lemma uint_digits_plain d : plain_ascii (uint_digits d) = true.
Proof. induction d; cbn [uint_digits plain_ascii forallb]; trivial. Qed.

Lemma two_digits_plain n : 0 <= n < 100 -> plain_ascii (two_digits n) = true.
Proof.
  intros Hn. unfold two_digits, plain_ascii. cbn [forallb].
  decide_tests. reflexivity.
Qed.

Lemma format_2f_plain x : plain_ascii (format_2f x) = true.
Proof.
  destruct x as [s|s| |s m e]; try (destruct s; reflexivity); try reflexivity.
  unfold format_2f, plain_ascii. rewrite !forallb_app.
  fold (plain_ascii (decimal_of_Z (hundredths m e / 100))).
  fold (plain_ascii (two_digits (hundredths m e mod 100))).
  unfold decimal_of_Z. rewrite uint_digits_plain, two_digits_plain by zlia.
  destruct s; reflexivity.
Qed.

(** ** Key manager and field cipher *)

Section CipherFacts.
Context `{Fernet}.

Lemma world_eta (w : World) :
  mkWorld (environ w) (key_file w) (umask w) (_FERNET_INSTANCE w)
    (database w) (flashed w) (os_random w) (os_draws w) = w.
Proof. destruct w. reflexivity. Qed.

Lemma with_key_cached k w : _FERNET_INSTANCE w = Some k -> with_key k w = w.
Proof.
  intros E. unfold with_key, set_FERNET_INSTANCE. rewrite <- E. apply world_eta.
Qed.

(** [_load_fernet_key] only reads. *)
Lemma load_fernet_key_reads w : snd (_load_fernet_key w) = w.
Proof.
  unfold _load_fernet_key, bind, gets, py_encode, ret, raise.
  destruct (environ w !! "FERNET_KEY") as [[|c k]|]; cbn [fst snd];
    try destruct (utf8_encode (c :: k)); try destruct (key_file w); reflexivity.
Qed.

Lemma get_fernet_cached k w :
  _FERNET_INSTANCE w = Some k -> get_fernet w = (Ok k, w).
Proof. intros E. unfold get_fernet, bind, gets, ret. rewrite E. reflexivity. Qed.

(** When the cipher resolves, the call returns it and leaves it cached. *)
Lemma get_fernet_resolved k w :
  fst (get_fernet w) = Ok k -> get_fernet w = (Ok k, with_key k w).
Proof.
  unfold get_fernet, bind, gets, ret, raise, modify.
  destruct (_FERNET_INSTANCE w) as [f|] eqn:E; cbn [fst].
  - intros [= ->]. rewrite (with_key_cached k w E). reflexivity.
  - pose proof (load_fernet_key_reads w) as R.
    destruct (_load_fernet_key w) as [[key|e] w1]; cbn [snd] in R; subst w1;
      [|discriminate].
    destruct (fernet_key_ok key); cbn [fst]; [|discriminate].
    intros [= ->]. reflexivity.
Qed.

Lemma key_resolves_cached k w :
  fernet_key_ok k = true -> _FERNET_INSTANCE w = Some k -> key_resolves w k.
Proof. intros Hk E. split; [|exact Hk]. rewrite (get_fernet_cached k w E). reflexivity. Qed.

(** The effect of [encrypt_text] on an encodable text. *)
Lemma encrypt_text_run k w x :
  key_resolves w k -> valid_str x = true ->
  exists data,
    utf8_encode (strip x) = Some data
    /\ utf8_decode data = Some (strip x)
    /\ encrypt_text (Some x) w
       = (Ok (fernet_encrypt k (os_random w (os_draws w)) data),
          set_os_draws (S (os_draws w)) (with_key k w)).
Proof.
  intros [Hk _] Hx.
  destruct (utf8_roundtrip (strip x) (valid_str_strip x Hx)) as (data & E & D).
  exists data. repeat split; trivial.
  unfold encrypt_text, bind. rewrite (get_fernet_resolved k w Hk).
  unfold py_encode. rewrite E. reflexivity.
Qed.

(** The effect of [decrypt_text]. *)
Lemma decrypt_text_run k w c :
  fst (get_fernet w) = Ok k ->
  decrypt_text (Some c) w = (decrypt_field k c, with_key k w).
Proof.
  intros Hk. unfold decrypt_text, decrypt_field, bind.
  rewrite (get_fernet_resolved k w Hk).
  destruct (fernet_decrypt k c) as [data|]; [|reflexivity].
  unfold py_decode. destruct (utf8_decode data); reflexivity.
Qed.

Lemma resolved_after_encrypt k w n :
  fst (get_fernet (set_os_draws n (with_key k w))) = Ok k.
Proof. reflexivity. Qed.

Hypothesis laws : FernetLaws.

(** What [encrypt_text] returns decrypts to the stripped text. *)
Lemma encrypt_text_token k w x :
  key_resolves w k -> valid_str x = true ->
  exists token,
    encrypt_text (Some x) w
    = (Ok token, set_os_draws (S (os_draws w)) (with_key k w))
    /\ decrypt_field k token = Ok (strip x)
    /\ token <> [].
Proof.
  intros Hk Hx.
  destruct (encrypt_text_run k w x Hk Hx) as (data & _ & D & E).
  eexists. split; [exact E|]. split; [|apply (fernet_token_nonempty laws)].
  unfold decrypt_field.
  rewrite (fernet_roundtrip laws) by apply Hk. rewrite D. reflexivity.
Qed.

(** C5. For every encodable text [x], when the cipher resolves:
    [decrypt_text(encrypt_text(x)) == x.strip()]. *)
Theorem decrypt_encrypt_roundtrip (w : World) (k : bytes) (x : str) :
  key_resolves w k ->
  valid_str x = true ->
  exists c w1 w2,
    encrypt_text (Some x) w = (Ok c, w1)
    /\ decrypt_text (Some c) w1 = (Ok (strip x), w2).
Proof.
  intros Hk Hx.
  destruct (encrypt_text_run k w x Hk Hx) as (data & _ & D & E).
  eexists _, _, _. split; [exact E|].
  rewrite (decrypt_text_run k) by apply resolved_after_encrypt.
  unfold decrypt_field.
  rewrite (fernet_roundtrip laws) by apply Hk. rewrite D. reflexivity.
Qed.


End CipherFacts.

(** ** The listings *)

Section ListingFacts.
Context `{Fernet}.

Lemma collect_all_ok {A B} (f : A -> result B) l :
  forallb (fun x => is_ok (f x)) l = true ->
  exists ys, collect f l = Ok ys /\ length ys = length l.
Proof.
  induction l as [|x l IH]; cbn [forallb collect]; intros Hl.
  - exists []. split; reflexivity.
  - apply andb_prop in Hl as [Hx Hl]. destruct (IH Hl) as (ys & E & Len).
    destruct (f x) as [y|e]; [|discriminate].
    rewrite E. exists (y :: ys). cbn [length]. rewrite Len. split; reflexivity.
Qed.

Lemma collect_some_fail {A B} (f : A -> result B) l :
  forallb (fun x => is_ok (f x)) l = false -> exists e, collect f l = Raise e.
Proof.
  induction l as [|x l IH]; cbn [forallb collect]; intros Hl; [discriminate|].
  destruct (f x) as [y|e]; [|exists e; reflexivity].
  cbn [is_ok andb] in Hl. destruct (IH Hl) as (e & E).
  rewrite E. exists e. reflexivity.
Qed.

(** A loop whose body runs under the key [k] and leaves it cached. *)
Lemma for_each_run {A B} (body : A -> M B) (f : A -> result B) k :
  (forall row w, fst (get_fernet w) = Ok k ->
                 body row w = (f row, with_key k w)) ->
  forall rows w, fst (get_fernet w) = Ok k ->
    for_each body rows w
    = (collect f rows, match rows with [] => w | _ => with_key k w end).
Proof.
  intros Hbody. induction rows as [|row rest IH]; intros w Hk; [reflexivity|].
  cbn [for_each collect]. unfold bind. rewrite (Hbody row w Hk).
  destruct (f row) as [y|e]; [|reflexivity].
  rewrite (IH (with_key k w)) by reflexivity.
  destruct (collect f rest); destruct rest; reflexivity.
Qed.

Lemma decrypt_comments_run k w c :
  _FERNET_INSTANCE w = Some k ->
  decrypt_comments c w = (decrypt_comments_field k c, w).
Proof.
  intros E. destruct c as [[|b blob]|]; try reflexivity.
  cbn [decrypt_comments decrypt_comments_field].
  rewrite (decrypt_text_run k), (with_key_cached k w E); [reflexivity|].
  rewrite (get_fernet_cached k w E). reflexivity.
Qed.

(** The body of both listing loops. *)
Lemma entry_body_run (ids : bool) k (row : Employee * PayRaise) w :
  fst (get_fernet w) = Ok k ->
  (d <- decrypt_text (Some (payraise_date_encrypted (snd row))) ;;
   a <- decrypt_text (Some (raiseamt_encrypted (snd row))) ;;
   c <- decrypt_comments (comments_encrypted (snd row)) ;;
   ret (mkEntry (if ids then Some (pr_id (snd row)) else None)
          (e_name (fst row))
          (if ids then Some (pr_user_id (snd row)) else None) d a c None))%py w
  = (entry_of ids k row, with_key k w).
Proof.
  intros Hk. unfold bind, entry_of.
  rewrite (decrypt_text_run k w _ Hk).
  destruct (decrypt_field k (payraise_date_encrypted (snd row))); [|reflexivity].
  rewrite (decrypt_text_run k (with_key k w)) by reflexivity.
  destruct (decrypt_field k (raiseamt_encrypted (snd row))); [|reflexivity].
  rewrite (decrypt_comments_run k) by reflexivity.
  destruct (decrypt_comments_field k (comments_encrypted (snd row)));
    reflexivity.
Qed.

(** [get_all_payraises] decrypts the selected rows in their order. *)
Lemma get_all_payraises_run k w :
  fst (get_fernet w) = Ok k ->
  fst (get_all_payraises w)
  = collect (entry_of true k) (select_payraises (fun _ => true) (database w)).
Proof.
  intros Hk. unfold get_all_payraises, bind, gets.
  rewrite (for_each_run _ (entry_of true k) k); [reflexivity| |exact Hk].
  intros row w' Hk'. apply (entry_body_run true k row w' Hk').
Qed.

(** [get_payraises_for_user] likewise. *)
Lemma get_payraises_for_user_run k w uid :
  fst (get_fernet w) = Ok k ->
  fst (get_payraises_for_user uid w)
  = collect (entry_of false k)
      (select_payraises (fun pr => pr_user_id pr =? uid) (database w)).
Proof.
  intros Hk. unfold get_payraises_for_user, bind, gets.
  rewrite (for_each_run _ (entry_of false k) k); [reflexivity| |exact Hk].
  intros row w' Hk'. apply (entry_body_run false k row w' Hk').
Qed.

(** C2, as the code has it.  A listing has no handler around the
    decryption: it returns one entry for each selected row when every
    selected row decrypts, and it raises, returning no entry at all, as soon
    as a field of a selected row fails to decrypt. *)
Theorem listing_all_or_nothing (w : World) (k : bytes) (uid : Z) :
  key_resolves w k ->
  let all_rows := select_payraises (fun _ => true) (database w) in
  let user_rows :=
    select_payraises (fun pr => pr_user_id pr =? uid) (database w) in
  (forallb (fun row => is_ok (entry_of true k row)) all_rows = true ->
   exists l, fst (get_all_payraises w) = Ok l /\ length l = length all_rows)
  /\ (forallb (fun row => is_ok (entry_of true k row)) all_rows = false ->
      exists e, fst (get_all_payraises w) = Raise e)
  /\ (forallb (fun row => is_ok (entry_of false k row)) user_rows = true ->
      exists l, fst (get_payraises_for_user uid w) = Ok l
                /\ length l = length user_rows)
  /\ (forallb (fun row => is_ok (entry_of false k row)) user_rows = false ->
      exists e, fst (get_payraises_for_user uid w) = Raise e).
Proof.
  intros [Hk _] all_rows user_rows.
  rewrite (get_all_payraises_run k w Hk), (get_payraises_for_user_run k w uid Hk).
  fold all_rows user_rows.
  repeat split; intros Hrows;
    (apply collect_all_ok || apply collect_some_fail); exact Hrows.
Qed.

End ListingFacts.

(** ** [ORDER BY pr.id DESC] and the order of creation *)

Lemma insert_by_perm {A} (le : A -> A -> bool) x l :
  Permutation (insert_by le x l) (x :: l).
Proof.
  induction l as [|y l IH]; cbn [insert_by]; [reflexivity|].
  destruct (le x y); [reflexivity|].
  rewrite IH. apply perm_swap.
Qed.

(** [ORDER BY] returns the rows it was given. *)
Lemma order_by_perm {A} (le : A -> A -> bool) l : Permutation (order_by le l) l.
Proof.
  induction l as [|x l IH]; [reflexivity|].
  unfold order_by in *. cbn [fold_right].
  rewrite insert_by_perm. apply perm_skip, IH.
Qed.

Lemma insert_by_sorted x l :
  StronglySorted (fun a b => id_desc a b = true) l ->
  StronglySorted (fun a b => id_desc a b = true) (insert_by id_desc x l).
Proof.
  induction 1 as [|y l Hl IH Hy]; cbn [insert_by].
  - repeat constructor.
  - destruct (id_desc x y) eqn:Hxy.
    + constructor; [constructor; assumption|].
      constructor; [exact Hxy|].
      rewrite List.Forall_forall in *. intros z Hz. specialize (Hy z Hz).
      unfold id_desc in *. lia.
    + constructor; [exact IH|].
      rewrite List.Forall_forall in *. intros z Hz.
      apply (Permutation_in _ (insert_by_perm id_desc x l)) in Hz.
      destruct Hz as [<-|Hz]; [|auto].
      unfold id_desc in *. lia.
Qed.

(** The selected rows are in decreasing order of [pr.id]. *)
Lemma select_payraises_sorted keep db :
  StronglySorted (fun a b => pr_id (snd b) <= pr_id (snd a))
    (select_payraises keep db).
Proof.
  unfold select_payraises.
  assert (S : StronglySorted (fun a b => id_desc a b = true)
                (order_by id_desc (created_rows keep db))).
  { induction (created_rows keep db) as [|x l IH]; [constructor|].
    apply insert_by_sorted, IH. }
  revert S. unfold created_rows.
  generalize (order_by id_desc
                (flat_map (join_Employees db) (List.filter keep (EmpPayRaise db)))).
  induction 1 as [|y l Hl IH Hy]; constructor; [exact IH|].
  revert Hy. apply List.Forall_impl. intros z Hz. unfold id_desc in Hz. lia.
Qed.

Lemma insert_by_last {A} (le : A -> A -> bool) x l :
  forallb (fun y => negb (le x y)) l = true -> insert_by le x l = l ++ [x].
Proof.
  induction l as [|y l IH]; cbn [forallb insert_by app]; intros Hl; [reflexivity|].
  apply andb_prop in Hl as [Hy Hl].
  destruct (le x y); [discriminate|]. rewrite (IH Hl). reflexivity.
Qed.

(** Rows whose ids grow come out of [ORDER BY pr.id DESC] reversed. *)
Lemma order_by_increasing rows :
  increasing (row_ids rows) = true -> order_by id_desc rows = rev rows.
Proof.
  induction rows as [|x r IH]; [reflexivity|].
  cbn [row_ids map increasing]. intros Hr. apply andb_prop in Hr as [Hx Hr].
  unfold order_by in *. cbn [fold_right rev]. rewrite (IH Hr).
  apply insert_by_last. rewrite forallb_rev.
  rewrite forallb_forall in *. intros y Hy.
  specialize (Hx (pr_id (snd y)) (in_map _ _ _ Hy)).
  unfold id_desc. apply Z.ltb_lt in Hx.
  apply negb_true_iff, Z.leb_gt. exact Hx.
Qed.

Lemma filter_distinct x emps :
  distinct (map e_id emps) = true ->
  List.filter (fun e => e_id e =? x) emps = []
  \/ exists e, List.filter (fun e => e_id e =? x) emps = [e].
Proof.
  induction emps as [|e r IH]; [left; reflexivity|].
  cbn [map distinct List.filter]. intros Hd. apply andb_prop in Hd as [He Hd].
  destruct (e_id e =? x) eqn:Hx; [|exact (IH Hd)].
  right. exists e. f_equal. apply Z.eqb_eq in Hx. subst x.
  apply negb_true_iff in He. clear -He.
  induction r as [|e' r IH]; [reflexivity|].
  cbn [map existsb] in He. apply orb_false_elim in He as [He' He].
  cbn [List.filter]. rewrite Z.eqb_sym, He'. exact (IH He).
Qed.

Lemma filter_find_distinct x emps emp :
  distinct (map e_id emps) = true ->
  List.find (fun e => e_id e =? x) emps = Some emp ->
  List.filter (fun e => e_id e =? x) emps = [emp].
Proof.
  intros Hd Hf.
  assert (Hin : In emp (List.filter (fun e => e_id e =? x) emps)).
  { apply filter_In. apply find_some in Hf. exact Hf. }
  destruct (filter_distinct x emps Hd) as [E|[e E]]; rewrite E in *.
  - destruct Hin.
  - destruct Hin as [->|[]]. reflexivity.
Qed.

Lemma created_ids_stored keep db x :
  In x (row_ids (created_rows keep db)) -> In x (map pr_id (EmpPayRaise db)).
Proof.
  unfold row_ids, created_rows. rewrite in_map_iff.
  intros ([e pr] & <- & Hin). apply in_flat_map in Hin as (pr' & Hpr' & Hj).
  unfold join_Employees in Hj. apply in_map_iff in Hj as (e' & [= _ ->] & _).
  apply filter_In in Hpr' as [Hpr' _]. cbn [snd]. apply in_map, Hpr'.
Qed.

(** Under the key constraints the join keeps the ids growing. *)
Lemma created_rows_increasing keep db :
  keys_ok db = true -> increasing (row_ids (created_rows keep db)) = true.
Proof.
  unfold keys_ok. intros Hk. apply andb_prop in Hk as [Hd Hi].
  unfold created_rows, row_ids.
  induction (EmpPayRaise db) as [|pr rest IH]; [reflexivity|].
  cbn [map increasing] in Hi. apply andb_prop in Hi as [Hpr Hi].
  cbn [List.filter]. destruct (keep pr); [|exact (IH Hi)].
  cbn [flat_map]. rewrite map_app. unfold join_Employees at 1.
  destruct (filter_distinct (pr_emp_id pr) (Employees db) Hd) as [E|[e E]];
    rewrite E; cbn [map app]; [exact (IH Hi)|].
  cbn [increasing snd]. rewrite (IH Hi), andb_true_r.
  rewrite forallb_forall in *. intros x Hx. apply Hpr.
  apply in_map_iff in Hx as ([e' pr'] & <- & Hin).
  apply in_flat_map in Hin as (pr'' & Hpr'' & Hj).
  unfold join_Employees in Hj. apply in_map_iff in Hj as (e'' & [= _ ->] & _).
  apply filter_In in Hpr'' as [Hpr'' _]. cbn [snd]. apply in_map, Hpr''.
Qed.

(** Under the key constraints the selected rows are the joined rows from
    the last created to the first. *)
Lemma select_payraises_rev keep db :
  keys_ok db = true -> select_payraises keep db = rev (created_rows keep db).
Proof.
  intros Hk. unfold select_payraises.
  apply (order_by_increasing (created_rows keep db)).
  apply created_rows_increasing, Hk.
Qed.

Lemma max_id_ge x l : In x l -> x <= max_id l.
Proof.
  unfold max_id. induction l as [|y l IH]; cbn [In fold_right]; [tauto|].
  intros [->|Hx]; [lia|]. specialize (IH Hx). lia.
Qed.

Lemma increasing_snoc l n :
  increasing l = true -> (forall x, In x l -> x < n) ->
  increasing (l ++ [n]) = true.
Proof.
  induction l as [|y l IH]; [reflexivity|].
  cbn [increasing app]. intros Hl Hn. apply andb_prop in Hl as [Hy Hl].
  rewrite forallb_app, Hy. cbn [forallb andb]. rewrite andb_true_r.
  rewrite (proj2 (Z.ltb_lt y n)) by (apply Hn; left; reflexivity).
  cbn [andb]. apply IH; [exact Hl|].
  intros x Hx. apply Hn. right. exact Hx.
Qed.

(** The insertion of a pay raise keeps the key constraints. *)
Lemma insert_EmpPayRaise_keys_ok conn emp_id uid d a c db n db' :
  keys_ok db = true ->
  insert_EmpPayRaise conn emp_id uid d a c db = Ok (n, db') ->
  keys_ok db' = true.
Proof.
  unfold insert_EmpPayRaise, keys_ok. intros Hk.
  apply andb_prop in Hk as [Hd Hi].
  destruct (_ && _); [discriminate|]. intros [= <- <-].
  cbn [Employees EmpPayRaise]. rewrite Hd, map_app. cbn [map pr_id andb].
  apply increasing_snoc; [exact Hi|].
  intros x Hx. apply max_id_ge in Hx. unfold next_rowid. lia.
Qed.

Lemma keys_ok_empty : keys_ok empty_db = true.
Proof. reflexivity. Qed.

(** ** The record store *)

Section StoreFacts.
Context `{Fernet}.

(** Under the key constraints a listing visits the joined rows in the
    reverse of their creation. *)
Lemma listings_reverse_creation (w : World) (k : bytes) (uid : Z) :
  fst (get_fernet w) = Ok k ->
  keys_ok (database w) = true ->
  fst (get_all_payraises w)
  = collect (entry_of true k)
      (rev (created_rows (fun _ => true) (database w)))
  /\ fst (get_payraises_for_user uid w)
     = collect (entry_of false k)
         (rev (created_rows (fun pr => pr_user_id pr =? uid) (database w))).
Proof.
  intros Hk Hkeys.
  rewrite (get_all_payraises_run k w Hk), (get_payraises_for_user_run k w uid Hk).
  rewrite !select_payraises_rev by exact Hkeys. split; reflexivity.
Qed.

(** C8. In a store that satisfies its key constraints (row ids grow with
    creation), both listings decrypt and return the joined rows from the
    most recently created to the oldest; what they decrypt is in any case
    in decreasing order of row id. *)
Theorem listings_most_recent_first (w : World) (k : bytes) (uid : Z) :
  key_resolves w k ->
  keys_ok (database w) = true ->
  fst (get_all_payraises w)
  = collect (entry_of true k)
      (rev (created_rows (fun _ => true) (database w)))
  /\ fst (get_payraises_for_user uid w)
     = collect (entry_of false k)
         (rev (created_rows (fun pr => pr_user_id pr =? uid) (database w)))
  /\ StronglySorted (fun a b => pr_id (snd b) < pr_id (snd a))
       (rev (created_rows (fun _ => true) (database w))).
Proof.
  intros [Hk _] Hkeys.
  destruct (listings_reverse_creation w k uid Hk Hkeys) as [Eall Euser].
  split; [exact Eall|]. split; [exact Euser|].
  pose proof (created_rows_increasing (fun _ => true) (database w) Hkeys) as Hinc.
  clear -Hinc. induction (created_rows (fun _ => true) (database w)) as [|x l IH].
  - constructor.
  - cbn [row_ids map increasing] in Hinc. apply andb_prop in Hinc as [Hx Hl].
    cbn [rev]. specialize (IH Hl).
    assert (Hall : Forall (fun a => pr_id (snd x) < pr_id (snd a)) (rev l)).
    { rewrite List.Forall_forall. intros y Hy. apply in_rev in Hy.
      rewrite forallb_forall in Hx. apply Z.ltb_lt, Hx.
      apply (in_map (fun row => pr_id (snd row))), Hy. }
    clear Hx Hl. revert IH Hall. generalize (rev l). intros r.
    induction 1 as [|y r Hr IHr Hy]; intros Hall.
    + repeat constructor.
    + apply List.Forall_cons_iff in Hall as [Hxy Hall]. constructor.
      * apply IHr, Hall.
      * rewrite List.Forall_app. split; [exact Hy|]. repeat constructor. exact Hxy.
Qed.

Hypothesis laws : FernetLaws.

(** The row [create_payraise] stores, whatever its references. *)
Lemma create_payraise_run k w uid eid d a c :
  key_resolves w k -> valid_str d = true -> valid_opt c = true ->
  exists date_tok amt_tok com_tok draws,
    create_payraise uid eid d a c w
    = (Ok (next_rowid (map pr_id (EmpPayRaise (database w)))
             (seq_EmpPayRaise (database w))),
       set_database
         (mkDatabase (Users (database w)) (Employees (database w))
            (EmpPayRaise (database w)
             ++ [mkPayRaise
                   (next_rowid (map pr_id (EmpPayRaise (database w)))
                      (seq_EmpPayRaise (database w)))
                   eid uid date_tok amt_tok com_tok])
            (seq_Users (database w)) (seq_Employees (database w))
            (next_rowid (map pr_id (EmpPayRaise (database w)))
               (seq_EmpPayRaise (database w))))
         (set_os_draws draws (with_key k w)))
    /\ decrypt_field k date_tok = Ok (strip d)
    /\ decrypt_field k amt_tok = Ok (format_2f a)
    /\ decrypt_comments_field k com_tok = Ok (shown_comments c).
Proof.
  intros Hk Hd Hc.
  assert (Hcached : forall n, key_resolves (set_os_draws n (with_key k w)) k)
    by (intros n; split; [reflexivity | apply Hk]).
  destruct (encrypt_text_token laws k w (strip d) Hk (valid_str_strip d Hd))
    as (date_tok & E1 & D1 & _).
  rewrite strip_idem in D1.
  destruct (encrypt_text_token laws k _ (format_2f a)
              (Hcached (S (os_draws w)))
              (plain_ascii_valid _ (format_2f_plain a)))
    as (amt_tok & E2 & D2 & _).
  rewrite (plain_ascii_strip _ (format_2f_plain a)) in D2.
  unfold create_payraise, bind. rewrite E1, E2.
  destruct c as [[|c0 c]|].
  - exists date_tok, amt_tok, None, (S (S (os_draws w))).
    repeat split; trivial.
  - cbn [valid_opt] in Hc. unfold bind.
    match goal with
    | |- context [encrypt_text (Some (strip (c0 :: c))) ?w2] =>
        destruct (encrypt_text_token laws k w2 (strip (c0 :: c))
                    (key_resolves_cached k w2 (proj2 Hk) eq_refl)
                    (valid_str_strip _ Hc))
          as (com_tok & E3 & D3 & N3)
    end.
    rewrite strip_idem in D3. rewrite E3.
    exists date_tok, amt_tok, (Some com_tok), (S (S (S (os_draws w)))).
    repeat split; trivial.
    destruct com_tok; [contradiction|exact D3].
  - exists date_tok, amt_tok, None, (S (S (os_draws w))).
    repeat split; trivial.
Qed.

(** C3, as the code has it.  [create_payraise] opens its connection
    without the foreign-key pragma, so a reference to an employee or a user
    that does not exist is not rejected: the call returns the new row id and
    the row is stored. *)
Theorem create_payraise_dangling_reference
  (w : World) (k : bytes) (uid eid : Z) (d : str) (a : float) (c : option str) :
  key_resolves w k -> valid_str d = true -> valid_opt c = true ->
  has_employee (database w) eid && has_user (database w) uid = false ->
  exists n w' row,
    create_payraise uid eid d a c w = (Ok n, w')
    /\ EmpPayRaise (database w') = EmpPayRaise (database w) ++ [row]
    /\ pr_id row = n /\ pr_emp_id row = eid /\ pr_user_id row = uid.
Proof.
  intros Hk Hd Hc _.
  destruct (create_payraise_run k w uid eid d a c Hk Hd Hc)
    as (date_tok & amt_tok & com_tok & draws & E & _).
  eexists _, _, _. split; [exact E|]. repeat split.
Qed.

(** The sibling path: on a connection that sent the pragma, as the one of
    [initialize_database], the same insertion is refused and nothing is
    stored. *)
Lemma insert_EmpPayRaise_enforced (w : World) eid uid d a c :
  has_employee (database w) eid && has_user (database w) uid = false ->
  transaction
    (insert_EmpPayRaise (pragma_foreign_keys_on sqlite3_connect) eid uid d a c) w
  = (Raise IntegrityError, w).
Proof.
  intros Href. unfold transaction, insert_EmpPayRaise.
  cbn [foreign_keys pragma_foreign_keys_on]. rewrite Href. reflexivity.
Qed.

Lemma created_rows_snoc keep us es prs su se sp sp' row :
  created_rows keep (mkDatabase us es (prs ++ [row]) su se sp')
  = created_rows keep (mkDatabase us es prs su se sp)
    ++ (if keep row
        then map (fun e => (e, row))
               (List.filter (fun e => e_id e =? pr_emp_id row) es)
        else []).
Proof.
  unfold created_rows. cbn [EmpPayRaise]. rewrite List.filter_app, flat_map_app.
  f_equal. cbn [List.filter]. destruct (keep row); [|reflexivity].
  cbn [flat_map]. apply app_nil_r.
Qed.

Lemma database_eta (db : Database) :
  mkDatabase (Users db) (Employees db) (EmpPayRaise db)
    (seq_Users db) (seq_Employees db) (seq_EmpPayRaise db) = db.
Proof. destruct db. reflexivity. Qed.

(** C9.  After [create_payraise(user_id, emp_id, date, a, comments)] for
    an existing employee, each listing starts with the new record, and its
    amount is [f"{a:.2f}"]; the older entries follow unchanged. *)
Theorem created_amount_is_formatted
  (w : World) (k : bytes) (uid eid : Z) (d : str) (a : float) (c : option str)
  (emp : Employee) :
  key_resolves w k ->
  keys_ok (database w) = true ->
  valid_str d = true -> valid_opt c = true ->
  List.find (fun e => e_id e =? eid) (Employees (database w)) = Some emp ->
  exists n w',
    create_payraise uid eid d a c w = (Ok n, w')
    /\ fst (get_all_payraises w')
       = match fst (get_all_payraises w) with
         | Ok l => Ok (mkEntry (Some n) (e_name emp) (Some uid) (strip d)
                         (format_2f a) (shown_comments c) None :: l)
         | Raise e => Raise e
         end
    /\ fst (get_payraises_for_user uid w')
       = match fst (get_payraises_for_user uid w) with
         | Ok l => Ok (mkEntry None (e_name emp) None (strip d)
                         (format_2f a) (shown_comments c) None :: l)
         | Raise e => Raise e
         end.
Proof.
  intros Hk Hkeys Hd Hc Hemp.
  destruct (create_payraise_run k w uid eid d a c Hk Hd Hc)
    as (date_tok & amt_tok & com_tok & draws & E & D1 & D2 & D3).
  eexists _, _. split; [exact E|].
  match type of E with _ = (_, ?w1) =>
    assert (Hk' : key_resolves w1 k) by (split; [reflexivity | apply Hk]);
    assert (Hkeys' : keys_ok (database w1) = true)
  end.
  { eapply (insert_EmpPayRaise_keys_ok _get_connection eid uid date_tok amt_tok
              com_tok (database w)); [exact Hkeys | reflexivity]. }
  destruct (listings_reverse_creation w k uid (proj1 Hk) Hkeys) as [-> ->].
  destruct (listings_reverse_creation _ k uid (proj1 Hk') Hkeys') as [-> ->].
  cbn [database set_database].
  rewrite <- (database_eta (database w)) at 3 6.
  rewrite !(created_rows_snoc _ _ _ _ _ _ (seq_EmpPayRaise (database w))).
  rewrite database_eta. cbn [pr_user_id pr_emp_id].
  unfold keys_ok in Hkeys. apply andb_prop in Hkeys as [Hdist _].
  rewrite (filter_find_distinct eid _ emp Hdist Hemp), Z.eqb_refl.
  cbn [map]. rewrite !rev_app_distr. cbn [rev app collect].
  split; unfold entry_of at 1;
    cbn [snd fst payraise_date_encrypted raiseamt_encrypted
           comments_encrypted pr_id pr_user_id];
    rewrite D1, D2, D3; reflexivity.
Qed.

End StoreFacts.

(** ** The key bootstrap *)

Section KeyFacts.
Context `{Fernet}.
Hypothesis laws : FernetLaws.

Lemma ascii_bytes_no_nul b : ascii_bytes b = true -> existsb (Z.eqb 0) b = false.
Proof.
  unfold ascii_bytes. induction b as [|c b IH]; [reflexivity|].
  cbn [forallb existsb]. intros Hb. apply andb_prop in Hb as [Hc Hb].
  apply andb_prop in Hc as [Hc _]. apply Z.ltb_lt in Hc.
  rewrite (IH Hb), (proj2 (Z.eqb_neq 0 c)) by lia. reflexivity.
Qed.

(** C4, as the code has it.  With no key in the environment and no key
    file, the resolver of the running application, [_load_fernet_key],
    raises [RuntimeError]; it is [init_db.ensure_fernet_key] that generates
    a key, writes it to [key.key] with mode [0o600], exports it to the
    environment, and thereby makes the application's resolver return that
    key for the rest of the process. *)
Theorem ensure_fernet_key_generates (w : World) :
  no_key_source w = true ->
  fst (_load_fernet_key w) = Raise RuntimeError
  /\ exists w',
       init_db.ensure_fernet_key w
       = (Ok (fernet_generate_key (os_random w (os_draws w))), w')
       /\ key_file w'
          = Some (mkFile (fernet_generate_key (os_random w (os_draws w)))
                    0x180 (* 0o600 *))
       /\ environ w' !! "FERNET_KEY"
          = Some (fernet_generate_key (os_random w (os_draws w)))
       /\ fst (_load_fernet_key w')
          = Ok (fernet_generate_key (os_random w (os_draws w)))
       /\ (_FERNET_INSTANCE w = None ->
           key_resolves w' (fernet_generate_key (os_random w (os_draws w)))).
Proof.
  unfold no_key_source. intros Hno. apply andb_prop in Hno as [Henv Hfile].
  destruct (key_file w) as [f|] eqn:Ef; [discriminate|]. clear Hfile.
  destruct (fernet_generated laws (os_random w (os_draws w))) as (Hok & Hascii & Hne).
  destruct (ascii_codec _ Hascii) as [Hdec Henc].
  pose proof (ascii_bytes_no_nul _ Hascii) as Hnul.
  set (key := fernet_generate_key (os_random w (os_draws w))) in *.
  assert (Hload : fst (_load_fernet_key w) = Raise RuntimeError).
  { unfold _load_fernet_key, bind, gets, raise.
    destruct (environ w !! "FERNET_KEY") as [[|c k]|]; try discriminate;
      rewrite Ef; reflexivity. }
  split; [exact Hload|].
  assert (Hrun : exists w',
    init_db.ensure_fernet_key w = (Ok key, w')
    /\ key_file w' = Some (mkFile key 0x180)
    /\ environ w' = <["FERNET_KEY" := key]> (environ w)
    /\ _FERNET_INSTANCE w' = _FERNET_INSTANCE w).
  { unfold init_db.ensure_fernet_key, bind, gets, urandom, init_db.write_bytes,
      init_db.chmod, init_db.os_environ_set, modify, py_decode, ret.
    destruct (environ w !! "FERNET_KEY") as [[|c k]|]; try discriminate;
      rewrite Ef; cbn [fst snd key_file set_os_draws set_key_file];
      fold key; rewrite Hdec, Hnul; eexists; repeat split. }
  destruct Hrun as (w' & E & Hf & He & Hc).
  assert (Hlook : environ w' !! "FERNET_KEY" = Some key)
    by (rewrite He; apply lookup_insert_eq).
  assert (Hload' : _load_fernet_key w' = (Ok key, w')).
  { unfold _load_fernet_key, bind, gets. rewrite Hlook.
    destruct key as [|c k]; [contradiction|].
    unfold py_encode. rewrite Henc. reflexivity. }
  exists w'. split; [exact E|]. split; [exact Hf|]. split; [exact Hlook|].
  split; [rewrite Hload'; reflexivity|].
  intros Hnone. split; [|exact Hok].
  unfold get_fernet, bind, gets. rewrite Hc, Hnone, Hload', Hok. reflexivity.
Qed.

End KeyFacts.

(** ** The validators *)

(** C7.  The four outcomes the specification lists. *)
Theorem validators_examples :
  is_valid_date (py "2025-02-30") = false
  /\ is_positive_number (py "-5") = false
  /\ is_positive_number (py "0") = false
  /\ is_positive_number (py "12.50") = true.
Proof. repeat split; vm_compute; reflexivity. Qed.

(** The shape of ["2025-02-30"] is accepted; it is the calendar that
    rejects it. *)
Lemma february_30_is_well_formed :
  split_dash (py "2025-02-30") = (py "2025", Some (py "02-30"))
  /\ match_Y (py "2025") = Some 2025
  /\ match_m (py "02") = Some 2
  /\ match_d (py "30") = Some 30
  /\ days_in_month 2025 2 = 28
  /\ is_valid_date (py "2025-02-28") = true.
Proof. repeat split; vm_compute; reflexivity. Qed.

(** ** The route guards *)

Section GuardFacts.
Context `{Fernet}.

Lemma flash_all_run msgs w :
  flash_all msgs w = (Ok tt, set_flashed (flashed w ++ msgs) w).
Proof.
  revert w. induction msgs as [|m r IH]; intros w.
  - cbn [flash_all]. unfold ret, set_flashed. rewrite app_nil_r, world_eta.
    reflexivity.
  - cbn [flash_all]. unfold bind, flash, modify. rewrite IH.
    unfold set_flashed. cbn [flashed environ key_file umask _FERNET_INSTANCE
      database os_random os_draws]. rewrite <- app_assoc. reflexivity.
Qed.

(** C1, where the code departs from the matrix.  A session of level 3 is
    never denied [add_employee], which the matrix reserves to levels 1 and
    2: the guard [requires_security_level(1)] rejects only levels below 1,
    and the view has no check of its own, unlike [list_employees]. *)
Theorem add_employee_level3_allowed
  (w : World) (uid : Z) (emp : option Z) (request : Request) :
  denied (fst (route AddEmployee (mkSession (Some uid) (Some 3) emp) request w))
  = false
  /\ matrix_of_spec (Some L3) AddEmployee = false.
Proof.
  split; [|reflexivity].
  unfold route, add_employee, login_required, requires_security_level.
  cbn [user_id security_level Z.ltb Z.compare Pos.compare Pos.compare_cont].
  destruct (method request).
  - reflexivity.
  - destruct (EmployeeForm.errors _) as [|m r].
    + unfold bind, create_employee, transaction, insert_Employees, flash,
        modify, ret. reflexivity.
    + unfold bind. rewrite flash_all_run. reflexivity.
Qed.

(** Everywhere else the guards agree with the matrix: for a logged-in
    session of level 1, 2 or 3 linked to an employee, whatever the request
    and the state of the process. *)
Lemma route_guards_elsewhere
  (w : World) (uid emp : Z) (level : Level) (op : Operation) (request : Request) :
  (level, op) <> (L3, AddEmployee) ->
  negb (denied (fst (route op
                       (mkSession (Some uid) (Some (level_value level)) (Some emp))
                       request w)))
  = matrix_of_spec (Some level) op.
Proof.
  intros Hne.
  destruct op; unfold route.
  - unfold add_employee, login_required, requires_security_level.
    destruct level; [| |contradiction];
      cbn [user_id security_level level_value Z.ltb Z.compare Pos.compare
             Pos.compare_cont matrix_of_spec];
      (destruct (method request);
       [reflexivity
       |destruct (EmployeeForm.errors _) as [|m r];
        [unfold bind, create_employee, transaction, insert_Employees, flash,
           modify, ret; reflexivity
        |unfold bind; rewrite flash_all_run; reflexivity]]).
  - unfold list_employees, login_required, requires_security_level.
    destruct level; reflexivity.
  - unfold list_payraises, login_required, requires_security_level.
    destruct level; try reflexivity.
    cbn [user_id security_level level_value Z.ltb Z.compare Pos.compare
           Pos.compare_cont matrix_of_spec]. unfold bind.
    destruct (get_all_payraises w) as [[l|e] w']; reflexivity.
  - unfold add_payraise, login_required.
    cbn [user_id security_level emp_id].
    replace (matrix_of_spec (Some level) AddOwnPayraise) with true
      by (destruct level; reflexivity).
    destruct (method request); [reflexivity|].
    destruct (PayRaiseForm.errors _) as [|m r].
    + destruct (py_float _) as [amount|]; [|reflexivity].
      unfold bind.
      destruct (create_payraise _ _ _ _ _ w) as [[n|e] w']; reflexivity.
    + unfold bind. rewrite flash_all_run. reflexivity.
Qed.

(** A session that is not logged in is sent to the login page by every
    gated route. *)
Lemma route_guards_logged_out
  (w : World) (level emp : option Z) (op : Operation) (request : Request) :
  fst (route op (mkSession None level emp) request w) = Ok (redirect "login").
Proof. destruct op; reflexivity. Qed.

(** A logged-in session without a level is denied the three routes that
    are gated by level; [add_payraise] does not look at the level. *)
Lemma route_guards_no_level
  (w : World) (uid : Z) (emp : option Z) (op : Operation) (request : Request) :
  op <> AddOwnPayraise ->
  fst (route op (mkSession (Some uid) None emp) request w) = Ok not_found.
Proof. destruct op; try reflexivity. contradiction. Qed.

(** C10.  A logged-in session that is not linked to an employee posts a
    valid pay-raise form: the answer is the "not found" page and the
    database is left as it was. *)
Theorem add_payraise_unlinked_not_found
  (w : World) (uid : Z) (level : option Z) (request : Request) :
  method request = POST ->
  PayRaiseForm.errors (PayRaiseForm.from_mapping (form request)) = [] ->
  exists w',
    add_payraise (mkSession (Some uid) level None) request w = (Ok not_found, w')
    /\ database w' = database w
    /\ flashed w' = flashed w ++ ["Page not found"%string].
Proof.
  intros Hpost Hvalid.
  unfold add_payraise, login_required. cbn [user_id emp_id].
  rewrite Hpost, Hvalid.
  eexists. split; [reflexivity|]. split; reflexivity.
Qed.

End GuardFacts.

(* ===================================================================== *)
(** * Further properties                                                  *)
(* ===================================================================== *)

Import werkzeug app_auth SpecMore.

(** ** The UTF-8 codec, from octets to text and back *)

Lemma encode_decoded_2 b0 b1 :
  0xC2 <= b0 < 0xE0 -> 0x80 <= b1 < 0xC0 ->
  encode_cp (Z.lor (Z.shiftl (Z.land b0 0x1F) 6) (Z.land b1 0x3F))
  = Some [b0; b1].
Proof.
  intros H0 H1.
  rewrite land_0x1F, land_0x3F, lor_shiftl_6 by zlia.
  unfold encode_cp, is_scalar, is_surrogate. decide_tests. cbn [andb negb].
  rewrite shiftr_6, land_0x3F, lor_0xC0, lor_0x80 by zlia.
  do 2 f_equal; [zlia | f_equal; zlia].
Qed.

Lemma encode_decoded_3 b0 b1 b2 :
  0xE0 <= b0 < 0xF0 -> 0x80 <= b1 < 0xC0 -> 0x80 <= b2 < 0xC0 ->
  let c := Z.lor (Z.shiftl (Z.land b0 0x0F) 12)
             (Z.lor (Z.shiftl (Z.land b1 0x3F) 6) (Z.land b2 0x3F)) in
  0x800 <= c -> is_surrogate c = false ->
  encode_cp c = Some [b0; b1; b2].
Proof.
  intros H0 H1 H2 c.
  assert (Ec : c = (b0 mod 16) * 4096 + ((b1 mod 64) * 64 + b2 mod 64)).
  { unfold c. rewrite land_0x0F, !land_0x3F, (lor_shiftl_6 _ _), lor_shiftl_12
      by zlia. reflexivity. }
  clearbody c. subst c. intros Hc Hs.
  unfold encode_cp, is_scalar. rewrite Hs. decide_tests. cbn [andb negb].
  rewrite shiftr_6, shiftr_12, !land_0x3F, lor_0xE0, !lor_0x80 by zlia.
  do 2 f_equal; [zlia | f_equal; [zlia | f_equal; zlia]].
Qed.

Lemma encode_decoded_4 b0 b1 b2 b3 :
  0xF0 <= b0 < 0xF5 -> 0x80 <= b1 < 0xC0 -> 0x80 <= b2 < 0xC0 ->
  0x80 <= b3 < 0xC0 ->
  let c := Z.lor (Z.shiftl (Z.land b0 0x07) 18)
             (Z.lor (Z.shiftl (Z.land b1 0x3F) 12)
                (Z.lor (Z.shiftl (Z.land b2 0x3F) 6) (Z.land b3 0x3F))) in
  0x10000 <= c < 0x110000 ->
  encode_cp c = Some [b0; b1; b2; b3].
Proof.
  intros H0 H1 H2 H3 c.
  assert (Ec : c = (b0 mod 8) * 262144
                   + ((b1 mod 64) * 4096 + ((b2 mod 64) * 64 + b3 mod 64))).
  { unfold c. rewrite land_0x07, !land_0x3F, (lor_shiftl_6 _ _),
      (lor_shiftl_12 _ _), lor_shiftl_18 by zlia. reflexivity. }
  clearbody c. subst c. intros Hc.
  unfold encode_cp, is_scalar, is_surrogate. decide_tests. cbn [andb negb].
  rewrite shiftr_6, shiftr_12, shiftr_18, !land_0x3F, lor_0xF0, !lor_0x80
    by zlia.
  do 2 f_equal; [zlia | f_equal; [zlia | f_equal; [zlia | f_equal; zlia]]].
Qed.

Lemma cons_opt_some c r s : cons_opt c r = Some s ->
  exists t, r = Some t /\ s = c :: t.
Proof. destruct r as [t|]; [intros [= <-]; eauto | discriminate]. Qed.

Lemma range_of_tests lo hi x : (lo <=? x) && (x <? hi) = true -> lo <= x < hi.
Proof. intros T. apply andb_prop in T as [A B]. lia. Qed.

(** Octets that decode are the encoding of what they decode to. *)
Lemma utf8_encode_decoded b s : utf8_decode b = Some s -> utf8_encode s = Some b.
Proof.
  remember (length b) as n eqn:Hn. revert b s Hn.
  induction n as [n IH] using lt_wf_ind. intros b s Hn.
  destruct b as [|b0 r0]; [intros [= <-]; reflexivity|].
  cbn [utf8_decode].
  destruct ((0 <=? b0) && (b0 <? 0x80)) eqn:T1.
  { intros D. apply cons_opt_some in D as (t & D & ->).
    apply range_of_tests in T1. cbn [utf8_encode].
    rewrite (IH (length r0)) with (b := r0) (s := t);
      [|subst n; cbn [length]; lia|reflexivity|exact D].
    unfold encode_cp, is_scalar, is_surrogate. decide_tests. reflexivity. }
  destruct ((0xC2 <=? b0) && (b0 <? 0xE0)) eqn:T2.
  { destruct r0 as [|b1 r1]; [discriminate|]. unfold is_cont.
    destruct ((0x80 <=? b1) && (b1 <? 0xC0)) eqn:C1; [|discriminate].
    intros D. apply cons_opt_some in D as (t & D & ->).
    apply range_of_tests in T2, C1. cbn [utf8_encode].
    rewrite (IH (length r1)) with (b := r1) (s := t);
      [|subst n; cbn [length]; lia|reflexivity|exact D].
    rewrite encode_decoded_2 by assumption. reflexivity. }
  destruct ((0xE0 <=? b0) && (b0 <? 0xF0)) eqn:T3.
  { destruct r0 as [|b1 [|b2 r2]]; try discriminate. unfold is_cont.
    destruct ((0x80 <=? b1) && (b1 <? 0xC0)) eqn:C1; [|discriminate].
    destruct ((0x80 <=? b2) && (b2 <? 0xC0)) eqn:C2; [|discriminate].
    cbn [andb].
    match goal with |- context [0x800 <=? ?c] =>
      destruct (0x800 <=? c) eqn:Hc; [|discriminate];
      destruct (is_surrogate c) eqn:Hs; [discriminate|]
    end.
    cbn [andb negb]. intros D. apply cons_opt_some in D as (t & D & ->).
    apply range_of_tests in T3, C1, C2. apply Z.leb_le in Hc.
    cbn [utf8_encode].
    rewrite (IH (length r2)) with (b := r2) (s := t);
      [|subst n; cbn [length]; lia|reflexivity|exact D].
    rewrite (encode_decoded_3 b0 b1 b2) by assumption. reflexivity. }
  destruct ((0xF0 <=? b0) && (b0 <? 0xF5)) eqn:T4; [|discriminate].
  destruct r0 as [|b1 [|b2 [|b3 r3]]]; try discriminate. unfold is_cont.
  destruct ((0x80 <=? b1) && (b1 <? 0xC0)) eqn:C1; [|discriminate].
  destruct ((0x80 <=? b2) && (b2 <? 0xC0)) eqn:C2; [|discriminate].
  destruct ((0x80 <=? b3) && (b3 <? 0xC0)) eqn:C3; [|discriminate].
  cbn [andb].
  match goal with |- context [0x10000 <=? ?c] =>
    destruct (0x10000 <=? c) eqn:Hlo; [|discriminate];
    destruct (c <? 0x110000) eqn:Hhi; [|discriminate]
  end.
  cbn [andb]. intros D. apply cons_opt_some in D as (t & D & ->).
  apply range_of_tests in T4, C1, C2, C3.
  apply Z.leb_le in Hlo. apply Z.ltb_lt in Hhi.
  cbn [utf8_encode].
  rewrite (IH (length r3)) with (b := r3) (s := t);
    [|subst n; cbn [length]; lia|reflexivity|exact D].
  rewrite (encode_decoded_4 b0 b1 b2 b3) by (assumption || lia). reflexivity.
Qed.


(** ** More on the key manager *)

Section KeyMore.
Context `{Fernet}.

(** X1.  [get_fernet] fails only for want of a usable key, and then changes
    nothing: the cache stays empty, so that the call can be repeated once
    a key is in place. *)
Theorem get_fernet_failure (w : World) (e : exn) :
  fst (get_fernet w) = Raise e ->
  snd (get_fernet w) = w
  /\ _FERNET_INSTANCE w = None
  /\ key_error e = true
  /\ (e = RuntimeError -> no_key_source w = true).
Proof.
  unfold get_fernet, bind, gets, ret, raise, modify, no_key_source.
  destruct (_FERNET_INSTANCE w) as [f|]; cbn [fst snd]; [discriminate|].
  unfold _load_fernet_key, bind, gets, py_encode, ret, raise.
  destruct (environ w !! "FERNET_KEY") as [[|c k]|]; cbn [fst snd default truthy negb andb].
  - destruct (key_file w) as [f|]; cbn [fst snd].
    + destruct (fernet_key_ok (file_bytes f)); cbn [fst snd]; [discriminate|].
      intros [= <-]. repeat split; trivial; discriminate.
    + intros [= <-]. repeat split; trivial.
  - destruct (utf8_encode (c :: k)) as [key|]; cbn [fst snd].
    + destruct (fernet_key_ok key); cbn [fst snd]; [discriminate|].
      intros [= <-]. repeat split; trivial; discriminate.
    + intros [= <-]. repeat split; trivial; discriminate.
  - destruct (key_file w) as [f|]; cbn [fst snd].
    + destruct (fernet_key_ok (file_bytes f)); cbn [fst snd]; [discriminate|].
      intros [= <-]. repeat split; trivial; discriminate.
    + intros [= <-]. repeat split; trivial.
Qed.

(** X2.  [ensure_fernet_key] never overwrites what it finds: an existing key
    file keeps its content and its mode, and when the environment already
    holds a key nothing at all changes. *)
Theorem ensure_fernet_key_keeps_sources (w : World) :
  (forall f, key_file w = Some f ->
             key_file (snd (init_db.ensure_fernet_key w)) = Some f)
  /\ (forall c k, environ w !! "FERNET_KEY" = Some (c :: k) ->
                  snd (init_db.ensure_fernet_key w) = w).
Proof.
  unfold init_db.ensure_fernet_key, bind, gets, py_encode, py_decode,
    init_db.os_environ_set, modify, ret, raise.
  split.
  - intros f Ef.
    destruct (environ w !! "FERNET_KEY") as [[|c k]|]; cbn [fst snd];
      try (destruct (utf8_encode (c :: k)); exact Ef);
      rewrite Ef; destruct (utf8_decode (file_bytes f)) as [s|]; cbn [fst snd];
      try exact Ef; destruct (existsb (Z.eqb 0) s); exact Ef.
  - intros c k Ee. rewrite Ee. destruct (utf8_encode (c :: k)); reflexivity.
Qed.

Lemma set_environ_same (w : World) (env : gmap string (list Z)) :
  env = environ w -> set_environ (fun _ => env) w = w.
Proof. intros ->. apply world_eta. Qed.

(** The state [ensure_fernet_key] leaves when it read the key file. *)
Lemma ensure_settles_file (w : World) (f : File) (s : str) :
  key_file w = Some f ->
  utf8_decode (file_bytes f) = Some s ->
  existsb (Z.eqb 0) s = false ->
  _load_fernet_key (set_environ (fun env => <["FERNET_KEY" := s]> env) w)
  = (Ok (file_bytes f), set_environ (fun env => <["FERNET_KEY" := s]> env) w)
  /\ init_db.ensure_fernet_key
       (set_environ (fun env => <["FERNET_KEY" := s]> env) w)
     = (Ok (file_bytes f), set_environ (fun env => <["FERNET_KEY" := s]> env) w).
Proof.
  intros Ef Ed En. pose proof (utf8_encode_decoded _ _ Ed) as Ee.
  unfold _load_fernet_key, init_db.ensure_fernet_key, bind, gets, py_encode,
    py_decode, init_db.os_environ_set, modify, ret.
  cbn [environ set_environ]. rewrite lookup_insert_eq.
  destruct s as [|c s]; cbv beta iota.
  - assert (Kf : forall g, key_file (set_environ g w) = Some f)
      by (intros g; exact Ef).
    rewrite !Kf. cbv beta iota. rewrite Ed. cbn [existsb].
    split; [reflexivity|]. f_equal. unfold set_environ.
    cbn [environ key_file umask _FERNET_INSTANCE database flashed os_random
           os_draws].
    rewrite insert_insert_eq. reflexivity.
  - rewrite Ee. split; reflexivity.
Qed.

Hypothesis laws : FernetLaws.

(** X3.  Whatever branch [ensure_fernet_key] took, the key it returned is the
    one the application's resolver finds afterwards, and running the
    bootstrap again returns it again and changes nothing. *)
Theorem ensure_fernet_key_settles (w w' : World) (k : bytes) :
  init_db.ensure_fernet_key w = (Ok k, w') ->
  _load_fernet_key w' = (Ok k, w')
  /\ init_db.ensure_fernet_key w' = (Ok k, w').
Proof.
  assert (Hfile : forall f, key_file w = Some f ->
            (let (r, w1) := py_decode (file_bytes f) w in
             match r with
             | Ok s =>
                 let (r0, w2) := init_db.os_environ_set "FERNET_KEY" s w1 in
                 match r0 with
                 | Ok _ => (Ok (file_bytes f), w2)
                 | Raise e => (Raise e, w2)
                 end
             | Raise e => (Raise e, w1)
             end) = (Ok k, w') ->
            _load_fernet_key w' = (Ok k, w')
            /\ init_db.ensure_fernet_key w' = (Ok k, w')).
  { intros f Ef. unfold py_decode, init_db.os_environ_set, modify, ret, raise.
    destruct (utf8_decode (file_bytes f)) as [s|] eqn:Ed; [|discriminate].
    destruct (existsb (Z.eqb 0) s) eqn:En; [discriminate|].
    intros [= <- <-]. apply (ensure_settles_file w f s Ef Ed En). }
  assert (Hnew : key_file w = None ->
            (let (r, w1) := urandom w in
             match r with
             | Ok a =>
                 let (r0, w2) := init_db.write_bytes (fernet_generate_key a) w1 in
                 match r0 with
                 | Ok _ =>
                     let (r1, w3) := init_db.chmod 0x180 w2 in
                     match r1 with
                     | Ok _ =>
                         let (r2, w4) := py_decode (fernet_generate_key a) w3 in
                         match r2 with
                         | Ok s =>
                             let (r3, w5) :=
                               init_db.os_environ_set "FERNET_KEY" s w4 in
                             match r3 with
                             | Ok _ => (Ok (fernet_generate_key a), w5)
                             | Raise e => (Raise e, w5)
                             end
                         | Raise e => (Raise e, w4)
                         end
                     | Raise e => (Raise e, w3)
                     end
                 | Raise e => (Raise e, w2)
                 end
             | Raise e => (Raise e, w1)
             end) = (Ok k, w') ->
            _load_fernet_key w' = (Ok k, w')
            /\ init_db.ensure_fernet_key w' = (Ok k, w')).
  { intros Ef.
    unfold urandom, init_db.write_bytes, init_db.chmod, py_decode,
      init_db.os_environ_set, modify, ret, raise.
    destruct (fernet_generated laws (os_random w (os_draws w)))
      as (_ & Hascii & Hne).
    destruct (ascii_codec _ Hascii) as [Hdec Henc].
    rewrite Hdec, (ascii_bytes_no_nul _ Hascii). intros [= <- <-].
    unfold _load_fernet_key, init_db.ensure_fernet_key, bind, gets, py_encode, ret.
    cbn [environ set_environ]. rewrite lookup_insert_eq.
    destruct (fernet_generate_key (os_random w (os_draws w))) as [|c s];
      [contradiction|].
    rewrite Henc. split; reflexivity. }
  unfold init_db.ensure_fernet_key at 1. unfold bind at 1, gets at 1.
  destruct (environ w !! "FERNET_KEY") as [[|c0 k0]|] eqn:Ee.
  - unfold bind, gets. destruct (key_file w) as [f|] eqn:Ef.
    + apply (Hfile f eq_refl).
    + apply (Hnew eq_refl).
  - unfold py_encode.
    destruct (utf8_encode (c0 :: k0)) as [key|] eqn:Ek; [|discriminate].
    intros [= <- <-].
    unfold _load_fernet_key, init_db.ensure_fernet_key, bind, gets, py_encode, ret.
    rewrite Ee, Ek. split; reflexivity.
  - unfold bind, gets. destruct (key_file w) as [f|] eqn:Ef.
    + apply (Hfile f eq_refl).
    + apply (Hnew eq_refl).
Qed.

(** X4.  The cipher is resolved once per process: what [encrypt_text] wrote
    still decrypts after the environment variable and the key file have
    been replaced, because [get_fernet] keeps the first cipher. *)
Theorem decrypt_survives_key_change
  (w : World) (k : bytes) (x : str)
  (env : gmap string (list Z)) (file : option File) :
  key_resolves w k ->
  valid_str x = true ->
  exists c w1 w2,
    encrypt_text (Some x) w = (Ok c, w1)
    /\ decrypt_text (Some c) (set_key_file file (set_environ (fun _ => env) w1))
       = (Ok (strip x), w2).
Proof.
  intros Hk Hx.
  destruct (encrypt_text_token laws k w x Hk Hx) as (c & E & D & _).
  eexists _, _, _. split; [exact E|].
  rewrite (decrypt_text_run k) by reflexivity. rewrite D. reflexivity.
Qed.

End KeyMore.


(** ** More on the validators *)

Lemma forall_below (P : Z -> bool) (n : nat) :
  forallb P (map Z.of_nat (seq 0 n)) = true ->
  forall z, 0 <= z < Z.of_nat n -> P z = true.
Proof.
  intros Hall z Hz. rewrite forallb_forall in Hall. apply Hall.
  apply in_map_iff. exists (Z.to_nat z). split; [lia|].
  apply in_seq. lia.
Qed.

Lemma match_m_two_digits m :
  0 <= m < 100 ->
  match_m (two_digits m) = if (1 <=? m) && (m <=? 12) then Some m else None.
Proof.
  intros Hm.
  apply (forall_below
           (fun m => if decide (match_m (two_digits m)
                                = if (1 <=? m) && (m <=? 12) then Some m else None)
                     then true else false) 100) in Hm; [|vm_compute; reflexivity].
  destruct (decide _) as [E|]; [exact E|discriminate].
Qed.

Lemma match_d_two_digits d :
  0 <= d < 100 ->
  match_d (two_digits d) = if (1 <=? d) && (d <=? 31) then Some d else None.
Proof.
  intros Hd.
  apply (forall_below
           (fun d => if decide (match_d (two_digits d)
                                = if (1 <=? d) && (d <=? 31) then Some d else None)
                     then true else false) 100) in Hd; [|vm_compute; reflexivity].
  destruct (decide _) as [E|]; [exact E|discriminate].
Qed.

Lemma match_Y_four_digits y : 0 <= y < 10000 -> match_Y (four_digits y) = Some y.
Proof.
  intros Hy. unfold match_Y, four_digits, is_digit, digit_val.
  decide_tests. cbn [andb]. f_equal. zlia.
Qed.

Lemma days_in_month_range y m : 28 <= days_in_month y m <= 31.
Proof.
  unfold days_in_month.
  repeat match goal with |- context [if ?t then _ else _] => destruct t end; lia.
Qed.

Lemma iso_date_plain y m d :
  0 <= y < 10000 -> 0 <= m < 100 -> 0 <= d < 100 ->
  plain_ascii (iso_date y m d) = true.
Proof.
  intros Hy Hm Hd. unfold iso_date, four_digits, two_digits, plain_ascii.
  cbn [app forallb]. decide_tests. reflexivity.
Qed.

Lemma split_dash_digits a b c e rest :
  a <> 45 -> b <> 45 -> c <> 45 -> e <> 45 ->
  split_dash (a :: b :: c :: e :: 45 :: rest) = ([a; b; c; e], Some rest).
Proof.
  intros. cbn [split_dash].
  rewrite !(proj2 (Z.eqb_neq _ 45)) by assumption. rewrite Z.eqb_refl.
  reflexivity.
Qed.

Lemma split_dash_pair a b rest :
  a <> 45 -> b <> 45 ->
  split_dash (a :: b :: 45 :: rest) = ([a; b], Some rest).
Proof.
  intros. cbn [split_dash].
  rewrite !(proj2 (Z.eqb_neq _ 45)) by assumption. rewrite Z.eqb_refl.
  reflexivity.
Qed.

(** X5.  On a zero-padded [YYYY-MM-DD] text, [is_valid_date] says exactly
    whether the day exists in the calendar (leap years included). *)
Theorem is_valid_date_iso (y m d : Z) :
  0 <= y < 10000 -> 0 <= m < 100 -> 0 <= d < 100 ->
  is_valid_date (iso_date y m d) = real_date y m d.
Proof.
  intros Hy Hm Hd. unfold is_valid_date.
  rewrite (plain_ascii_strip _ (iso_date_plain y m d Hy Hm Hd)).
  replace (negb (truthy (iso_date y m d))) with false by reflexivity.
  cbn [orb]. unfold strptime_Ymd, iso_date, four_digits, two_digits.
  cbn [app]. rewrite split_dash_digits by zlia.
  rewrite split_dash_pair by zlia.
  change [48 + y / 1000; 48 + (y / 100) mod 10; 48 + (y / 10) mod 10;
          48 + y mod 10] with (four_digits y).
  change [48 + m / 10; 48 + m mod 10] with (two_digits m).
  change [48 + d / 10; 48 + d mod 10] with (two_digits d).
  rewrite match_Y_four_digits, match_m_two_digits, match_d_two_digits
    by assumption.
  unfold real_date. pose proof (days_in_month_range y m) as Hdim.
  destruct (Z.leb_spec 1 m), (Z.leb_spec m 12), (Z.leb_spec 1 d),
    (Z.leb_spec d 31), (Z.leb_spec 1 y), (Z.leb_spec d (days_in_month y m));
    cbn [andb]; try reflexivity; try lia;
    decide_tests; reflexivity.
Qed.

(** Turns the tests known to hold into facts for [lia]. *)
Ltac split_tests :=
  repeat match goal with
  | H : _ && _ = true |- _ => apply andb_prop in H as [? ?]
  | H : _ || _ = true |- _ => apply orb_prop in H as [?|?]
  | H : (_ <=? _) = true |- _ => apply Z.leb_le in H
  | H : (_ <? _) = true |- _ => apply Z.ltb_lt in H
  | H : (_ =? _) = true |- _ => apply Z.eqb_eq in H
  end.

Lemma match_Y_range t y : match_Y t = Some y -> 0 <= y <= 9999 /\ valid_str t = true.
Proof.
  unfold match_Y, is_digit, digit_val, valid_str, is_scalar, is_surrogate.
  destruct t as [|a [|b [|c [|e [|]]]]]; try discriminate.
  destruct (_ && _) eqn:T; [|discriminate]. intros [= <-].
  split_tests. cbn [forallb]. split; [lia|]. decide_tests. reflexivity.
Qed.

Lemma match_m_range t m : match_m t = Some m -> 1 <= m <= 12 /\ valid_str t = true.
Proof.
  unfold match_m, in_range, digit_val, valid_str, is_scalar, is_surrogate.
  destruct t as [|a [|b [|]]]; try discriminate; cbn [forallb].
  - destruct (_ && _) eqn:T; [|discriminate]. intros [= <-].
    split_tests. split; [lia|]. decide_tests. reflexivity.
  - destruct ((a =? 49) && _) eqn:T1.
    + intros [= <-]. split_tests. split; [lia|]. decide_tests. reflexivity.
    + destruct ((a =? 48) && _) eqn:T2; [|discriminate]. intros [= <-].
      clear T1. split_tests. split; [lia|]. decide_tests. reflexivity.
Qed.

Lemma match_d_range t d : match_d t = Some d -> 1 <= d <= 31 /\ valid_str t = true.
Proof.
  unfold match_d, in_range, is_digit, digit_val, valid_str, is_scalar,
    is_surrogate.
  destruct t as [|a [|b [|]]]; try discriminate; cbn [forallb].
  - destruct (_ && _) eqn:T; [|discriminate]. intros [= <-].
    split_tests. split; [lia|]. decide_tests. reflexivity.
  - destruct ((a =? 51) && _) eqn:T1.
    + intros [= <-]. split_tests. split; [lia|]. decide_tests. reflexivity.
    + destruct (((49 <=? a) && (a <=? 50)) && _) eqn:T2.
      * intros [= <-]. clear T1. split_tests. split; [lia|].
        decide_tests. reflexivity.
      * destruct (((a =? 48) || (a =? 32)) && _) eqn:T3; [|discriminate].
        intros [= <-]. clear T1 T2. split_tests;
          (split; [lia|]); decide_tests; reflexivity.
Qed.

Lemma split_dash_app s t r :
  split_dash s = (t, Some r) -> s = t ++ 45 :: r.
Proof.
  revert t r. induction s as [|c s IH]; intros t r; cbn [split_dash];
    [discriminate|].
  destruct (c =? 45) eqn:Hc.
  - intros [= <- <-]. apply Z.eqb_eq in Hc. subst c. reflexivity.
  - destruct (split_dash s) as [t' rest]. intros [= <- ->].
    cbn [app]. f_equal. apply IH. reflexivity.
Qed.

(** What [strptime] accepts is a real date, written in ASCII. *)
Lemma strptime_Ymd_sound s y m d :
  strptime_Ymd s = Some (y, m, d) ->
  real_date y m d = true /\ y <= 9999 /\ valid_str s = true.
Proof.
  unfold strptime_Ymd.
  destruct (split_dash s) as [ty [r1|]] eqn:S1; [|discriminate].
  destruct (split_dash r1) as [tm [td|]] eqn:S2; [|discriminate].
  destruct (match_Y ty) as [y'|] eqn:EY; [|discriminate].
  destruct (match_m tm) as [m'|] eqn:EM; [|discriminate].
  destruct (match_d td) as [d'|] eqn:ED; [|discriminate].
  destruct ((1 <=? y') && (d' <=? days_in_month y' m')) eqn:T; [|discriminate].
  intros [= <- <- <-].
  apply match_Y_range in EY as [HY VY]. apply match_m_range in EM as [HM VM].
  apply match_d_range in ED as [HD VD]. apply andb_prop in T as [T1 T2].
  split; [|split; [lia|]].
  - unfold real_date. rewrite T1, T2. decide_tests. reflexivity.
  - apply split_dash_app in S1, S2. subst s r1. unfold valid_str in *.
    rewrite !forallb_app. cbn [forallb]. rewrite forallb_app. cbn [forallb].
    rewrite VY, VM, VD. reflexivity.
Qed.

(** X6.  Every text [is_valid_date] accepts denotes a day that exists, between
    the years 1 and 9999, once the surrounding white space is removed. *)
Theorem is_valid_date_sound (s : str) :
  is_valid_date s = true ->
  exists y m d,
    strptime_Ymd (strip s) = Some (y, m, d)
    /\ 1 <= y <= 9999 /\ 1 <= m <= 12 /\ 1 <= d <= days_in_month y m.
Proof.
  unfold is_valid_date. destruct (_ || _); [discriminate|].
  destruct (strptime_Ymd (strip s)) as [[[y m] d]|] eqn:E; [|discriminate].
  intros _. exists y, m, d. split; [reflexivity|].
  apply strptime_Ymd_sound in E as (R & Hy & _). unfold real_date in R.
  repeat (apply andb_prop in R as [R ?]). lia.
Qed.

Lemma is_valid_date_text s : is_valid_date s = true -> valid_str (strip s) = true.
Proof.
  unfold is_valid_date. destruct (_ || _); [discriminate|].
  destruct (strptime_Ymd (strip s)) as [[[y m] d]|] eqn:E; [|discriminate].
  intros _. apply (strptime_Ymd_sound _ _ _ _ E).
Qed.


(** ** More on the record store *)

Section StoreMore.
Context `{Fernet}.

Lemma cipher_step_refl w : cipher_step w w.
Proof. repeat split. Qed.

Lemma cipher_step_trans w w1 w2 :
  cipher_step w w1 -> cipher_step w1 w2 -> cipher_step w w2.
Proof.
  intros (A & B & C) (A' & B' & C'). repeat split; congruence.
Qed.

Lemma get_fernet_cases w :
  (exists e, get_fernet w = (Raise e, w) /\ key_error e = true)
  \/ (exists k, get_fernet w = (Ok k, with_key k w)).
Proof.
  destruct (get_fernet w) as [[k|e] w1] eqn:E.
  - right. exists k. rewrite <- E. apply get_fernet_resolved. rewrite E. reflexivity.
  - left. exists e. revert E.
    unfold get_fernet, bind, gets, ret, raise, modify.
    destruct (_FERNET_INSTANCE w) as [f|]; [discriminate|].
    unfold _load_fernet_key, bind, gets, py_encode, ret, raise.
    destruct (environ w !! "FERNET_KEY") as [[|c k]|];
      try destruct (utf8_encode (c :: k)) as [key|];
      try destruct (key_file w) as [f|];
      try destruct (fernet_key_ok _);
      intros [= <- <-] || discriminate; split; reflexivity.
Qed.

(** [encrypt_text] touches neither the store nor the flashed messages nor
    the outcome of key resolution, and fails only for want of a key or of
    an encodable text. *)
Lemma encrypt_text_stable p w :
  cipher_step w (snd (encrypt_text p w))
  /\ (forall e, fst (encrypt_text p w) = Raise e -> key_error e = true).
Proof.
  destruct p as [x|]; [|split; [apply cipher_step_refl | intros e [= <-]; reflexivity]].
  unfold encrypt_text, bind.
  destruct (get_fernet_cases w) as [(e & E & Ke)|(k & E)]; rewrite E.
  - split; [apply cipher_step_refl|]. intros e' [= <-]. exact Ke.
  - unfold py_encode, urandom, ret, raise.
    assert (S : forall n, cipher_step w (set_os_draws n (with_key k w))).
    { intros n. repeat split. cbn [fst]. rewrite E. reflexivity. }
    destruct (utf8_encode (strip x)) as [data|]; cbn [fst snd].
    + split; [apply S|]. discriminate.
    + split; [|intros e [= <-]; reflexivity].
      repeat split. cbn [fst]. rewrite E. reflexivity.
Qed.

Lemma get_fernet_set_database db w :
  fst (get_fernet (set_database db w)) = fst (get_fernet w).
Proof.
  destruct w as [env kf um cache d fl rnd n].
  unfold get_fernet, _load_fernet_key, bind, gets, py_encode, ret, raise,
    modify, set_database.
  cbv beta iota delta [_FERNET_INSTANCE environ key_file database flashed
                         umask os_random os_draws].
  destruct cache; [reflexivity|].
  destruct (env !! "FERNET_KEY") as [[|c k]|];
    try destruct (utf8_encode (c :: k));
    try destruct kf;
    try destruct (fernet_key_ok _); reflexivity.
Qed.

(** The three outcomes of [create_payraise]. *)
Lemma create_payraise_outcome uid eid d a c w :
  fst (get_fernet (snd (create_payraise uid eid d a c w))) = fst (get_fernet w)
  /\ flashed (snd (create_payraise uid eid d a c w)) = flashed w
  /\ match fst (create_payraise uid eid d a c w) with
     | Raise e =>
         database (snd (create_payraise uid eid d a c w)) = database w
         /\ key_error e = true
     | Ok n =>
         exists row,
           database (snd (create_payraise uid eid d a c w))
           = mkDatabase (Users (database w)) (Employees (database w))
               (EmpPayRaise (database w) ++ [row])
               (seq_Users (database w)) (seq_Employees (database w)) n
           /\ pr_id row = n /\ pr_emp_id row = eid /\ pr_user_id row = uid
           /\ n = next_rowid (map pr_id (EmpPayRaise (database w)))
                    (seq_EmpPayRaise (database w))
     end.
Proof.
  unfold create_payraise, bind.
  destruct (encrypt_text_stable (Some (strip d)) w) as [S1 K1].
  destruct (encrypt_text (Some (strip d)) w) as [[t1|e1] w1]; cbn [fst snd] in *;
    [|destruct S1 as (A & B & C); repeat split; auto].
  destruct (encrypt_text_stable (Some (format_2f a)) w1) as [S2 K2].
  destruct (encrypt_text (Some (format_2f a)) w1) as [[t2|e2] w2];
    cbn [fst snd] in *;
    [|destruct (cipher_step_trans _ _ _ S1 S2) as (A & B & C);
      repeat split; auto].
  pose proof (cipher_step_trans _ _ _ S1 S2) as S12.
  assert (Hins : forall com w3, cipher_step w w3 ->
    let r := transaction
               (insert_EmpPayRaise _get_connection eid uid t1 t2 com) w3 in
    fst (get_fernet (snd r)) = fst (get_fernet w)
    /\ flashed (snd r) = flashed w
    /\ match fst r with
       | Raise e => database (snd r) = database w /\ key_error e = true
       | Ok n =>
           exists row,
             database (snd r)
             = mkDatabase (Users (database w)) (Employees (database w))
                 (EmpPayRaise (database w) ++ [row])
                 (seq_Users (database w)) (seq_Employees (database w)) n
             /\ pr_id row = n /\ pr_emp_id row = eid /\ pr_user_id row = uid
             /\ n = next_rowid (map pr_id (EmpPayRaise (database w)))
                      (seq_EmpPayRaise (database w))
       end).
  { intros com w3 (A & B & C). unfold transaction, insert_EmpPayRaise.
    cbn [foreign_keys _get_connection sqlite3_connect andb fst snd].
    rewrite A. split; [rewrite get_fernet_set_database; exact C|].
    split; [exact B|].
    eexists. split; [reflexivity|]. repeat split. }
  destruct c as [[|c0 c]|].
  - apply (Hins None w2 S12).
  - unfold bind.
    destruct (encrypt_text_stable (Some (strip (c0 :: c))) w2) as [S3 K3].
    destruct (encrypt_text (Some (strip (c0 :: c))) w2) as [[t3|e3] w3];
      cbn [fst snd] in *.
    + apply (Hins (Some t3) w3 (cipher_step_trans _ _ _ S12 S3)).
    + destruct (cipher_step_trans _ _ _ S12 S3) as (A & B & C).
      repeat split; auto.
  - apply (Hins None w2 S12).
Qed.


(** What a listing returns is decided by the store and by the outcome of
    key resolution. *)
Lemma for_each_key_failure {A B} (body : A -> M B) e w row rows :
  (forall w1, fst (get_fernet w1) = Raise e -> fst (body row w1) = Raise e) ->
  fst (get_fernet w) = Raise e ->
  fst (for_each body (row :: rows) w) = Raise e.
Proof.
  intros Hbody Hk. cbn [for_each]. unfold bind.
  specialize (Hbody w Hk). destruct (body row w) as [[x|e'] w1];
    cbn [fst] in *; [discriminate|]. injection Hbody as ->. reflexivity.
Qed.

Lemma decrypt_text_key_failure e w c :
  fst (get_fernet w) = Raise e -> fst (decrypt_text (Some c) w) = Raise e.
Proof.
  intros Hk. unfold decrypt_text, bind.
  destruct (get_fernet w) as [[k|e'] w1]; cbn [fst] in *; [discriminate|exact Hk].
Qed.

Lemma entry_body_key_failure (ids : bool) e (row : Employee * PayRaise) w :
  fst (get_fernet w) = Raise e ->
  fst ((d <- decrypt_text (Some (payraise_date_encrypted (snd row))) ;;
        a <- decrypt_text (Some (raiseamt_encrypted (snd row))) ;;
        c <- decrypt_comments (comments_encrypted (snd row)) ;;
        ret (mkEntry (if ids then Some (pr_id (snd row)) else None)
               (e_name (fst row))
               (if ids then Some (pr_user_id (snd row)) else None)
               d a c None))%py w) = Raise e.
Proof.
  intros Hk. unfold bind.
  pose proof (decrypt_text_key_failure e w
                (payraise_date_encrypted (snd row)) Hk) as F.
  destruct (decrypt_text _ w) as [[x|e'] w2]; cbn [fst] in *;
    [discriminate|]. injection F as ->. reflexivity.
Qed.

Lemma get_payraises_for_user_depends w w' u :
  database w' = database w ->
  fst (get_fernet w') = fst (get_fernet w) ->
  fst (get_payraises_for_user u w') = fst (get_payraises_for_user u w).
Proof.
  intros Hdb Hkey.
  destruct (fst (get_fernet w)) as [k|e] eqn:Ek.
  - rewrite (get_payraises_for_user_run k w u Ek),
      (get_payraises_for_user_run k w' u Hkey), Hdb. reflexivity.
  - unfold get_payraises_for_user, bind, gets. rewrite Hdb.
    destruct (select_payraises _ (database w)) as [|row rows]; [reflexivity|].
    rewrite !(for_each_key_failure _ e); trivial;
      intros w1 Hw1; apply (entry_body_key_failure false e row w1 Hw1).
Qed.

Lemma select_payraises_snoc_other keep us es prs su se sp sp' row :
  keep row = false ->
  select_payraises keep (mkDatabase us es (prs ++ [row]) su se sp')
  = select_payraises keep (mkDatabase us es prs su se sp).
Proof.
  intros Hrow. unfold select_payraises. f_equal.
  change (created_rows keep (mkDatabase us es (prs ++ [row]) su se sp')
          = created_rows keep (mkDatabase us es prs su se sp)).
  rewrite (created_rows_snoc keep us es prs su se sp sp' row), Hrow.
  apply app_nil_r.
Qed.

(** X8.  Whatever [create_payraise] does for one user, and whether it succeeds
    or not, the listing of every other user returns what it returned
    before. *)
Theorem create_payraise_other_users
  (w : World) (uid eid : Z) (d : str) (a : float) (c : option str) (other : Z) :
  other <> uid ->
  fst (get_payraises_for_user other (snd (create_payraise uid eid d a c w)))
  = fst (get_payraises_for_user other w).
Proof.
  intros Hne.
  destruct (create_payraise_outcome uid eid d a c w) as (Hkey & _ & O).
  destruct (fst (create_payraise uid eid d a c w)) as [n|e].
  - destruct O as (row & Hdb & _ & _ & Hu & _).
    set (w' := snd (create_payraise uid eid d a c w)) in *.
    destruct (fst (get_fernet w)) as [k|e] eqn:Ek.
    + rewrite (get_payraises_for_user_run k w other Ek),
        (get_payraises_for_user_run k w' other Hkey), Hdb.
      rewrite (select_payraises_snoc_other _ _ _ _ _ _
                 (seq_EmpPayRaise (database w))), database_eta; [reflexivity|].
      rewrite Hu. apply Z.eqb_neq. congruence.
    + unfold get_payraises_for_user, bind, gets. rewrite Hdb.
      rewrite (select_payraises_snoc_other _ _ _ _ _ _
                 (seq_EmpPayRaise (database w))), database_eta
        by (rewrite Hu; apply Z.eqb_neq; congruence).
      destruct (select_payraises _ (database w)) as [|r0 rows]; [reflexivity|].
      rewrite !(for_each_key_failure _ e); trivial;
        intros w1 Hw1; apply (entry_body_key_failure false e r0 w1 Hw1).
  - destruct O as [Hdb _]. apply get_payraises_for_user_depends; assumption.
Qed.

End StoreMore.


(** ** Sorting, filtering and looking up *)

Section OrderFacts.
Context {A : Type} (le : A -> A -> bool).
Hypothesis le_total : forall x y, le x y = false -> le y x = true.
Hypothesis le_trans : forall x y z, le x y = true -> le y z = true -> le x z = true.

Lemma insert_by_sorted_total x l :
  StronglySorted (fun a b => le a b = true) l ->
  StronglySorted (fun a b => le a b = true) (insert_by le x l).
Proof.
  induction 1 as [|y l Hl IH Hy]; cbn [insert_by].
  - repeat constructor.
  - destruct (le x y) eqn:Hxy.
    + constructor; [constructor; assumption|].
      constructor; [exact Hxy|].
      rewrite List.Forall_forall in *. intros z Hz.
      apply (le_trans x y z Hxy), Hy, Hz.
    + constructor; [exact IH|].
      rewrite List.Forall_forall in *. intros z Hz.
      apply (Permutation_in _ (insert_by_perm le x l)) in Hz.
      destruct Hz as [<-|Hz]; [apply le_total, Hxy | apply Hy, Hz].
Qed.

Lemma order_by_sorted_total l :
  StronglySorted (fun a b => le a b = true) (order_by le l).
Proof.
  induction l as [|x l IH]; [constructor|].
  apply insert_by_sorted_total, IH.
Qed.

(** Selecting rows commutes with inserting one into an ordered list. *)
Lemma filter_insert_by (q : A -> bool) x l :
  StronglySorted (fun a b => le a b = true) l ->
  List.filter q (insert_by le x l)
  = if q x then insert_by le x (List.filter q l) else List.filter q l.
Proof.
  induction 1 as [|y l Hl IH Hy]; cbn [insert_by List.filter].
  - destruct (q x); reflexivity.
  - destruct (le x y) eqn:Hxy.
    + cbn [List.filter]. destruct (q x) eqn:Qx; [|reflexivity].
      destruct (q y) eqn:Qy; cbn [insert_by]; [rewrite Hxy; reflexivity|].
      destruct (List.filter q l) as [|z r] eqn:F; [reflexivity|].
      cbn [insert_by].
      assert (Hz : In z (List.filter q l)) by (rewrite F; left; reflexivity).
      apply filter_In in Hz as [Hz _].
      rewrite List.Forall_forall in Hy.
      rewrite (le_trans x y z Hxy (Hy z Hz)). reflexivity.
    + cbn [List.filter]. rewrite IH.
      destruct (q y) eqn:Qy; destruct (q x) eqn:Qx; cbn [insert_by];
        rewrite ?Hxy; reflexivity.
Qed.

(** [WHERE] commutes with [ORDER BY]. *)
Lemma filter_order_by (q : A -> bool) l :
  List.filter q (order_by le l) = order_by le (List.filter q l).
Proof.
  induction l as [|x l IH]; [reflexivity|].
  unfold order_by in *. cbn [fold_right List.filter].
  rewrite filter_insert_by by apply order_by_sorted_total.
  rewrite IH. destruct (q x); reflexivity.
Qed.

End OrderFacts.

Lemma id_desc_total x y : id_desc x y = false -> id_desc y x = true.
Proof. unfold id_desc. lia. Qed.

Lemma id_desc_trans x y z :
  id_desc x y = true -> id_desc y z = true -> id_desc x z = true.
Proof. unfold id_desc. lia. Qed.

Lemma str_leb_total a b : str_leb a b = false -> str_leb b a = true.
Proof.
  revert b. induction a as [|x a IH]; intros [|y b]; cbn [str_leb];
    try discriminate; try reflexivity.
  intros Hab. apply orb_false_elim in Hab as [Hlt Hab].
  apply Z.ltb_ge in Hlt. destruct (Z.eq_dec x y) as [->|Hne].
  - rewrite Z.eqb_refl in *. cbn [andb] in Hab. rewrite (IH b Hab).
    apply orb_true_r.
  - rewrite (proj2 (Z.ltb_lt y x)) by lia. reflexivity.
Qed.

Lemma str_leb_trans a b c :
  str_leb a b = true -> str_leb b c = true -> str_leb a c = true.
Proof.
  revert b c. induction a as [|x a IH]; intros [|y b] [|z c]; cbn [str_leb];
    try discriminate; try reflexivity.
  intros Hab Hbc.
  apply orb_prop in Hab as [Hxy|Hxy]; apply orb_prop in Hbc as [Hyz|Hyz];
    split_tests; subst.
  - rewrite (proj2 (Z.ltb_lt x z)) by lia. reflexivity.
  - rewrite (proj2 (Z.ltb_lt x z)) by lia. reflexivity.
  - rewrite (proj2 (Z.ltb_lt y z)) by lia. reflexivity.
  - rewrite Z.eqb_refl. cbn [andb].
    match goal with
    | H1 : str_leb a b = true, H2 : str_leb b c = true |- _ =>
        rewrite (IH b c H1 H2)
    end. apply orb_true_r.
Qed.

Lemma find_app {A} (f : A -> bool) l r :
  List.find f (l ++ r)
  = match List.find f l with Some x => Some x | None => List.find f r end.
Proof.
  induction l as [|x l IH]; cbn [app List.find]; [reflexivity|].
  destruct (f x); [reflexivity|exact IH].
Qed.


Lemma str_eqb_refl a : str_eqb a a = true.
Proof. unfold str_eqb. destruct (decide (a = a)); [reflexivity|contradiction]. Qed.

Lemma str_eqb_eq a b : str_eqb a b = true -> a = b.
Proof. unfold str_eqb. destruct (decide (a = b)); [trivial|discriminate]. Qed.

Lemma str_eqb_neq a b : a <> b -> str_eqb a b = false.
Proof. unfold str_eqb. destruct (decide (a = b)); [contradiction|reflexivity]. Qed.

Lemma existsb_find_none {A} (f : A -> bool) l :
  List.find f l = None -> existsb f l = false.
Proof.
  induction l as [|x l IH]; cbn [List.find existsb]; [reflexivity|].
  destruct (f x); [discriminate|exact IH].
Qed.


Section TablesMore.
Context `{Fernet}.


(** X10.  [get_employees] returns every employee once, in the order of the
    names. *)
Theorem get_employees_sorted (w : World) :
  exists l,
    get_employees w = (Ok l, w)
    /\ Permutation l (Employees (database w))
    /\ StronglySorted (fun a b => str_leb (e_name a) (e_name b) = true) l.
Proof.
  eexists. split; [reflexivity|]. split; [apply order_by_perm|].
  apply (order_by_sorted_total (fun a b => str_leb (e_name a) (e_name b))).
  - intros x y. apply str_leb_total.
  - intros x y z. apply str_leb_trans.
Qed.


End TablesMore.


(** ** The two listings against each other *)

Section ListingMore.
Context `{Fernet}.

Lemma filter_all {A} (l : list A) : List.filter (fun _ => true) l = l.
Proof. induction l as [|x l IH]; cbn [List.filter]; congruence. Qed.

Lemma created_rows_filter keep db :
  created_rows keep db
  = List.filter (fun row => keep (snd row)) (created_rows (fun _ => true) db).
Proof.
  unfold created_rows. rewrite filter_all.
  induction (EmpPayRaise db) as [|pr rest IH]; [reflexivity|].
  cbn [List.filter flat_map]. rewrite List.filter_app, <- IH.
  assert (J : List.filter (fun row => keep (snd row)) (join_Employees db pr)
              = if keep pr then join_Employees db pr else []).
  { unfold join_Employees.
    induction (List.filter _ (Employees db)) as [|e es IHe];
      cbn [map List.filter snd]; [destruct (keep pr); reflexivity|].
    rewrite IHe. destruct (keep pr); reflexivity. }
  rewrite J. destruct (keep pr); reflexivity.
Qed.

(** The [WHERE] clause selects among the rows of the full listing. *)
Lemma select_payraises_filter keep db :
  select_payraises keep db
  = List.filter (fun row => keep (snd row)) (select_payraises (fun _ => true) db).
Proof.
  unfold select_payraises.
  change (order_by id_desc (created_rows keep db)
          = List.filter (fun row => keep (snd row))
              (order_by id_desc (created_rows (fun _ => true) db))).
  rewrite (filter_order_by id_desc id_desc_total id_desc_trans).
  rewrite <- created_rows_filter. reflexivity.
Qed.

Lemma entry_of_views k row y :
  entry_of true k row = Ok y ->
  entry_of false k row = Ok (user_view y)
  /\ models.user_id y = Some (pr_user_id (snd row)).
Proof.
  unfold entry_of.
  destruct (decrypt_field k (payraise_date_encrypted (snd row))); [|discriminate].
  destruct (decrypt_field k (raiseamt_encrypted (snd row))); [|discriminate].
  destruct (decrypt_comments_field k (comments_encrypted (snd row)));
    [|discriminate].
  intros [= <-]. split; reflexivity.
Qed.

Lemma collect_restrict k uid rows l :
  collect (entry_of true k) rows = Ok l ->
  collect (entry_of false k)
    (List.filter (fun row => pr_user_id (snd row) =? uid) rows)
  = Ok (map user_view (List.filter (of_user uid) l)).
Proof.
  revert l. induction rows as [|row rows IH]; intros l; cbn [collect List.filter].
  - intros [= <-]. reflexivity.
  - destruct (entry_of true k row) as [y|] eqn:Ey; [|discriminate].
    destruct (collect (entry_of true k) rows) as [ys|]; [|discriminate].
    intros [= <-]. destruct (entry_of_views k row y Ey) as [Ev Eu].
    cbn [List.filter]. unfold of_user at 1. rewrite Eu.
    destruct (pr_user_id (snd row) =? uid); cbn [collect map];
      rewrite ?Ev, (IH ys eq_refl); reflexivity.
Qed.

(** X12.  Whenever [get_all_payraises] returns, [get_payraises_for_user] returns
    too, and returns the entries of that user in the same order, without
    the two ids. *)
Theorem user_listing_restricts (w : World) (uid : Z) (l : list Entry) :
  fst (get_all_payraises w) = Ok l ->
  fst (get_payraises_for_user uid w)
  = Ok (map user_view (List.filter (of_user uid) l)).
Proof.
  destruct (get_fernet_cases w) as [(e & E & _)|(k & E)].
  - unfold get_all_payraises, get_payraises_for_user, bind, gets.
    rewrite (select_payraises_filter (fun pr => pr_user_id pr =? uid)).
    destruct (select_payraises (fun _ => true) (database w)) as [|row rows].
    + intros [= <-]. reflexivity.
    + rewrite (for_each_key_failure _ e); [discriminate| |rewrite E; reflexivity].
      intros w1 Hw1. apply (entry_body_key_failure true e row w1 Hw1).
  - assert (Hk : fst (get_fernet w) = Ok k) by (rewrite E; reflexivity).
    rewrite (get_all_payraises_run k w Hk),
      (get_payraises_for_user_run k w uid Hk).
    rewrite (select_payraises_filter (fun pr => pr_user_id pr =? uid)).
    apply collect_restrict.
Qed.

Lemma get_fernet_set_flashed l w :
  fst (get_fernet (set_flashed l w)) = fst (get_fernet w).
Proof.
  destruct w as [env kf um cache d fl rnd n].
  unfold get_fernet, _load_fernet_key, bind, gets, py_encode, ret, raise,
    modify, set_flashed.
  cbv beta iota delta [_FERNET_INSTANCE environ key_file database flashed
                         umask os_random os_draws].
  destruct cache; [reflexivity|].
  destruct (env !! "FERNET_KEY") as [[|c k]|];
    try destruct (utf8_encode (c :: k));
    try destruct kf;
    try destruct (fernet_key_ok _); reflexivity.
Qed.

Hypothesis laws : FernetLaws.

(** After [create_payraise] for an existing employee, the user's listing
    is the new entry followed by the former listing. *)
Lemma create_payraise_then_listing k w uid eid d a c emp :
  key_resolves w k ->
  keys_ok (database w) = true ->
  valid_str d = true -> valid_opt c = true ->
  List.find (fun e => e_id e =? eid) (Employees (database w)) = Some emp ->
  exists n w',
    create_payraise uid eid d a c w = (Ok n, w')
    /\ flashed w' = flashed w
    /\ fst (get_payraises_for_user uid w')
       = match fst (get_payraises_for_user uid w) with
         | Ok l => Ok (mkEntry None (e_name emp) None (strip d)
                         (format_2f a) (shown_comments c) None :: l)
         | Raise e => Raise e
         end.
Proof.
  intros Hk Hkeys Hd Hc Hemp.
  destruct (create_payraise_run laws k w uid eid d a c Hk Hd Hc)
    as (date_tok & amt_tok & com_tok & draws & E & D1 & D2 & D3).
  eexists _, _. split; [exact E|]. split; [reflexivity|].
  match type of E with _ = (_, ?w1) =>
    assert (Hk' : fst (get_fernet w1) = Ok k) by reflexivity;
    assert (Hkeys' : keys_ok (database w1) = true)
  end.
  { eapply (insert_EmpPayRaise_keys_ok _get_connection eid uid date_tok amt_tok
              com_tok (database w)); [exact Hkeys | reflexivity]. }
  destruct (listings_reverse_creation w k uid (proj1 Hk) Hkeys) as [_ ->].
  destruct (listings_reverse_creation _ k uid Hk' Hkeys') as [_ ->].
  cbn [database set_database].
  rewrite <- (database_eta (database w)) at 3.
  rewrite !(created_rows_snoc _ _ _ _ _ _ (seq_EmpPayRaise (database w))).
  rewrite database_eta. cbn [pr_user_id pr_emp_id].
  unfold keys_ok in Hkeys. apply andb_prop in Hkeys as [Hdist _].
  rewrite (filter_find_distinct eid _ emp Hdist Hemp), Z.eqb_refl.
  cbn [map]. rewrite !rev_app_distr. cbn [rev app collect].
  unfold entry_of at 1.
  cbn [snd fst payraise_date_encrypted raiseamt_encrypted
         comments_encrypted pr_id pr_user_id].
  rewrite D1, D2, D3. reflexivity.
Qed.

End ListingMore.


(** ** Amounts: from the stored text to the display *)

Lemma to_ascii_plain s : plain_ascii s = true -> to_ascii s = Some s.
Proof.
  unfold plain_ascii. induction s as [|c s IH]; [reflexivity|].
  cbn [forallb to_ascii]. intros Hs. apply andb_prop in Hs as [Hc Hs].
  split_tests. rewrite (IH Hs). decide_tests. reflexivity.
Qed.

Lemma strip_c_plain s : plain_ascii s = true -> strip_by is_c_space s = s.
Proof.
  intros Hs. apply strip_by_kept. revert Hs. apply forallb_impl.
  intros c Hc. split_tests. unfold is_c_space. decide_tests. reflexivity.
Qed.

Lemma drop_underscores_none prev s :
  prev <> 95 -> forallb (fun c => negb (c =? 95)) s = true ->
  drop_underscores prev s = Some s.
Proof.
  revert prev. induction s as [|c s IH]; intros prev Hp; cbn [forallb drop_underscores].
  - intros _. rewrite (proj2 (Z.eqb_neq prev 95)) by assumption. reflexivity.
  - intros Hs. apply andb_prop in Hs as [Hc Hs].
    apply negb_true_iff in Hc. rewrite Hc.
    rewrite (proj2 (Z.eqb_neq prev 95)) by assumption. cbn [andb].
    rewrite (IH c); [reflexivity| |exact Hs]. apply Z.eqb_neq, Hc.
Qed.

Lemma uint_digits_are_digits d : forallb is_digit (uint_digits d) = true.
Proof. induction d; cbn [uint_digits forallb]; trivial. Qed.

Lemma take_digits_app ds rest acc n :
  forallb is_digit ds = true ->
  exists v, take_digits (ds ++ rest) acc n
            = take_digits rest v (n + Z.of_nat (length ds)).
Proof.
  revert acc n. induction ds as [|c ds IH]; intros acc n; cbn [forallb app].
  - intros _. exists acc. cbn [length]. rewrite Z.add_0_r. reflexivity.
  - intros Hs. apply andb_prop in Hs as [Hc Hs]. cbn [take_digits].
    rewrite Hc. destruct (IH (10 * acc + digit_val c) (n + 1) Hs) as [v E].
    exists v. rewrite E. f_equal. cbn [length]. lia.
Qed.

Lemma take_sign_other c r : c <> 45 -> c <> 43 -> take_sign (c :: r) = (false, c :: r).
Proof.
  intros H45 H43. unfold take_sign.
  destruct c as [|p|p]; try reflexivity.
  do 6 (destruct p as [p|p|]; try reflexivity); congruence.
Qed.

Lemma take_digits_dot r v n : take_digits (46 :: r) v n = (v, n, 46 :: r).
Proof. reflexivity. Qed.

Lemma take_digits_two d1 d2 v :
  is_digit d1 = true -> is_digit d2 = true ->
  take_digits [d1; d2] v 0
  = (10 * (10 * v + digit_val d1) + digit_val d2, 2, []).
Proof. intros H1 H2. cbn [take_digits]. rewrite H1, H2. reflexivity. Qed.

(** A text of the shape [digits "." digit digit] is a number for [float]. *)
Lemma parse_number_fixed2 neg ds d1 d2 :
  forallb is_digit ds = true -> is_digit d1 = true -> is_digit d2 = true ->
  exists m, parse_number neg (ds ++ [46] ++ [d1; d2]) = Some (L_dec neg m (- 2)).
Proof.
  intros Hds H1 H2. unfold parse_number.
  destruct (take_digits_app ds ([46] ++ [d1; d2]) 0 0 Hds) as [v E].
  rewrite E. cbn [app]. rewrite take_digits_dot. cbv beta iota zeta.
  rewrite (take_digits_two d1 d2 v H1 H2). cbv beta iota zeta.
  replace (0 <? 0 + Z.of_nat (length ds) + 2) with true
    by (symmetry; apply Z.ltb_lt; lia).
  cbn [parse_exponent]. eexists. reflexivity.
Qed.

Lemma two_digits_are_digits n :
  0 <= n < 100 -> is_digit (48 + n / 10) = true /\ is_digit (48 + n mod 10) = true.
Proof. intros Hn. unfold is_digit. split; decide_tests; reflexivity. Qed.

Lemma format_2f_no_underscore a :
  forallb (fun c => negb (c =? 95)) (format_2f a) = true.
Proof.
  destruct a as [s|s| |s m e]; try (destruct s; reflexivity); try reflexivity.
  unfold format_2f, two_digits. rewrite !forallb_app. cbn [forallb].
  assert (D : forallb (fun c => negb (c =? 95))
                (decimal_of_Z (hundredths m e / 100)) = true).
  { unfold decimal_of_Z. generalize (N.to_uint (Z.to_N (hundredths m e / 100))).
    intros d. induction d; cbn [uint_digits forallb]; trivial. }
  rewrite D. decide_tests. destruct s; reflexivity.
Qed.

(** [float] reads every amount that [f"{a:.2f}"] writes. *)
Lemma py_float_format_2f a : exists x, py_float (format_2f a) = Some x.
Proof.
  unfold py_float.
  rewrite (to_ascii_plain _ (format_2f_plain a)).
  rewrite (strip_c_plain _ (format_2f_plain a)).
  rewrite (drop_underscores_none 0 _ ltac:(lia) (format_2f_no_underscore a)).
  destruct a as [s|s| |s m e];
    [destruct s; vm_compute; eexists; reflexivity
    |destruct s; vm_compute; eexists; reflexivity
    |vm_compute; eexists; reflexivity
    |].
  unfold format_2f, two_digits.
  set (h := hundredths m e).
  destruct (two_digits_are_digits (h mod 100) ltac:(zlia)) as [H1 H2].
  pose proof (uint_digits_are_digits (N.to_uint (Z.to_N (h / 100)))) as Hds.
  fold (decimal_of_Z (h / 100)) in Hds.
  destruct (parse_number_fixed2 s (decimal_of_Z (h / 100)) _ _ Hds H1 H2)
    as [mant P].
  assert (L : parse_literal
                (sign_str s ++ decimal_of_Z (h / 100) ++ [46]
                 ++ [48 + h mod 100 / 10; 48 + (h mod 100) mod 10])
              = Some (L_dec s mant (- 2))
              \/ exists l, parse_literal
                (sign_str s ++ decimal_of_Z (h / 100) ++ [46]
                 ++ [48 + h mod 100 / 10; 48 + (h mod 100) mod 10]) = Some l).
  { unfold parse_literal.
    assert (T : take_sign
                  (sign_str s ++ decimal_of_Z (h / 100) ++ [46]
                   ++ [48 + h mod 100 / 10; 48 + (h mod 100) mod 10])
                = (s, decimal_of_Z (h / 100) ++ [46]
                      ++ [48 + h mod 100 / 10; 48 + (h mod 100) mod 10])).
    { destruct s; [reflexivity|]. cbn [sign_str app].
      destruct (decimal_of_Z (h / 100)) as [|c ds] eqn:Ed; [reflexivity|].
      cbn [forallb] in Hds. apply andb_prop in Hds as [Hc _].
      unfold is_digit in Hc. split_tests.
      apply take_sign_other; lia. }
    rewrite T.
    destruct (str_eqb _ (py "inf") || str_eqb _ (py "infinity"));
      [right; eexists; reflexivity|].
    destruct (str_eqb _ (py "nan")); [right; eexists; reflexivity|].
    left. exact P. }
  destruct L as [L|[l L]]; rewrite L; eexists; reflexivity.
Qed.

(** X13.  The amount column of a listed pay raise that [create_payraise] wrote is
    always a number for the views: the display is the dollar sign and the
    grouped amount, never the fallback text. *)
Theorem display_of_created_amount (a : float) (e : Entry) :
  raise_amount e = format_2f a ->
  exists x,
    py_float (raise_amount e) = Some x
    /\ raise_amount_display (with_display e) = Some (36 :: format_comma_2f x).
Proof.
  intros E. destruct (py_float_format_2f a) as [x P].
  exists x. unfold with_display. cbn [raise_amount_display].
  rewrite E, P. split; reflexivity.
Qed.

(** ** The forms *)

Lemma field_stripped data key : strip (field data key) = field data key.
Proof. unfold field. apply strip_idem. Qed.

Lemma payraise_form_valid data :
  PayRaiseForm.errors (PayRaiseForm.from_mapping data) = [] ->
  is_valid_date (PayRaiseForm.payraise_date (PayRaiseForm.from_mapping data)) = true
  /\ is_positive_number
       (PayRaiseForm.raise_amount (PayRaiseForm.from_mapping data)) = true.
Proof.
  unfold PayRaiseForm.from_mapping.
  cbn [PayRaiseForm.errors PayRaiseForm.payraise_date PayRaiseForm.raise_amount].
  destruct (is_valid_date _); destruct (is_positive_number _);
    cbn [negb app]; try discriminate. split; reflexivity.
Qed.

Lemma employee_form_valid data :
  EmployeeForm.errors (EmployeeForm.from_mapping data) = [] ->
  EmployeeForm.name (EmployeeForm.from_mapping data) <> []
  /\ EmployeeForm.department (EmployeeForm.from_mapping data) <> []
  /\ exists n, EmployeeForm.security_level (EmployeeForm.from_mapping data) = Some n
               /\ (n = 1 \/ n = 2 \/ n = 3).
Proof.
  unfold EmployeeForm.from_mapping.
  destruct (field data "name") as [|c0 nm];
    destruct (field data "department") as [|d0 dp];
    destruct (field data "security_level") as [|s0 sl];
    cbn [truthy negb app]; try discriminate;
    try (destruct (py_int _) as [n|];
         [destruct ((n =? 1) || (n =? 2) || (n =? 3)) eqn:T|];
         cbn [EmployeeForm.errors EmployeeForm.name EmployeeForm.department
                EmployeeForm.security_level app]; discriminate).
  destruct (py_int _) as [n|];
    [destruct ((n =? 1) || (n =? 2) || (n =? 3)) eqn:T|];
    cbn [EmployeeForm.errors EmployeeForm.name EmployeeForm.department
           EmployeeForm.security_level app]; try discriminate.
  intros _. split; [discriminate|]. split; [discriminate|].
  exists n. split; [reflexivity|]. split_tests; auto.
Qed.


Lemma employee_form_fields data :
  EmployeeForm.name (EmployeeForm.from_mapping data) = field data "name"
  /\ EmployeeForm.department (EmployeeForm.from_mapping data)
     = field data "department".
Proof.
  unfold EmployeeForm.from_mapping.
  destruct (truthy (field data "security_level"));
    [destruct (py_int _) as [n|];
     [destruct ((n =? 1) || (n =? 2) || (n =? 3))|]|];
    split; reflexivity.
Qed.

(** ** More on the views *)

Section ViewsMore.
Context `{Fernet}.

(** X14.  A request that a guard refuses has no effect but one flashed message:
    whichever gated view it was sent to, the outcome is that of
    [@login_required] on a logged-out session, or exactly that of the
    handler of unknown URLs; the store, the key and the randomness are not
    touched. *)
Theorem refused_request_is_inert
  (w : World) (g : Gated) (session : Session) (request : Request) :
  denied (fst (gated_view g session request w)) = true ->
  gated_view g session request w = login_refusal w
  \/ gated_view g session request w = page_not_found w.
Proof.
  destruct session as [[uid|] level emp];
    [|intros _; left; destruct g; reflexivity].
  destruct g; unfold gated_view.
  - discriminate.
  - unfold show_payraises, login_required, bind. cbn [user_id].
    destruct (get_payraises_for_user uid w) as [[l|e] w1]; discriminate.
  - unfold add_payraise, login_required. cbn [user_id emp_id].
    destruct (method request); [discriminate|].
    destruct (PayRaiseForm.errors _) as [|m r].
    + destruct emp as [emp|]; [|intros _; right; reflexivity].
      destruct (py_float _) as [amount|]; [|discriminate].
      unfold bind.
      destruct (create_payraise _ _ _ _ _ w) as [[n|e] w1]; discriminate.
    + unfold bind. rewrite flash_all_run. discriminate.
  - unfold add_employee, login_required, requires_security_level.
    cbn [user_id security_level].
    destruct level as [level|]; [|intros _; right; reflexivity].
    destruct (level <? 1); [intros _; right; reflexivity|].
    destruct (method request); [discriminate|].
    destruct (EmployeeForm.errors _) as [|m r].
    + discriminate.
    + unfold bind. rewrite flash_all_run. discriminate.
  - unfold list_employees, login_required, requires_security_level.
    cbn [user_id security_level].
    destruct level as [level|]; [|intros _; right; reflexivity].
    destruct (level <? 1); [intros _; right; reflexivity|].
    destruct level as [|[p|p|]|p]; try (intros _; right; reflexivity);
      try discriminate.
    destruct p as [p|p|]; try (intros _; right; reflexivity); discriminate.
  - unfold list_payraises, login_required, requires_security_level.
    cbn [user_id security_level].
    destruct level as [level|]; [|intros _; right; reflexivity].
    destruct (level <? 2); [intros _; right; reflexivity|].
    destruct level as [|[p|p|]|p]; try (intros _; right; reflexivity).
    destruct p as [p|p|]; try (intros _; right; reflexivity).
    unfold bind. destruct (get_all_payraises w) as [[l|e] w1]; discriminate.
  - discriminate.
Qed.

(** X15.  Whatever the session and the request, [add_employee] leaves the
    employees as they are or appends one row, and a row it appends carries
    a non-empty name and department, without surrounding white space, and
    a security level of 1, 2 or 3. *)
Theorem add_employee_inserts_validated
  (w : World) (session : Session) (request : Request) :
  let w' := snd (add_employee session request w) in
  Employees (database w') = Employees (database w)
  \/ exists row,
       Employees (database w') = Employees (database w) ++ [row]
       /\ e_name row <> [] /\ strip (e_name row) = e_name row
       /\ e_department row <> [] /\ strip (e_department row) = e_department row
       /\ (e_security_level row = 1 \/ e_security_level row = 2
           \/ e_security_level row = 3).
Proof.
  unfold add_employee, login_required, requires_security_level.
  destruct (user_id session); [|left; reflexivity].
  destruct (security_level session) as [level|]; [|left; reflexivity].
  destruct (level <? 1); [left; reflexivity|].
  destruct (method request); [left; reflexivity|].
  destruct (EmployeeForm.errors _) as [|m r] eqn:Eerr.
  - right. apply employee_form_valid in Eerr as (Hn & Hd & n & En & Hlevel).
    eexists. split; [reflexivity|].
    cbn [e_name e_department e_security_level]. rewrite En.
    destruct (employee_form_fields (form request)) as [Fn Fd].
    split; [exact Hn|]. split; [rewrite Fn; apply field_stripped|].
    split; [exact Hd|]. split; [rewrite Fd; apply field_stripped|].
    destruct Hlevel as [->|[->| ->]]; auto.
  - left. unfold bind. rewrite flash_all_run. reflexivity.
Qed.

Hypothesis laws : FernetLaws.

(** X16.  A logged-in session linked to an existing employee posts a pay-raise
    form without errors: the record is created, "Record added" is flashed,
    and [show_payraises] then lists it first, with the date as typed, the
    amount to two decimals with its display form, and the comment. *)
Theorem add_payraise_then_show
  (w : World) (k : bytes) (uid eid : Z) (level : option Z) (emp : Employee)
  (request : Request) :
  key_resolves w k ->
  keys_ok (database w) = true ->
  method request = POST ->
  PayRaiseForm.errors (PayRaiseForm.from_mapping (form request)) = [] ->
  valid_str (PayRaiseForm.comments (PayRaiseForm.from_mapping (form request)))
  = true ->
  List.find (fun e => e_id e =? eid) (Employees (database w)) = Some emp ->
  exists amount w',
    py_float (PayRaiseForm.raise_amount (PayRaiseForm.from_mapping (form request)))
    = Some amount
    /\ add_payraise (mkSession (Some uid) level (Some eid)) request w
       = (Ok (redirect "result"), w')
    /\ flashed w' = flashed w ++ ["Record added"%string]
    /\ fst (show_payraises (mkSession (Some uid) level (Some eid)) request w')
       = match fst (get_payraises_for_user uid w) with
         | Ok l =>
             Ok (render_template "show_payraises.html" 200
                   (page_raises
                      (map with_display
                         (mkEntry None (e_name emp) None
                            (PayRaiseForm.payraise_date
                               (PayRaiseForm.from_mapping (form request)))
                            (format_2f amount)
                            (PayRaiseForm.comments
                               (PayRaiseForm.from_mapping (form request)))
                            None :: l))))
         | Raise e => Raise e
         end.
Proof.
  intros Hk Hkeys Hpost Herr Hcom Hemp.
  destruct (payraise_form_valid _ Herr) as [Hdate Hamt].
  set (f := PayRaiseForm.from_mapping (form request)) in *.
  assert (Hstrip_d : strip (PayRaiseForm.payraise_date f)
                     = PayRaiseForm.payraise_date f) by apply field_stripped.
  assert (Hstrip_c : strip (PayRaiseForm.comments f) = PayRaiseForm.comments f)
    by apply field_stripped.
  assert (Hvd : valid_str (PayRaiseForm.payraise_date f) = true)
    by (rewrite <- Hstrip_d; apply is_valid_date_text, Hdate).
  unfold is_positive_number in Hamt.
  destruct (_ || _); [discriminate|].
  destruct (py_float (PayRaiseForm.raise_amount f)) as [amount|] eqn:Ea;
    [|discriminate].
  set (c := match PayRaiseForm.comments f with [] => None | x => Some x end).
  assert (Hvc : valid_opt c = true).
  { unfold c. destruct (PayRaiseForm.comments f); [reflexivity|exact Hcom]. }
  assert (Hshown : shown_comments c = PayRaiseForm.comments f).
  { unfold c. destruct (PayRaiseForm.comments f) as [|x xs] eqn:Ec;
      [reflexivity|]. cbn [shown_comments]. exact Hstrip_c. }
  destruct (create_payraise_then_listing laws k w uid eid
              (PayRaiseForm.payraise_date f) amount c emp Hk Hkeys Hvd Hvc Hemp)
    as (n & w1 & Ec & Hfl & Hlist).
  exists amount. eexists. split; [reflexivity|].
  assert (Hadd : add_payraise (mkSession (Some uid) level (Some eid)) request w
                 = (Ok (redirect "result"),
                    set_flashed (flashed w1 ++ ["Record added"%string]) w1)).
  { unfold add_payraise, login_required. cbn [user_id emp_id].
    rewrite Hpost. fold f. rewrite Herr, Ea. fold c.
    unfold bind. rewrite Ec. reflexivity. }
  split; [exact Hadd|]. split; [cbn [flashed set_flashed]; rewrite Hfl; reflexivity|].
  unfold show_payraises, login_required, bind. cbn [user_id].
  pose proof (get_payraises_for_user_depends w1
                (set_flashed (flashed w1 ++ ["Record added"%string]) w1) uid
                eq_refl (get_fernet_set_flashed _ w1)) as Hsame.
  destruct (get_payraises_for_user uid
              (set_flashed (flashed w1 ++ ["Record added"%string]) w1))
    as [[l'|e'] w2]; cbn [fst] in *; rewrite Hlist in Hsame;
    rewrite Hstrip_d, Hshown in Hsame;
    destruct (fst (get_payraises_for_user uid w)) as [l|e];
    try discriminate; injection Hsame as ->; reflexivity.
Qed.

End ViewsMore.


(** ** Logging in and out *)

Section AuthMore.
Context `{Fernet} `{!Security}.

Lemma find_some_in {A} (f : A -> bool) l x :
  List.find f l = Some x -> In x l /\ f x = true.
Proof. apply find_some. Qed.

(** X17.  [login] opens a session only for a stored user whose password hash
    checks against the password typed; the session then carries that
    user's id, level and employee link.  The store is never modified. *)
Theorem login_sound
  (w w' : World) (session s' : SessionData) (request : Request)
  (resp : AuthResponse) (n : Z) :
  user_id (keys session) = None ->
  login session request w = (Ok (resp, s'), w') ->
  user_id (keys s') = Some n ->
  database w' = database w
  /\ exists row,
       In row (Users (database w))
       /\ u_id row = n
       /\ u_username row
          = LoginForm.username (LoginForm.from_mapping (form request))
       /\ check_password_hash (u_password_hash row)
            (LoginForm.password (LoginForm.from_mapping (form request))) = true
       /\ security_level (keys s') = Some (u_security_level row)
       /\ emp_id (keys s') = u_emp_id row.
Proof.
  intros Hout. unfold login. rewrite Hout.
  destruct (method request).
  { intros [= <- <- <-] Hin. rewrite Hout in Hin. discriminate. }
  destruct (LoginForm.errors _) as [|m r].
  - unfold bind, get_user_by_username, gets, flash, modify, ret.
    destruct (List.find _ (Users (database w))) as [row|] eqn:Ef.
    + destruct (check_password_hash _ _) eqn:Ec.
      * intros [= <- <- <-]. cbn [keys user_id security_level emp_id].
        intros [= <-]. split; [reflexivity|].
        apply find_some_in in Ef as [Hin Hname]. apply str_eqb_eq in Hname.
        exists row. repeat split; trivial.
      * intros [= <- <- <-] Hin. rewrite Hout in Hin. discriminate.
    + intros [= <- <- <-] Hin. rewrite Hout in Hin. discriminate.
  - unfold bind. rewrite flash_all_run.
    intros [= <- <- <-] Hin. rewrite Hout in Hin. discriminate.
Qed.

(** X18.  A failed login looks the same whether the name is unknown or the
    password is wrong: the same page, the same single message, the session
    as it was, nothing else changed. *)
Theorem login_failure_is_uniform
  (w : World) (session : SessionData) (request : Request) :
  user_id (keys session) = None ->
  method request = POST ->
  LoginForm.errors (LoginForm.from_mapping (form request)) = [] ->
  (forall row,
     fst (get_user_by_username
            (LoginForm.username (LoginForm.from_mapping (form request))) w)
     = Ok (Some row) ->
     check_password_hash (u_password_hash row)
       (LoginForm.password (LoginForm.from_mapping (form request))) = false) ->
  login session request w
  = (Ok (auth_render "login.html" 200 (LoginForm.from_mapping (form request)),
         session),
     set_flashed (flashed w ++ ["invalid username and/or password!"%string]) w).
Proof.
  intros Hout Hpost Herr Hbad. unfold login. rewrite Hout, Hpost, Herr.
  unfold bind, get_user_by_username, gets, flash, modify, ret in *.
  cbn [fst] in Hbad.
  destruct (List.find _ (Users (database w))) as [row|]; [|reflexivity].
  rewrite (Hbad row eq_refl). reflexivity.
Qed.

(** X19.  After [logout] the session is empty, and every view behind
    [@login_required] answers it with the redirection to the login page,
    whatever the request and the state. *)
Theorem logout_closes_session
  (w : World) (session : SessionData) :
  exists w',
    logout session w = (Ok (redirect "login", cleared), w')
    /\ database w' = database w
    /\ forall g request w2,
         gated_view g (keys cleared) request w2 = login_refusal w2.
Proof.
  eexists. split; [reflexivity|]. split; [reflexivity|].
  intros g request w2. destruct g; reflexivity.
Qed.

Hypothesis hashing : SecurityLaws.


End AuthMore.


Import init_db_seed SpecSeed.

(** ** Seeding the database *)

Lemma find_in_true {A} (f : A -> bool) l x :
  List.find f l = Some x -> In x l /\ f x = true.
Proof. apply find_some. Qed.

Lemma has_employee_in db e : In e (Employees db) -> has_employee db (e_id e) = true.
Proof.
  intros Hin. unfold has_employee. apply existsb_exists.
  exists e. split; [exact Hin | apply Z.eqb_refl].
Qed.

Lemma has_user_in db u : In u (Users db) -> has_user db (u_id u) = true.
Proof.
  intros Hin. unfold has_user. apply existsb_exists.
  exists u. split; [exact Hin | apply Z.eqb_refl].
Qed.

Lemma employee_step_has entry db :
  has_employee (snd (employee_step entry db)) (fst (employee_step entry db)) = true
  /\ Users (snd (employee_step entry db)) = Users db
  /\ seq_Users (snd (employee_step entry db)) = seq_Users db
  /\ EmpPayRaise (snd (employee_step entry db)) = EmpPayRaise db
  /\ seq_EmpPayRaise (snd (employee_step entry db)) = seq_EmpPayRaise db
  /\ exists l, Employees (snd (employee_step entry db)) = Employees db ++ l.
Proof.
  unfold employee_step.
  destruct (select_employee _ _ db) as [e|] eqn:E; cbn [fst snd].
  - repeat split; [|exists []; symmetry; apply app_nil_r].
    apply has_employee_in. exact (proj1 (find_in_true _ _ _ E)).
  - cbn [Users seq_Users EmpPayRaise seq_EmpPayRaise Employees].
    repeat split; [|eexists; reflexivity].
    unfold has_employee. cbn [Employees]. rewrite existsb_app.
    cbn [existsb e_id]. rewrite Z.eqb_refl. apply orb_true_iff. right. reflexivity.
Qed.

Section SeedFacts.
Context `{Fernet} `{!Security}.

(** A turn of the seeding loop never raises; its effect. *)
Lemma seed_entry_run entry w :
  seed_entry seed_conn entry w = (Ok tt, turn_world entry w).
Proof.
  destruct w as [env kf um cache db fl rnd n].
  unfold seed_entry, turn_world, turn_db, bind, query, gets, execute, ret,
    urandom, insert_Employees.
  cbv beta iota zeta delta [database set_database set_os_draws environ key_file
    umask _FERNET_INSTANCE flashed os_random os_draws].
  pose proof (employee_step_has entry db) as (He & Hu & Hsu & _ & _ & _).
  unfold employee_step in *.
  destruct (select_employee _ _ db) as [e|] eqn:E; cbn [fst snd] in *;
    unfold user_step, select_user in *; cbn [Users] in *;
    unfold has_employee in He; cbn [Employees] in He;
    (destruct (List.find _ (Users db)) as [u|] eqn:U;
     [|unfold insert_Users_linked; cbn [Users];
       rewrite (existsb_find_none _ _ U)];
     unfold update_Users_emp_id, has_employee; cbn [Users Employees];
     repeat (cbn [Users Employees EmpPayRaise seq_Users seq_Employees
                  seq_EmpPayRaise negb andb];
             rewrite ?He, ?andb_false_r);
     reflexivity).
Qed.

End SeedFacts.

(** *** One turn of the loop, on the store *)

Lemma relink_id a b u : u_id (relink a b u) = u_id u.
Proof. unfold relink. destruct (u_id u =? b); reflexivity. Qed.

Lemma relink_username a b u : u_username (relink a b u) = u_username u.
Proof. unfold relink. destruct (u_id u =? b); reflexivity. Qed.

Lemma relink_password_hash a b u : u_password_hash (relink a b u) = u_password_hash u.
Proof. unfold relink. destruct (u_id u =? b); reflexivity. Qed.

Lemma relink_security_level a b u :
  u_security_level (relink a b u) = u_security_level u.
Proof. unfold relink. destruct (u_id u =? b); reflexivity. Qed.

Lemma relink_emp_id a b u :
  u_emp_id (relink a b u) = if u_id u =? b then Some a else u_emp_id u.
Proof. unfold relink. destruct (u_id u =? b); reflexivity. Qed.

Lemma relink_same a b u :
  (u_id u = b -> u_emp_id u = Some a) -> relink a b u = u.
Proof.
  unfold relink. destruct (Z.eqb_spec (u_id u) b) as [E|E]; [|reflexivity].
  intros Hu. specialize (Hu E). destruct u. cbn in Hu. subst. reflexivity.
Qed.

Lemma map_relink_same a b l :
  (forall u, In u l -> u_id u = b -> u_emp_id u = Some a) ->
  map (relink a b) l = l.
Proof.
  induction l as [|u l IH]; intros Hl; [reflexivity|].
  cbn [map]. rewrite relink_same, IH; [reflexivity| |].
  - intros u' Hin. apply Hl. right. exact Hin.
  - apply Hl. left. reflexivity.
Qed.

Lemma find_relink name a b l :
  List.find (fun u => str_eqb (u_username u) name) (map (relink a b) l)
  = option_map (relink a b)
      (List.find (fun u => str_eqb (u_username u) name) l).
Proof.
  induction l as [|u l IH]; [reflexivity|].
  cbn [map List.find]. rewrite relink_username.
  destruct (str_eqb (u_username u) name); [reflexivity|exact IH].
Qed.

Lemma distinct_snoc l n :
  distinct l = true -> (forall x, In x l -> x < n) -> distinct (l ++ [n]) = true.
Proof.
  induction l as [|y l IH]; intros Hd Hn; [reflexivity|].
  cbn [app distinct] in *. apply andb_prop in Hd as [Hy Hd].
  rewrite IH; [|exact Hd|intros x Hx; apply Hn; right; exact Hx].
  rewrite existsb_app. cbn [existsb].
  apply negb_true_iff in Hy. rewrite Hy.
  assert (y < n) by (apply Hn; left; reflexivity).
  rewrite (proj2 (Z.eqb_neq y n)) by lia. reflexivity.
Qed.

Lemma distinct_inj {A} (key : A -> Z) l x y :
  distinct (map key l) = true -> In x l -> In y l -> key x = key y -> x = y.
Proof.
  induction l as [|z l IH]; [contradiction|].
  cbn [map distinct]. intros Hd. apply andb_prop in Hd as [Hz Hd].
  apply negb_true_iff in Hz.
  assert (Hfresh : forall v, In v l -> key z <> key v).
  { intros v Hv E.
    assert (existsb (Z.eqb (key z)) (map key l) = true); [|congruence].
    apply existsb_exists. exists (key v).
    split; [apply in_map; exact Hv | apply Z.eqb_eq; exact E]. }
  intros [->|Hx] [->|Hy] E; trivial.
  - destruct (Hfresh y Hy E).
  - destruct (Hfresh x Hx (eq_sym E)).
  - apply IH; assumption.
Qed.

Lemma next_rowid_above ids seq x : In x ids -> x < next_rowid ids seq.
Proof. intros Hx. unfold next_rowid. pose proof (max_id_ge x ids Hx). lia. Qed.

(** What a turn does to the store. *)
Lemma turn_db_shape entry h db :
  exists e u0 le lu,
    Employees (turn_db entry h db) = Employees db ++ le
    /\ Users (turn_db entry h db)
       = map (relink (e_id e) (u_id u0)) (Users db ++ lu)
    /\ EmpPayRaise (turn_db entry h db) = EmpPayRaise db
    /\ seq_EmpPayRaise (turn_db entry h db) = seq_EmpPayRaise db
    /\ select_employee (se_name (s_employee entry))
         (se_email (s_employee entry)) (turn_db entry h db) = Some e
    /\ select_user (s_username entry)
         (mkDatabase (Users db ++ lu) [] [] 0 0 0) = Some u0
    /\ ((lu = [] /\ select_user (s_username entry) db = Some u0)
        \/ (select_user (s_username entry) db = None
            /\ lu = [u0]
            /\ u0 = mkUser (next_rowid (map u_id (Users db)) (seq_Users db))
                      (s_username entry) h (s_full_name entry)
                      (s_security_level entry) (Some (e_id e)))).
Proof.
  unfold turn_db, employee_step.
  destruct (select_employee _ _ db) as [e|] eqn:E.
  - unfold user_step.
    destruct (select_user (s_username entry) db) as [u|] eqn:U.
    + exists e, u, [], []. cbn [Users Employees EmpPayRaise seq_EmpPayRaise].
      rewrite !app_nil_r. repeat split; trivial. left. split; reflexivity.
    + pose (u0 := mkUser (next_rowid (map u_id (Users db)) (seq_Users db))
                    (s_username entry) h (s_full_name entry)
                    (s_security_level entry) (Some (e_id e))).
      exists e, u0, [], [u0].
      cbn [Users Employees EmpPayRaise seq_EmpPayRaise u_id u0].
      rewrite app_nil_r. split; [reflexivity|]. split; [reflexivity|].
      split; [reflexivity|]. split; [reflexivity|]. split; [exact E|].
      split.
      * unfold select_user in *. cbn [Users]. rewrite find_app, U.
        cbn [List.find u_username]. rewrite str_eqb_refl. reflexivity.
      * right. split; [reflexivity|]. split; reflexivity.
  - unfold user_step, select_user. cbn [Users seq_Users].
    set (e := mkEmployee _ _ _ _ _).
    assert (Ee : forall us prs a b c,
      select_employee (se_name (s_employee entry)) (se_email (s_employee entry))
        (mkDatabase us (Employees db ++ [e]) prs a b c) = Some e).
    { intros. unfold select_employee in *. cbn [Employees].
      rewrite find_app, E. cbn [List.find e e_name e_email].
      rewrite !str_eqb_refl. reflexivity. }
    destruct (List.find _ (Users db)) as [u|] eqn:U.
    + exists e, u, [e], []. cbn [Users Employees EmpPayRaise seq_EmpPayRaise].
      rewrite !app_nil_r. split; [reflexivity|]. split; [reflexivity|].
      split; [reflexivity|]. split; [reflexivity|]. split; [apply Ee|].
      split; [first [exact U | reflexivity]|].
      left. split; [reflexivity | first [exact U | reflexivity]].
    + pose (u0 := mkUser (next_rowid (map u_id (Users db)) (seq_Users db))
                    (s_username entry) h (s_full_name entry)
                    (s_security_level entry) (Some (e_id e))).
      exists e, u0, [e], [u0].
      cbn [Users Employees EmpPayRaise seq_EmpPayRaise u_id u0].
      split; [reflexivity|]. split; [reflexivity|].
      split; [reflexivity|]. split; [reflexivity|]. split; [apply Ee|].
      split.
      * rewrite find_app, U.
        cbn [List.find u_username]. rewrite str_eqb_refl. reflexivity.
      * right. split; [reflexivity|]. split; reflexivity.
Qed.

Lemma select_user_users name db db' :
  Users db' = Users db -> select_user name db' = select_user name db.
Proof. unfold select_user. intros ->. reflexivity. Qed.

Lemma has_employee_app db db' l x :
  Employees db' = Employees db ++ l ->
  has_employee db x = true -> has_employee db' x = true.
Proof.
  unfold has_employee. intros -> Hx. rewrite existsb_app, Hx. reflexivity.
Qed.

Lemma select_employee_app db db' l name email e :
  Employees db' = Employees db ++ l ->
  select_employee name email db = Some e ->
  select_employee name email db' = Some e.
Proof.
  unfold select_employee. intros -> He. rewrite find_app, He. reflexivity.
Qed.

(** After its turn, an entry is settled. *)
Lemma turn_db_settles entry h db : settled entry (turn_db entry h db).
Proof.
  destruct (turn_db_shape entry h db)
    as (e & u0 & le & lu & _ & EU & _ & _ & Ee & Eu & _).
  exists e, (relink (e_id e) (u_id u0) u0). split; [exact Ee|].
  unfold select_user in *. cbn [Users] in Eu. rewrite EU, find_relink, Eu.
  split; [reflexivity|].
  intros u' Hin. rewrite relink_id. intros Hid.
  apply in_map_iff in Hin as (u1 & <- & _).
  rewrite relink_id in Hid. rewrite relink_emp_id, Hid, Z.eqb_refl. reflexivity.
Qed.

Lemma settled_refers entry db : settled entry db -> refers entry db.
Proof.
  intros (e & u & Ee & Eu & Hall). exists u. split; [exact Eu|].
  intros u' Hin Hid. exists (e_id e). split; [exact (Hall u' Hin Hid)|].
  apply has_employee_in. exact (proj1 (find_in_true _ _ _ Ee)).
Qed.

(** A turn keeps every account that refers to an employee doing so. *)
Lemma turn_db_refers entry h db other :
  refers other db -> refers other (turn_db entry h db).
Proof.
  intros (u & Eu & Hall).
  destruct (turn_db_shape entry h db)
    as (e & u0 & le & lu & EE & EU & _ & _ & Ee & Eu0 & Hlu).
  assert (He : has_employee (turn_db entry h db) (e_id e) = true)
    by (apply has_employee_in; exact (proj1 (find_in_true _ _ _ Ee))).
  exists (relink (e_id e) (u_id u0) u). split.
  - unfold select_user in *. rewrite EU, find_relink, find_app, Eu. reflexivity.
  - intros u' Hin. rewrite relink_id. intros Hid.
    rewrite EU in Hin. apply in_map_iff in Hin as (u1 & <- & Hin).
    rewrite relink_id in Hid. rewrite relink_emp_id.
    destruct (u_id u1 =? u_id u0) eqn:T; [exists (e_id e); split; trivial|].
    apply in_app_or in Hin as [Hin|Hin].
    + destruct (Hall u1 Hin Hid) as (x & Ex & Hx). exists x.
      split; [exact Ex|]. exact (has_employee_app _ _ _ _ EE Hx).
    + destruct Hlu as [[-> _]|(_ & -> & Hu0)]; [destruct Hin|].
      destruct Hin as [<-|[]]. rewrite Z.eqb_refl in T. discriminate.
Qed.

(** A turn keeps the primary key of [Users]. *)
Lemma turn_db_users_key entry h db :
  users_key db = true -> users_key (turn_db entry h db) = true.
Proof.
  unfold users_key. intros Hk.
  destruct (turn_db_shape entry h db)
    as (e & u0 & le & lu & _ & EU & _ & _ & _ & _ & Hlu).
  rewrite EU, map_map.
  rewrite (map_ext _ u_id) by (intros u; apply relink_id).
  destruct Hlu as [[-> _]|(_ & -> & ->)]; [rewrite app_nil_r; exact Hk|].
  rewrite map_app. cbn [map u_id]. apply distinct_snoc; [exact Hk|].
  intros x. apply next_rowid_above.
Qed.

(** A turn leaves the settled entries of other accounts settled. *)
Lemma turn_db_settled entry h db other :
  users_key db = true ->
  s_username entry <> s_username other ->
  settled other db -> settled other (turn_db entry h db).
Proof.
  intros Hk Hne (e' & u' & Ee' & Eu' & Hall).
  destruct (turn_db_shape entry h db)
    as (e & u0 & le & lu & EE & EU & _ & _ & Ee & Eu0 & Hlu).
  destruct (find_in_true _ _ _ Eu') as [Hin' Hname'].
  apply str_eqb_eq in Hname'.
  assert (Hid : forall u1, In u1 (Users db ++ lu) -> u_id u1 = u_id u' ->
                           u_id u1 <> u_id u0 /\ In u1 (Users db)).
  { intros u1 Hin1 E1.
    destruct Hlu as [[-> Eu]|(_ & -> & Hu0)].
    - rewrite app_nil_r in Hin1. split; [|exact Hin1]. intros E0.
      destruct (find_in_true _ _ _ Eu) as [Hin0 Hname0].
      apply str_eqb_eq in Hname0.
      assert (u' = u0)
        by (apply (distinct_inj u_id (Users db)); trivial; congruence).
      subst u0. congruence.
    - assert (Hlt : u_id u' < u_id u0).
      { rewrite Hu0. cbn [u_id]. apply next_rowid_above, in_map. exact Hin'. }
      apply in_app_or in Hin1 as [Hin1|[<-|[]]]; [split; [lia|exact Hin1]|lia]. }
  exists e', u'. split; [exact (select_employee_app _ _ _ _ _ _ EE Ee')|].
  assert (Hsame : relink (e_id e) (u_id u0) u' = u').
  { apply relink_same. intros E0.
    destruct (Hid u' (in_or_app _ _ _ (or_introl Hin')) eq_refl) as [Hne0 _].
    contradiction. }
  split.
  - unfold select_user in *. rewrite EU, find_relink, find_app, Eu'.
    cbn [option_map]. rewrite Hsame. reflexivity.
  - intros u1 Hin1 E1. rewrite EU in Hin1.
    apply in_map_iff in Hin1 as (u2 & <- & Hin2).
    rewrite relink_id in E1. destruct (Hid u2 Hin2 E1) as [Hne2 Hin2'].
    rewrite relink_emp_id, (proj2 (Z.eqb_neq _ _) Hne2).
    exact (Hall u2 Hin2' E1).
Qed.

(** The turn of a settled entry changes nothing. *)
Lemma turn_db_fixed entry h db : settled entry db -> turn_db entry h db = db.
Proof.
  intros (e & u & Ee & Eu & Hall).
  unfold turn_db, employee_step, user_step. rewrite Ee, Eu.
  rewrite map_relink_same by exact Hall. apply database_eta.
Qed.

(** A turn keeps the hash and the level of every stored account. *)
Lemma turn_db_account `{Fernet} `{!Security} entry h db other :
  seeded_account other db -> seeded_account other (turn_db entry h db).
Proof.
  intros (u & r & Eu & Eh & El).
  destruct (turn_db_shape entry h db)
    as (e & u0 & le & lu & _ & EU & _).
  exists (relink (e_id e) (u_id u0) u), r.
  unfold select_user in *. rewrite EU, find_relink, find_app, Eu.
  rewrite relink_password_hash, relink_security_level. repeat split; trivial.
Qed.

(** The turn of an entry whose account is missing stores it with a hash
    of the seed password. *)
Lemma turn_db_new_account `{Fernet} `{!Security} entry r db :
  select_user (s_username entry) db = None ->
  seeded_account entry
    (turn_db entry (generate_password_hash r (s_password entry)) db).
Proof.
  intros Hnone.
  destruct (turn_db_shape entry (generate_password_hash r (s_password entry)) db)
    as (e & u0 & le & lu & _ & EU & _ & _ & _ & Eu0 & Hlu).
  destruct Hlu as [[_ Eu]|(_ & -> & Hu0)]; [congruence|].
  exists (relink (e_id e) (u_id u0) u0), r.
  unfold select_user in *. cbn [Users] in Eu0. rewrite EU, find_relink, Eu0.
  rewrite relink_password_hash, relink_security_level, Hu0.
  repeat split; reflexivity.
Qed.

(** A turn stores no account of another name. *)
Lemma turn_db_other_missing entry h db other :
  s_username entry <> s_username other ->
  select_user (s_username other) db = None ->
  select_user (s_username other) (turn_db entry h db) = None.
Proof.
  intros Hne Hnone.
  destruct (turn_db_shape entry h db)
    as (e & u0 & le & lu & _ & EU & _ & _ & _ & _ & Hlu).
  unfold select_user in *. rewrite EU, find_relink, find_app, Hnone.
  destruct Hlu as [[-> _]|(_ & -> & ->)]; [reflexivity|].
  cbn [List.find u_username]. rewrite str_eqb_neq by exact Hne. reflexivity.
Qed.

(** *** The loop, on the process *)

Section SeedLoop.
Context `{Fernet} `{!Security}.

Lemma turn_world_database entry w :
  exists h, database (turn_world entry w) = turn_db entry h (database w).
Proof.
  unfold turn_world. eexists.
  destruct (select_user _ _); destruct w; reflexivity.
Qed.

Lemma turn_world_hash entry w :
  database (turn_world entry w)
  = turn_db entry
      (generate_password_hash (os_random w (os_draws w)) (s_password entry))
      (database w).
Proof.
  unfold turn_world. destruct (select_user _ _); destruct w; reflexivity.
Qed.

Lemma turn_world_fixed entry w :
  settled entry (database w) -> turn_world entry w = w.
Proof.
  intros Hs. unfold turn_world. rewrite (turn_db_fixed _ _ _ Hs).
  destruct Hs as (e & u & _ & -> & _). unfold set_database. apply world_eta.
Qed.

Lemma for_in_run l w :
  for_in (seed_entry seed_conn) l w = (Ok tt, loop_world l w).
Proof.
  revert w. induction l as [|entry l IH]; intros w; [reflexivity|].
  cbn [for_in loop_world fold_left]. unfold bind.
  rewrite seed_entry_run. apply IH.
Qed.

Lemma loop_world_cons entry l w :
  loop_world (entry :: l) w = loop_world l (turn_world entry w).
Proof. reflexivity. Qed.

Lemma loop_world_fixed l w :
  (forall entry, In entry l -> settled entry (database w)) -> loop_world l w = w.
Proof.
  induction l as [|entry l IH]; intros Hl; [reflexivity|].
  rewrite loop_world_cons, turn_world_fixed; [|apply Hl; left; reflexivity].
  apply IH. intros e He. apply Hl. right. exact He.
Qed.

(** The loop writes to [Users] and [Employees] only. *)
Lemma loop_world_payraises l w :
  EmpPayRaise (database (loop_world l w)) = EmpPayRaise (database w)
  /\ seq_EmpPayRaise (database (loop_world l w)) = seq_EmpPayRaise (database w).
Proof.
  revert w. induction l as [|entry l IH]; intros w; [split; reflexivity|].
  rewrite loop_world_cons. destruct (IH (turn_world entry w)) as [-> ->].
  destruct (turn_world_database entry w) as (h & ->).
  destruct (turn_db_shape entry h (database w))
    as (e & u0 & le & lu & _ & _ & -> & -> & _). split; reflexivity.
Qed.

Lemma loop_world_refers l w :
  (forall entry, In entry l -> refers entry (database (loop_world l w)))
  /\ (forall entry, refers entry (database w) ->
                    refers entry (database (loop_world l w))).
Proof.
  revert w. induction l as [|entry l IH]; intros w.
  - split; [intros ? []|trivial].
  - rewrite loop_world_cons. destruct (IH (turn_world entry w)) as [IH1 IH2].
    destruct (turn_world_database entry w) as (h & Eh).
    split.
    + intros e [<-|He]; [|exact (IH1 e He)].
      apply IH2. rewrite Eh. apply settled_refers, turn_db_settles.
    + intros e He. apply IH2. rewrite Eh. apply turn_db_refers. exact He.
Qed.

Lemma loop_world_settled l w :
  List.NoDup (map s_username l) ->
  users_key (database w) = true ->
  users_key (database (loop_world l w)) = true
  /\ (forall entry, In entry l -> settled entry (database (loop_world l w)))
  /\ (forall entry, settled entry (database w) ->
                    ~ In (s_username entry) (map s_username l) ->
                    settled entry (database (loop_world l w))).
Proof.
  revert w. induction l as [|entry l IH]; intros w Hnd Hk.
  - repeat split; trivial. intros ? [].
  - rewrite loop_world_cons. cbn [map] in Hnd.
    apply List.NoDup_cons_iff in Hnd as [Hnew Hnd].
    destruct (turn_world_database entry w) as (h & Eh).
    assert (Hk1 : users_key (database (turn_world entry w)) = true)
      by (rewrite Eh; apply turn_db_users_key; exact Hk).
    destruct (IH (turn_world entry w) Hnd Hk1) as (IHk & IH1 & IH2).
    split; [exact IHk|]. split.
    + intros e [<-|He]; [|exact (IH1 e He)].
      apply IH2; [|exact Hnew]. rewrite Eh. apply turn_db_settles.
    + intros e He Hout. cbn [map In] in Hout. apply IH2; [|tauto].
      rewrite Eh. apply turn_db_settled; trivial. tauto.
Qed.

Lemma loop_world_account l w entry :
  seeded_account entry (database w) ->
  seeded_account entry (database (loop_world l w)).
Proof.
  revert w. induction l as [|e l IH]; intros w Ha; [exact Ha|].
  rewrite loop_world_cons. apply IH.
  destruct (turn_world_database e w) as (h & ->). apply turn_db_account, Ha.
Qed.

Lemma loop_world_new_accounts l w entry :
  List.NoDup (map s_username l) ->
  In entry l ->
  select_user (s_username entry) (database w) = None ->
  seeded_account entry (database (loop_world l w)).
Proof.
  revert w. induction l as [|e l IH]; intros w Hnd Hin Hnone; [destruct Hin|].
  rewrite loop_world_cons. cbn [map] in Hnd.
  apply List.NoDup_cons_iff in Hnd as [Hnew Hnd].
  destruct Hin as [->|Hin].
  - apply loop_world_account. rewrite turn_world_hash.
    apply turn_db_new_account. exact Hnone.
  - apply IH; trivial.
    destruct (turn_world_database e w) as (h & ->).
    apply turn_db_other_missing; [|exact Hnone].
    intros E. apply Hnew. rewrite E. apply in_map. exact Hin.
Qed.

Lemma employees_names : List.NoDup (map s_username employees).
Proof.
  cbn [map employees s_username].
  repeat (apply List.NoDup_cons; [cbn [In]; intros Hin; intuition discriminate|]).
  apply List.NoDup_nil.
Qed.

End SeedLoop.

(** *** The seeded pay raise *)

Section SeedPayRaise.
Context `{Fernet} `{!Security}.

Lemma count_payraises_snoc uid db us es row a b c :
  pr_user_id row = uid ->
  0 < count_payraises uid
        (mkDatabase us es (EmpPayRaise db ++ [row]) a b c).
Proof.
  intros Hrow. unfold count_payraises. cbn [EmpPayRaise].
  rewrite List.filter_app, length_app. cbn [List.filter].
  rewrite Hrow, Z.eqb_refl. cbn [length]. lia.
Qed.

(** The three ways the end of [initialize_database] goes once the admin
    account refers to an employee. *)
Lemma seed_payraise_outcome entry w :
  s_username entry = py "admin1" ->
  refers entry (database w) ->
  exists u,
    select_user (py "admin1") (database w) = Some u
    /\ ((seed_payraise seed_conn w = (Returned, w)
         /\ 0 < count_payraises (u_id u) (database w))
        \/ (exists e w',
              seed_payraise seed_conn w = (Raised e, w')
              /\ key_error e = true /\ database w' = database w)
        \/ (exists w' row n,
              seed_payraise seed_conn w = (Returned, w')
              /\ count_payraises (u_id u) (database w) <= 0
              /\ database w'
                 = mkDatabase (Users (database w)) (Employees (database w))
                     (EmpPayRaise (database w) ++ [row])
                     (seq_Users (database w)) (seq_Employees (database w)) n
              /\ pr_user_id row = u_id u)).
Proof.
  intros Hname (u & Eu & Hall). rewrite Hname in Eu.
  exists u. split; [exact Eu|].
  unfold seed_payraise. rewrite Eu.
  destruct (find_in_true _ _ _ Eu) as [Hin _].
  unfold select_user_by_id.
  destruct (List.find (fun u0 => u_id u0 =? u_id u) (Users (database w)))
    as [row|] eqn:Erow.
  2:{ pose proof (find_none _ _ Erow u Hin) as Hu.
      cbv beta in Hu. rewrite Z.eqb_refl in Hu. discriminate. }
  destruct (find_in_true _ _ _ Erow) as [Hrow Hid]. apply Z.eqb_eq in Hid.
  destruct (Hall row Hrow Hid) as (x & Ex & Hx).
  destruct (0 <? count_payraises (u_id u) (database w)) eqn:Hcount.
  { left. split; [reflexivity|]. apply Z.ltb_lt. exact Hcount. }
  right. apply Z.ltb_ge in Hcount. unfold bind.
  destruct (encrypt_text_stable (Some (py "2025-01-01")) w) as [S1 K1].
  destruct (encrypt_text (Some (py "2025-01-01")) w) as [[t1|e1] w1];
    cbn [fst snd] in *;
    [|left; exists e1, w1; destruct S1 as (A & _); auto].
  destruct (encrypt_text_stable (Some (py "1250.00")) w1) as [S2 K2].
  destruct (encrypt_text (Some (py "1250.00")) w1) as [[t2|e2] w2];
    cbn [fst snd] in *;
    [|left; exists e2, w2;
      destruct (cipher_step_trans _ _ _ S1 S2) as (A & _); auto].
  pose proof (cipher_step_trans _ _ _ S1 S2) as S12.
  destruct (encrypt_text_stable (Some (py "Annual merit increase")) w2)
    as [S3 K3].
  destruct (encrypt_text (Some (py "Annual merit increase")) w2)
    as [[t3|e3] w3];
    cbn [fst snd] in *;
    [|left; exists e3, w3;
      destruct (cipher_step_trans _ _ _ S12 S3) as (A & _); auto].
  destruct (cipher_step_trans _ _ _ S12 S3) as (A & _).
  right. unfold execute, insert_EmpPayRaise_of, insert_EmpPayRaise.
  rewrite Ex, A, Hx, (has_user_in _ _ Hin). cbn [negb andb].
  eexists _, _, _. split; [reflexivity|]. split; [exact Hcount|].
  destruct w3; cbn [database set_database]. split; reflexivity.
Qed.

(** Once it returned, the end of [initialize_database] has nothing left
    to do. *)
Lemma seed_payraise_again entry w w' :
  s_username entry = py "admin1" ->
  refers entry (database w) ->
  seed_payraise seed_conn w = (Returned, w') ->
  Users (database w') = Users (database w)
  /\ Employees (database w') = Employees (database w)
  /\ seed_payraise seed_conn w' = (Returned, w').
Proof.
  intros Hname Href Hrun.
  destruct (seed_payraise_outcome entry w Hname Href) as (u & Eu & Hcases).
  assert (Hgo : forall w2,
    Users (database w2) = Users (database w) ->
    0 < count_payraises (u_id u) (database w2) ->
    seed_payraise seed_conn w2 = (Returned, w2)).
  { intros w2 EU Hc. unfold seed_payraise, select_user, select_user_by_id in *.
    rewrite EU, Eu.
    destruct (find_in_true _ _ _ Eu) as [Hin _].
    destruct (List.find (fun u0 => u_id u0 =? u_id u) (Users (database w)))
      as [row|] eqn:Erow.
    2:{ pose proof (find_none _ _ Erow u Hin) as Hu.
        cbv beta in Hu. rewrite Z.eqb_refl in Hu. discriminate. }
    rewrite (proj2 (Z.ltb_lt _ _) Hc). reflexivity. }
  destruct Hcases as [[E Hc]|[(e & w2 & E & _)|(w2 & row & n & E & _ & Edb & Hrow)]];
    rewrite E in Hrun.
  - injection Hrun as <-. repeat split. apply Hgo; trivial.
  - discriminate.
  - injection Hrun as <-. rewrite Edb. cbn [Users Employees].
    split; [reflexivity|]. split; [reflexivity|].
    apply Hgo; [rewrite Edb; reflexivity|].
    rewrite Edb. apply count_payraises_snoc. exact Hrow.
Qed.

Lemma settled_same_tables entry db db' :
  Users db' = Users db -> Employees db' = Employees db ->
  settled entry db -> settled entry db'.
Proof.
  intros EU EE (e & u & Ee & Eu & Hall). exists e, u.
  unfold select_employee, select_user in *. rewrite EU, EE. auto.
Qed.

Lemma refers_same_tables entry db db' :
  Users db' = Users db -> Employees db' = Employees db ->
  refers entry db -> refers entry db'.
Proof.
  intros EU EE (u & Eu & Hall). exists u.
  unfold select_user, has_employee in *. rewrite EU, EE. auto.
Qed.

Lemma refers_linked entry db : refers entry db -> linked db entry = true.
Proof.
  intros (u & Eu & Hall). unfold linked. rewrite Eu.
  destruct (find_in_true _ _ _ Eu) as [Hin _].
  destruct (Hall u Hin eq_refl) as (x & -> & Hx). exact Hx.
Qed.

Lemma seeded_account_same_tables entry db db' :
  Users db' = Users db ->
  seeded_account entry db -> seeded_account entry db'.
Proof.
  intros EU (u & r & Eu & Hu). exists u, r.
  unfold select_user in *. rewrite EU. auto.
Qed.

End SeedPayRaise.

(** *** [initialize_database] *)

Section SeedTheorems.
Context `{Fernet} `{!Security}.

Lemma initialize_database_run w :
  initialize_database w = seed_payraise seed_conn (loop_world employees w).
Proof.
  unfold initialize_database. fold seed_conn. rewrite for_in_run. reflexivity.
Qed.

Lemma admin_entry :
  exists entry, In entry employees /\ s_username entry = py "admin1".
Proof. eexists. split; [left; reflexivity|reflexivity]. Qed.

(** X21.  [initialize_database] returns or fails for want of a usable key: no
    query comes back empty and no constraint is violated.  Either way the
    three seed accounts are stored, each linked to an employee that
    exists; a run that returned leaves the admin account with a pay raise,
    a run that failed leaves the pay raises as they were. *)
Theorem initialize_database_outcome (w : World) :
  forallb (linked (database (snd (initialize_database w)))) employees = true
  /\ ((fst (initialize_database w) = Returned
       /\ exists admin,
            fst (get_user_by_username (py "admin1")
                   (snd (initialize_database w))) = Ok (Some admin)
            /\ 0 < count_payraises (u_id admin)
                     (database (snd (initialize_database w))))
      \/ (exists e,
            fst (initialize_database w) = Raised e
            /\ key_error e = true
            /\ EmpPayRaise (database (snd (initialize_database w)))
               = EmpPayRaise (database w))).
Proof.
  rewrite initialize_database_run.
  destruct (loop_world_refers employees w) as [Href _].
  destruct (loop_world_payraises employees w) as [Epr _].
  destruct admin_entry as (admin & Hadmin & Hname).
  set (w1 := loop_world employees w) in *.
  destruct (seed_payraise_outcome admin w1 Hname (Href admin Hadmin))
    as (u & Eu & Hcases).
  assert (Hlinked : forall w2,
    Users (database w2) = Users (database w1) ->
    Employees (database w2) = Employees (database w1) ->
    forallb (linked (database w2)) employees = true).
  { intros w2 EU EE. apply forallb_forall. intros entry Hin.
    apply refers_linked, (refers_same_tables entry (database w1)); auto. }
  destruct Hcases
    as [[E Hc]|[(e & w2 & E & Ke & Edb)|(w2 & row & n & E & _ & Edb & Hrow)]];
    rewrite E; cbn [fst snd].
  - split; [apply Hlinked; reflexivity|]. left. split; [reflexivity|].
    exists u. split; [|exact Hc].
    unfold get_user_by_username, gets. cbn [fst]. f_equal. exact Eu.
  - split; [apply Hlinked; rewrite Edb; reflexivity|]. right.
    exists e. rewrite Edb. auto.
  - split; [apply Hlinked; rewrite Edb; reflexivity|]. left.
    split; [reflexivity|]. exists u. split.
    + unfold get_user_by_username, gets. cbn [fst]. f_equal.
      rewrite <- Eu. apply select_user_users. rewrite Edb. reflexivity.
    + rewrite Edb. apply count_payraises_snoc. exact Hrow.
Qed.

(** X22.  Seeding is idempotent: on the state a run that returned left behind,
    [initialize_database] returns again and changes nothing at all. *)
Theorem initialize_database_idempotent (w w' : World) :
  users_key (database w) = true ->
  initialize_database w = (Returned, w') ->
  initialize_database w' = (Returned, w').
Proof.
  intros Hk. rewrite !initialize_database_run. intros Hrun.
  destruct (loop_world_settled employees w employees_names Hk)
    as (_ & Hsettled & _).
  destruct admin_entry as (admin & Hadmin & Hname).
  set (w1 := loop_world employees w) in *.
  assert (Href : refers admin (database w1))
    by (apply settled_refers, Hsettled, Hadmin).
  destruct (seed_payraise_again admin w1 w' Hname Href Hrun) as (EU & EE & Eagain).
  rewrite loop_world_fixed; [exact Eagain|].
  intros entry Hin.
  apply (settled_same_tables entry (database w1)); auto.
Qed.

Hypothesis hashing : SecurityLaws.

(** X23.  Whatever way [initialize_database] ends, a seed account it had to
    create can log in with its seed password: the session gets the seed's
    level and the id of an employee with the seed's name and address. *)
Theorem seeded_account_logs_in
  (w : World) (entry : SeedEntry) (request : Request) :
  In entry employees ->
  users_key (database w) = true ->
  fst (get_user_by_username (s_username entry) w) = Ok None ->
  method request = POST ->
  field (form request) "username" = s_username entry ->
  field (form request) "password" = s_password entry ->
  exists session w2 e,
    login cleared request (snd (initialize_database w))
    = (Ok (auth_redirect "home", session), w2)
    /\ security_level (keys session) = Some (s_security_level entry)
    /\ emp_id (keys session) = Some (e_id e)
    /\ In e (Employees (database (snd (initialize_database w))))
    /\ e_name e = se_name (s_employee entry)
    /\ e_email e = se_email (s_employee entry).
Proof.
  intros Hin Hk Hfree Hpost Hname Hpass.
  unfold get_user_by_username, gets in Hfree. cbn [fst] in Hfree.
  injection Hfree as Hfree. fold (select_user (s_username entry) (database w)) in Hfree.
  rewrite initialize_database_run.
  destruct (loop_world_settled employees w employees_names Hk)
    as (_ & Hsettled & _).
  pose proof (loop_world_new_accounts employees w entry employees_names Hin Hfree)
    as Hacc.
  destruct (loop_world_refers employees w) as [Href _].
  destruct admin_entry as (admin & Hadmin & Hadmin_name).
  set (w1 := loop_world employees w) in *.
  assert (Htables :
    Users (database (snd (seed_payraise seed_conn w1))) = Users (database w1)
    /\ Employees (database (snd (seed_payraise seed_conn w1)))
       = Employees (database w1)).
  { destruct (seed_payraise_outcome admin w1 Hadmin_name (Href admin Hadmin))
      as (u & _ & Hcases).
    destruct Hcases
      as [[E _]|[(e & w2 & E & _ & Edb)|(w2 & row & n & E & _ & Edb & _)]];
      rewrite E; cbn [snd]; rewrite ?Edb; split; reflexivity. }
  destruct Htables as [EU EE].
  set (w' := snd (seed_payraise seed_conn w1)) in *.
  destruct (settled_same_tables entry (database w1) (database w') EU EE
              (Hsettled entry Hin)) as (e & u & Ee & Eu & Hall).
  destruct (seeded_account_same_tables entry (database w1) (database w') EU Hacc)
    as (u' & r & Eu' & Ehash & Elevel).
  rewrite Eu in Eu'. injection Eu' as <-.
  destruct (find_in_true _ _ _ Eu) as [Huin _].
  destruct (find_in_true _ _ _ Ee) as [Hein Hnames].
  apply andb_prop in Hnames as [Hn He].
  apply str_eqb_eq in Hn. apply str_eqb_eq in He.
  assert (Hfilled : s_username entry <> [] /\ s_password entry <> []).
  { destruct Hin as [<-|[<-|[<-|[]]]]; split; discriminate. }
  destruct Hfilled as [Hun Hpw].
  eexists _, _, e. split.
  - unfold login. cbn [keys cleared user_id]. rewrite Hpost.
    unfold LoginForm.from_mapping. rewrite Hname, Hpass.
    destruct (s_username entry) as [|c0 nm] eqn:En; [contradiction|].
    destruct (s_password entry) as [|p0 pw] eqn:Ep; [contradiction|].
    cbn [truthy negb LoginForm.errors LoginForm.username LoginForm.password].
    unfold bind, get_user_by_username, gets.
    unfold select_user in Eu. rewrite Eu, Ehash, hashing. reflexivity.
  - cbn [keys security_level emp_id]. rewrite Elevel, (Hall u Huin eq_refl).
    repeat split; trivial.
Qed.

End SeedTheorems.

(** *** The listing after seeding *)

Lemma turn_db_employees_key entry h db :
  distinct (map e_id (Employees db)) = true ->
  distinct (map e_id (Employees (turn_db entry h db))) = true.
Proof.
  intros Hd. unfold turn_db, employee_step.
  destruct (select_employee _ _ db) as [e|];
    destruct (user_step _ _ _ _) as [uid db2] eqn:Eu;
    unfold user_step in Eu; destruct (select_user _ _) in Eu;
    injection Eu as <- <-; cbn [Employees]; trivial;
    rewrite map_app; cbn [map e_id]; (apply distinct_snoc; [exact Hd|]);
    intros x; apply next_rowid_above.
Qed.

Section SeedListing.
Context `{Fernet} `{!Security}.

Lemma get_fernet_frame w w' :
  environ w' = environ w -> key_file w' = key_file w ->
  _FERNET_INSTANCE w' = _FERNET_INSTANCE w ->
  fst (get_fernet w') = fst (get_fernet w).
Proof.
  destruct w as [env kf um cache db fl rnd n].
  destruct w' as [env' kf' um' cache' db' fl' rnd' n'].
  cbn [environ key_file _FERNET_INSTANCE]. intros -> -> ->.
  unfold get_fernet, _load_fernet_key, bind, gets, py_encode, ret, raise, modify.
  cbv beta iota delta [_FERNET_INSTANCE environ key_file database flashed
                         umask os_random os_draws].
  destruct cache; [reflexivity|].
  destruct (env !! "FERNET_KEY") as [[|c k]|];
    try destruct (utf8_encode (c :: k));
    try destruct kf;
    try destruct (fernet_key_ok _); reflexivity.
Qed.

(** The loop touches nothing but the store and the draws. *)
Lemma loop_world_frame l w :
  environ (loop_world l w) = environ w
  /\ key_file (loop_world l w) = key_file w
  /\ _FERNET_INSTANCE (loop_world l w) = _FERNET_INSTANCE w
  /\ flashed (loop_world l w) = flashed w.
Proof.
  revert w. induction l as [|entry l IH]; intros w; [repeat split|].
  rewrite loop_world_cons.
  destruct (IH (turn_world entry w)) as (-> & -> & -> & ->).
  unfold turn_world. destruct (select_user _ _); destruct w; repeat split.
Qed.

Lemma loop_world_employees_key l w :
  distinct (map e_id (Employees (database w))) = true ->
  distinct (map e_id (Employees (database (loop_world l w)))) = true.
Proof.
  revert w. induction l as [|entry l IH]; intros w Hd; [exact Hd|].
  rewrite loop_world_cons. apply IH.
  destruct (turn_world_database entry w) as (h & ->).
  apply turn_db_employees_key. exact Hd.
Qed.

Hypothesis laws : FernetLaws.

(** On a store without pay raises, with a cipher that resolves,
    [initialize_database] returns and the full listing is the seeded pay
    raise. *)
Lemma initialize_database_listing w k :
  key_resolves w k ->
  users_key (database w) = true ->
  distinct (map e_id (Employees (database w))) = true ->
  EmpPayRaise (database w) = [] ->
  exists w' admin,
    initialize_database w = (Returned, w')
    /\ Users (database w') = Users (database (loop_world employees w))
    /\ Employees (database w') = Employees (database (loop_world employees w))
    /\ fst (get_user_by_username (py "admin1") w') = Ok (Some admin)
    /\ fst (get_all_payraises w')
       = Ok [seeded_entry (next_rowid [] (seq_EmpPayRaise (database w)))
               (u_id admin)].
Proof.
  intros Hk Hu He Hpr. rewrite initialize_database_run.
  destruct (loop_world_settled employees w employees_names Hu)
    as (_ & Hsettled & _).
  pose proof (loop_world_employees_key employees w He) as He1.
  destruct (loop_world_payraises employees w) as [Epr Eseq].
  destruct (loop_world_frame employees w) as (Fe & Ff & Fc & _).
  destruct admin_entry as (admin & Hadmin & Hname).
  set (w1 := loop_world employees w) in *.
  assert (Hk1 : key_resolves w1 k).
  { split; [|apply Hk]. rewrite (get_fernet_frame w w1); trivial. apply Hk. }
  destruct (Hsettled admin Hadmin) as (e & u & Ee & Eu & Hall).
  rewrite Hname in Eu.
  destruct (find_in_true _ _ _ Eu) as [Hin _].
  destruct (find_in_true _ _ _ Ee) as [Hein Hnames].
  apply andb_prop in Hnames as [Hn _]. apply str_eqb_eq in Hn.
  assert (Ename : e_name e = py "Alice Admin").
  { rewrite Hn. destruct Hadmin as [<-|[<-|[<-|[]]]]; try reflexivity;
      discriminate Hname. }
  unfold seed_payraise. rewrite Eu. unfold select_user_by_id.
  destruct (List.find (fun u0 => u_id u0 =? u_id u) (Users (database w1)))
    as [row|] eqn:Erow.
  2:{ pose proof (find_none _ _ Erow u Hin) as Hx. cbv beta in Hx.
      rewrite Z.eqb_refl in Hx. discriminate. }
  destruct (find_in_true _ _ _ Erow) as [Hrow Hid]. apply Z.eqb_eq in Hid.
  rewrite (Hall row Hrow Hid).
  unfold count_payraises. rewrite Epr, Hpr. cbn [List.filter length Z.of_nat Z.ltb Z.compare].
  unfold bind.
  destruct (encrypt_text_token laws k w1 (py "2025-01-01") Hk1 eq_refl)
    as (t1 & E1 & D1 & _).
  rewrite E1.
  set (w2 := set_os_draws _ (with_key k w1)) in *.
  assert (Hk2 : key_resolves w2 k) by (split; [reflexivity|apply Hk]).
  destruct (encrypt_text_token laws k w2 (py "1250.00") Hk2 eq_refl)
    as (t2 & E2 & D2 & _).
  rewrite E2.
  set (w3 := set_os_draws _ (with_key k w2)) in *.
  assert (Hk3 : key_resolves w3 k) by (split; [reflexivity|apply Hk]).
  destruct (encrypt_text_token laws k w3 (py "Annual merit increase") Hk3 eq_refl)
    as (t3 & E3 & D3 & N3).
  rewrite E3.
  set (w4 := set_os_draws _ (with_key k w3)) in *.
  assert (Edb : database w4 = database w1) by reflexivity.
  unfold execute, insert_EmpPayRaise_of, insert_EmpPayRaise.
  rewrite Edb, (has_employee_in _ _ Hein), (has_user_in _ _ Hin), Epr, Hpr, Eseq.
  cbn [negb andb app map].
  eexists _, u. split; [reflexivity|].
  split; [reflexivity|]. split; [reflexivity|].
  split; [unfold get_user_by_username, gets; cbn [fst]; f_equal; exact Eu|].
  rewrite (get_all_payraises_run k) by reflexivity.
  cbn [database set_database].
  unfold select_payraises. cbn [EmpPayRaise List.filter flat_map].
  unfold join_Employees. cbn [Employees pr_emp_id]. rewrite app_nil_r.
  assert (Ejoin : List.filter (fun e0 => e_id e0 =? e_id e)
                    (Employees (database w1)) = [e]).
  { destruct (filter_distinct (e_id e) _ He1) as [E|[e0 E]].
    - assert (Hx : In e (List.filter (fun e0 => e_id e0 =? e_id e)
                           (Employees (database w1))))
        by (apply filter_In; split; [exact Hein|apply Z.eqb_refl]).
      rewrite E in Hx. destruct Hx.
    - assert (Hx : In e (List.filter (fun e0 => e_id e0 =? e_id e)
                           (Employees (database w1))))
        by (apply filter_In; split; [exact Hein|apply Z.eqb_refl]).
      rewrite E in Hx. destruct Hx as [->|[]]. exact E. }
  rewrite Ejoin. cbn [map order_by fold_right insert_by collect].
  unfold entry_of, decrypt_comments_field.
  cbn [fst snd payraise_date_encrypted raiseamt_encrypted comments_encrypted
         pr_id pr_user_id].
  rewrite D1, D2. destruct t3 as [|c3 t3]; [contradiction|]. rewrite D3.
  rewrite Ename. reflexivity.
Qed.

End SeedListing.

(** *** [main] *)

Section SeedMain.
Context `{Fernet} `{!Security}.
Hypothesis laws : FernetLaws.

(** What [ensure_fernet_key] leaves on a machine without a key, in a
    process that has built no cipher yet. *)
Lemma ensure_fernet_key_fresh w :
  no_key_source w = true ->
  _FERNET_INSTANCE w = None ->
  exists k w',
    init_db.ensure_fernet_key w = (Ok k, w')
    /\ key_resolves w' k
    /\ database w' = database w.
Proof.
  unfold no_key_source. intros Hno Hnone. apply andb_prop in Hno as [Henv Hfile].
  destruct (key_file w) as [f|] eqn:Ef; [discriminate|]. clear Hfile.
  destruct (fernet_generated laws (os_random w (os_draws w))) as (Hok & Hascii & Hne).
  destruct (ascii_codec _ Hascii) as [Hdec Henc].
  pose proof (ascii_bytes_no_nul _ Hascii) as Hnul.
  set (key := fernet_generate_key (os_random w (os_draws w))) in *.
  assert (Hrun : exists w',
    init_db.ensure_fernet_key w = (Ok key, w')
    /\ environ w' = <["FERNET_KEY" := key]> (environ w)
    /\ _FERNET_INSTANCE w' = _FERNET_INSTANCE w
    /\ database w' = database w).
  { unfold init_db.ensure_fernet_key, bind, gets, urandom, init_db.write_bytes,
      init_db.chmod, init_db.os_environ_set, modify, py_decode, ret.
    destruct (environ w !! "FERNET_KEY") as [[|c k]|]; try discriminate;
      rewrite Ef; cbn [fst snd key_file set_os_draws set_key_file];
      fold key; rewrite Hdec, Hnul; eexists; repeat split. }
  destruct Hrun as (w' & E & He & Hc & Hd).
  exists key, w'. split; [exact E|]. split; [|exact Hd].
  assert (Hlook : environ w' !! "FERNET_KEY" = Some key)
    by (rewrite He; apply lookup_insert_eq).
  split; [|exact Hok].
  unfold get_fernet, bind, gets. rewrite Hc, Hnone.
  unfold _load_fernet_key, bind, gets. rewrite Hlook.
  destruct key as [|c k]; [contradiction|].
  unfold py_encode. rewrite Henc. unfold ret. rewrite Hok. reflexivity.
Qed.

(** X24.  On a store without pay raises whose keys are distinct, with a cipher
    that resolves, [initialize_database] returns, and the full listing is
    then the one seeded pay raise, decrypted, under the name of the
    employee the admin account is linked to. *)
Theorem initialize_database_seeds_listing (w : World) (k : bytes) :
  key_resolves w k ->
  users_key (database w) = true ->
  distinct (map e_id (Employees (database w))) = true ->
  EmpPayRaise (database w) = [] ->
  exists w' admin,
    initialize_database w = (Returned, w')
    /\ fst (get_user_by_username (py "admin1") w') = Ok (Some admin)
    /\ fst (get_all_payraises w')
       = Ok [seeded_entry (next_rowid [] (seq_EmpPayRaise (database w)))
               (u_id admin)].
Proof.
  intros Hk Hu He Hpr.
  destruct (initialize_database_listing laws w k Hk Hu He Hpr)
    as (w' & admin & E & _ & _ & Ea & El).
  exists w', admin. auto.
Qed.

(** X25.  [main] on a new machine (no key in the environment, no key file, an
    empty store): it returns after printing its message; the store then
    holds the three employees and the three accounts, linked one to one,
    and the full listing shows the seeded pay raise. *)
Theorem main_on_fresh_machine (w : World) :
  no_key_source w = true ->
  _FERNET_INSTANCE w = None ->
  database w = empty_db ->
  exists w',
    main w
    = ((Returned, ["Database initialized and seeded successfully."%string]), w')
    /\ map (fun u => (u_id u, u_username u, u_security_level u, u_emp_id u))
         (Users (database w'))
       = [(1, py "admin1", 1, Some 1); (2, py "manager", 2, Some 2);
          (3, py "staff", 3, Some 3)]
    /\ Employees (database w')
       = [mkEmployee 1 (py "Alice Admin") (py "alice.admin@example.com")
            (py "Executive") 1;
          mkEmployee 2 (py "Bob Manager") (py "bob.manager@example.com")
            (py "Operations") 2;
          mkEmployee 3 (py "Cara Staff") (py "cara.staff@example.com")
            (py "Support") 3]
    /\ fst (get_all_payraises w') = Ok [seeded_entry 1 1].
Proof.
  intros Hno Hnone Hdb.
  destruct (ensure_fernet_key_fresh w Hno Hnone) as (k & w1 & E & Hk & Hdb1).
  rewrite Hdb in Hdb1.
  destruct (initialize_database_listing laws w1 k Hk)
    as (w' & admin & Erun & EU & EE & Ea & El);
    try (rewrite Hdb1; reflexivity).
  exists w'. unfold main. rewrite E, Erun. split; [reflexivity|].
  rewrite Hdb1 in El.
  unfold get_user_by_username, gets in Ea. cbn [fst] in Ea.
  rewrite EU in Ea. rewrite EU, EE. clear EU EE Erun E Hk.
  destruct w1 as [env kf um cache db fl rnd n]. cbn [database] in Hdb1.
  subst db.
  split; [vm_compute; reflexivity|]. split; [vm_compute; reflexivity|].
  vm_compute in Ea. injection Ea as <-. exact El.
Qed.

End SeedMain.

(** ** The laws hold of the reference cipher; instances of the theorems *)

Import demo.

Lemma demo_fernet_laws : @FernetLaws demo_fernet.
Proof.
  split.
  - intros k r data _. cbn [fernet_decrypt fernet_encrypt demo_fernet].
    unfold demo_decrypt, demo_encrypt. rewrite !Z.eqb_refl. reflexivity.
  - intros k r r' data data' E. injection E. auto.
  - intros k r data. discriminate.
  - intros r. cbn [fernet_key_ok fernet_generate_key demo_fernet].
    split; [reflexivity|]. split; [|discriminate].
    unfold demo_generate_key, ascii_bytes.
    assert (T : (0 <? 65 + r mod 26) && (65 + r mod 26 <? 128) = true)
      by (apply andb_true_intro; split; apply Z.ltb_lt; zlia).
    cbn [repeat app forallb]. rewrite !T. reflexivity.
Qed.

Lemma demo_key_resolves : key_resolves demo_world demo_key.
Proof. split; reflexivity. Qed.

Lemma decrypt_encrypt_roundtrip_witness :
  exists c w1 w2,
    encrypt_text (Some (py "  Annual merit increase ")) demo_world = (Ok c, w1)
    /\ decrypt_text (Some c) w1 = (Ok (py "Annual merit increase"), w2).
Proof.
  exact (@decrypt_encrypt_roundtrip demo_fernet demo_fernet_laws demo_world
           demo_key (py "  Annual merit increase ")
           (conj eq_refl eq_refl) eq_refl).
Defined.



(** C2, the claim refuted: one stored row whose date is not a token makes
    both listings raise; the intact row of the other user is not
    returned. *)
Lemma listing_aborts_counterexample :
  fst (get_all_payraises corrupted_world) = Raise InvalidToken
  /\ fst (get_payraises_for_user 1 corrupted_world) = Raise InvalidToken
  /\ ~ (exists l, fst (get_all_payraises corrupted_world) = Ok l).
Proof.
  assert (E : fst (get_all_payraises corrupted_world) = Raise InvalidToken)
    by (vm_compute; reflexivity).
  split; [exact E|]. split; [vm_compute; reflexivity|].
  intros [l El]. rewrite E in El. discriminate.
Qed.

Lemma listing_all_or_nothing_witness :
  (exists e, fst (get_all_payraises corrupted_world) = Raise e)
  /\ (exists l, fst (get_payraises_for_user 2 corrupted_world) = Ok l
                /\ length l = 1%nat).
Proof.
  pose proof (@listing_all_or_nothing demo_fernet corrupted_world demo_key 2
                (conj eq_refl eq_refl)) as (_ & Hall & Huser & _).
  split.
  - apply Hall. vm_compute. reflexivity.
  - apply Huser. vm_compute. reflexivity.
Defined.

Lemma listings_most_recent_first_witness :
  fst (get_all_payraises two_raises_world)
  = collect (entry_of true demo_key)
      (rev (created_rows (fun _ => true) (database two_raises_world)))
  /\ fst (get_payraises_for_user 2 two_raises_world)
     = collect (entry_of false demo_key)
         (rev (created_rows (fun pr => pr_user_id pr =? 2)
                 (database two_raises_world)))
  /\ StronglySorted (fun a b => pr_id (snd b) < pr_id (snd a))
       (rev (created_rows (fun _ => true) (database two_raises_world))).
Proof.
  apply (@listings_most_recent_first demo_fernet two_raises_world demo_key 2).
  - split; reflexivity.
  - reflexivity.
Defined.

Lemma create_payraise_dangling_reference_witness :
  exists n w' row,
    create_payraise 1 999 (py "2025-01-01") twelve_and_a_half None demo_world
    = (Ok n, w')
    /\ EmpPayRaise (database w') = EmpPayRaise (database demo_world) ++ [row]
    /\ pr_id row = n /\ pr_emp_id row = 999 /\ pr_user_id row = 1.
Proof.
  apply (@create_payraise_dangling_reference demo_fernet demo_fernet_laws
           demo_world demo_key 1 999 (py "2025-01-01") twelve_and_a_half None).
  - split; reflexivity.
  - reflexivity.
  - reflexivity.
  - reflexivity.
Defined.

Lemma created_amount_is_formatted_witness :
  exists n w',
    create_payraise 2 2 (py "2025-01-01") twelve_and_a_half
      (Some (py "Annual merit increase")) demo_world = (Ok n, w')
    /\ fst (get_all_payraises w')
       = match fst (get_all_payraises demo_world) with
         | Ok l => Ok (mkEntry (Some n) (py "Bob Manager") (Some 2)
                         (py "2025-01-01") (py "12.50")
                         (py "Annual merit increase") None :: l)
         | Raise e => Raise e
         end
    /\ fst (get_payraises_for_user 2 w')
       = match fst (get_payraises_for_user 2 demo_world) with
         | Ok l => Ok (mkEntry None (py "Bob Manager") None
                         (py "2025-01-01") (py "12.50")
                         (py "Annual merit increase") None :: l)
         | Raise e => Raise e
         end.
Proof.
  apply (@created_amount_is_formatted demo_fernet demo_fernet_laws demo_world
           demo_key 2 2 (py "2025-01-01") twelve_and_a_half
           (Some (py "Annual merit increase")) bob).
  - split; reflexivity.
  - reflexivity.
  - reflexivity.
  - reflexivity.
  - reflexivity.
Defined.

(** C4, the claim refuted for the resolver the application runs: with no
    key in the environment and no key file, it raises and writes nothing. *)
Lemma load_fernet_key_counterexample :
  no_key_source bare_world = true
  /\ fst (get_fernet bare_world) = Raise RuntimeError
  /\ key_file (snd (get_fernet bare_world)) = None.
Proof. repeat split; vm_compute; reflexivity. Qed.

Lemma ensure_fernet_key_generates_witness :
  fst (_load_fernet_key bare_world) = Raise RuntimeError
  /\ exists w',
       init_db.ensure_fernet_key bare_world = (Ok (demo_generate_key 0), w')
       /\ key_file w' = Some (mkFile (demo_generate_key 0) 0x180)
       /\ environ w' !! "FERNET_KEY" = Some (demo_generate_key 0)
       /\ fst (_load_fernet_key w') = Ok (demo_generate_key 0)
       /\ (_FERNET_INSTANCE bare_world = None ->
           key_resolves w' (demo_generate_key 0)).
Proof.
  apply (@ensure_fernet_key_generates demo_fernet demo_fernet_laws bare_world).
  reflexivity.
Defined.

Lemma add_payraise_unlinked_not_found_witness :
  exists w',
    add_payraise (mkSession (Some 3) (Some 3) None) (mkRequest POST demo_form)
      demo_world = (Ok not_found, w')
    /\ database w' = database demo_world
    /\ flashed w' = flashed demo_world ++ ["Page not found"%string].
Proof.
  apply (@add_payraise_unlinked_not_found demo_fernet demo_world 3 (Some 3)
           (mkRequest POST demo_form)).
  - reflexivity.
  - vm_compute. reflexivity.
Defined.

(** C1 and C3 on the seeded data: the staff user posts the employee form
    and a row is added; a pay raise for an employee that does not exist is
    stored, and no listing shows it. *)
Lemma staff_adds_employee :
  let r := add_employee (mkSession (Some 3) (Some 3) None)
             (mkRequest POST
                (<["name" := py "Eve"]>
                   (<["security_level" := py "1"]>
                      (<["department" := py "Audit"]> ∅))))
             demo_world in
  fst r = Ok (redirect "result")
  /\ map e_name (Employees (database (snd r)))
     = [py "Alice Admin"; py "Bob Manager"; py "Eve"]
  /\ flashed (snd r) = ["Employee added successfully."%string].
Proof. repeat split; vm_compute; reflexivity. Qed.

Lemma dangling_pay_raise_is_hidden :
  let r := create_payraise 1 999 (py "2025-01-01") twelve_and_a_half None
             demo_world in
  fst r = Ok 1
  /\ map pr_emp_id (EmpPayRaise (database (snd r))) = [999]
  /\ fst (get_all_payraises (snd r)) = Ok [].
Proof. repeat split; vm_compute; reflexivity. Qed.

(** The listing of [two_raises_world]: the pay raise created last comes
    first. *)
Lemma two_raises_listed :
  option_map (map id) (match fst (get_all_payraises two_raises_world) with
                       | Ok l => Some l
                       | Raise _ => None
                       end)
  = Some [Some 2; Some 1].
Proof. vm_compute. reflexivity. Qed.

(** The end-to-end example of the specification, through the views. *)
Lemma end_to_end :
  let session := mkSession (Some 2) (Some 2) (Some 2) in
  let r := add_payraise session (mkRequest POST demo_form) demo_world in
  fst r = Ok (redirect "result")
  /\ fst (get_payraises_for_user 2 (snd r))
     = Ok [mkEntry None (py "Bob Manager") None (py "2025-01-01")
             (py "12.50") (py "Annual merit increase") None]
  /\ py_float (py "12.5") = Some twelve_and_a_half.
Proof. repeat split; vm_compute; reflexivity. Qed.

(** ** Instances of the further properties *)

Import demo_security.

Lemma demo_werkzeug_laws : @SecurityLaws demo_fernet demo_werkzeug.
Proof.
  intros r password.
  cbn [check_password_hash generate_password_hash demo_werkzeug].
  unfold demo_check_password_hash, demo_generate_password_hash.
  apply str_eqb_refl.
Qed.

Lemma get_fernet_failure_witness :
  snd (get_fernet bare_world) = bare_world
  /\ _FERNET_INSTANCE bare_world = None
  /\ key_error RuntimeError = true
  /\ (RuntimeError = RuntimeError -> no_key_source bare_world = true).
Proof.
  apply (@get_fernet_failure demo_fernet bare_world RuntimeError).
  vm_compute. reflexivity.
Defined.

Lemma ensure_fernet_key_settles_witness :
  _load_fernet_key (snd (init_db.ensure_fernet_key bare_world))
  = (Ok (demo_generate_key 0), snd (init_db.ensure_fernet_key bare_world))
  /\ init_db.ensure_fernet_key (snd (init_db.ensure_fernet_key bare_world))
     = (Ok (demo_generate_key 0), snd (init_db.ensure_fernet_key bare_world)).
Proof.
  apply (@ensure_fernet_key_settles demo_fernet demo_fernet_laws bare_world).
  reflexivity.
Defined.

Lemma decrypt_survives_key_change_witness :
  exists c w1 w2,
    encrypt_text (Some (py " 1250.00 ")) demo_world = (Ok c, w1)
    /\ decrypt_text (Some c) (set_key_file None (set_environ (fun _ => ∅) w1))
       = (Ok (py "1250.00"), w2).
Proof.
  apply (@decrypt_survives_key_change demo_fernet demo_fernet_laws demo_world
           demo_key (py " 1250.00 ") ∅ None).
  - split; reflexivity.
  - reflexivity.
Defined.

Lemma is_valid_date_iso_witness :
  is_valid_date (iso_date 2024 2 29) = real_date 2024 2 29
  /\ is_valid_date (iso_date 2025 2 29) = real_date 2025 2 29.
Proof.
  split; [apply (is_valid_date_iso 2024 2 29) | apply (is_valid_date_iso 2025 2 29)];
    lia.
Defined.

Lemma is_valid_date_sound_witness :
  exists y m d,
    strptime_Ymd (strip (py " 2024-02-29 ")) = Some (y, m, d)
    /\ 1 <= y <= 9999 /\ 1 <= m <= 12 /\ 1 <= d <= days_in_month y m.
Proof.
  apply (is_valid_date_sound (py " 2024-02-29 ")). vm_compute. reflexivity.
Defined.


Lemma create_payraise_other_users_witness :
  fst (get_payraises_for_user 1
         (snd (create_payraise 2 2 (py "2025-01-01") twelve_and_a_half None
                 two_raises_world)))
  = fst (get_payraises_for_user 1 two_raises_world).
Proof.
  apply (@create_payraise_other_users demo_fernet two_raises_world 2 2
           (py "2025-01-01") twelve_and_a_half None 1).
  lia.
Defined.

Lemma user_listing_restricts_witness :
  fst (get_payraises_for_user 2 two_raises_world)
  = Ok (map user_view
          (List.filter (of_user 2)
             [mkEntry (Some 2) (py "Bob Manager") (Some 2) (py "2025-01-01")
                (py "1250.00") [] None;
              mkEntry (Some 1) (py "Alice Admin") (Some 1) (py "2024-12-01")
                (py "100.00") [] None])).
Proof.
  apply (@user_listing_restricts demo_fernet two_raises_world 2).
  vm_compute. reflexivity.
Defined.

Lemma display_of_created_amount_witness :
  exists x,
    py_float (py "12.50") = Some x
    /\ raise_amount_display
         (with_display (mkEntry None [] None [] (py "12.50") [] None))
       = Some (36 :: format_comma_2f x).
Proof.
  apply (display_of_created_amount twelve_and_a_half
           (mkEntry None [] None [] (py "12.50") [] None)).
  vm_compute. reflexivity.
Defined.

Lemma refused_request_is_inert_witness :
  gated_view g_list_payraises (mkSession (Some 3) (Some 3) None)
    (mkRequest GET ∅) demo_world
  = login_refusal demo_world
  \/ gated_view g_list_payraises (mkSession (Some 3) (Some 3) None)
       (mkRequest GET ∅) demo_world
     = page_not_found demo_world.
Proof.
  apply (@refused_request_is_inert demo_fernet demo_world g_list_payraises
           (mkSession (Some 3) (Some 3) None) (mkRequest GET ∅)).
  vm_compute. reflexivity.
Defined.

Lemma add_payraise_then_show_witness :
  exists amount w',
    py_float (PayRaiseForm.raise_amount (PayRaiseForm.from_mapping demo_form))
    = Some amount
    /\ add_payraise (mkSession (Some 2) (Some 2) (Some 2))
         (mkRequest POST demo_form) demo_world
       = (Ok (redirect "result"), w')
    /\ flashed w' = flashed demo_world ++ ["Record added"%string]
    /\ fst (show_payraises (mkSession (Some 2) (Some 2) (Some 2))
              (mkRequest POST demo_form) w')
       = match fst (get_payraises_for_user 2 demo_world) with
         | Ok l =>
             Ok (render_template "show_payraises.html" 200
                   (page_raises
                      (map with_display
                         (mkEntry None (e_name bob) None
                            (PayRaiseForm.payraise_date
                               (PayRaiseForm.from_mapping demo_form))
                            (format_2f amount)
                            (PayRaiseForm.comments
                               (PayRaiseForm.from_mapping demo_form))
                            None :: l))))
         | Raise e => Raise e
         end.
Proof.
  apply (@add_payraise_then_show demo_fernet demo_fernet_laws demo_world
           demo_key 2 2 (Some 2) bob (mkRequest POST demo_form)).
  - split; reflexivity.
  - reflexivity.
  - reflexivity.
  - vm_compute. reflexivity.
  - vm_compute. reflexivity.
  - reflexivity.
Defined.

Lemma login_sound_witness :
  database (snd (login cleared
                   (mkRequest POST (login_form (py "admin1") (py "AdminPass1")))
                   seeded_world))
  = database seeded_world
  /\ exists row,
       In row (Users (database seeded_world))
       /\ u_id row = 1
       /\ u_username row
          = LoginForm.username
              (LoginForm.from_mapping
                 (login_form (py "admin1") (py "AdminPass1")))
       /\ check_password_hash (u_password_hash row)
            (LoginForm.password
               (LoginForm.from_mapping
                  (login_form (py "admin1") (py "AdminPass1")))) = true
       /\ security_level
            (keys (mkSessionData (mkSession (Some 1) (Some 1) (Some 1))
                     (Some (py "admin1")) (Some (py "Alice Admin"))))
          = Some (u_security_level row)
       /\ emp_id
            (keys (mkSessionData (mkSession (Some 1) (Some 1) (Some 1))
                     (Some (py "admin1")) (Some (py "Alice Admin"))))
          = u_emp_id row.
Proof.
  apply (@login_sound demo_fernet demo_werkzeug seeded_world
           (snd (login cleared
                   (mkRequest POST (login_form (py "admin1") (py "AdminPass1")))
                   seeded_world))
           cleared
           (mkSessionData (mkSession (Some 1) (Some 1) (Some 1))
              (Some (py "admin1")) (Some (py "Alice Admin")))
           (mkRequest POST (login_form (py "admin1") (py "AdminPass1")))
           (auth_redirect "home") 1).
  - reflexivity.
  - vm_compute. reflexivity.
  - reflexivity.
Defined.

Lemma login_failure_is_uniform_witness :
  login cleared (mkRequest POST (login_form (py "admin1") (py "guess")))
    seeded_world
  = (Ok (auth_render "login.html" 200
           (LoginForm.from_mapping (login_form (py "admin1") (py "guess"))),
         cleared),
     set_flashed
       (flashed seeded_world ++ ["invalid username and/or password!"%string])
       seeded_world)
  /\ login cleared (mkRequest POST (login_form (py "nobody") (py "guess")))
       seeded_world
     = (Ok (auth_render "login.html" 200
              (LoginForm.from_mapping (login_form (py "nobody") (py "guess"))),
            cleared),
        set_flashed
          (flashed seeded_world ++ ["invalid username and/or password!"%string])
          seeded_world).
Proof.
  split.
  - apply (@login_failure_is_uniform demo_fernet demo_werkzeug seeded_world
             cleared (mkRequest POST (login_form (py "admin1") (py "guess")))).
    + reflexivity.
    + reflexivity.
    + vm_compute. reflexivity.
    + intros row E. vm_compute in E. injection E as <-. vm_compute. reflexivity.
  - apply (@login_failure_is_uniform demo_fernet demo_werkzeug seeded_world
             cleared (mkRequest POST (login_form (py "nobody") (py "guess")))).
    + reflexivity.
    + reflexivity.
    + vm_compute. reflexivity.
    + intros row E. vm_compute in E. discriminate E.
Defined.


Lemma initialize_database_idempotent_witness :
  initialize_database (snd (initialize_database demo_world))
  = (Returned, snd (initialize_database demo_world)).
Proof.
  apply (@initialize_database_idempotent demo_fernet demo_werkzeug demo_world).
  - vm_compute. reflexivity.
  - vm_compute. reflexivity.
Defined.

Lemma seeded_account_logs_in_witness :
  fst (initialize_database fresh_world) = Raised RuntimeError
  /\ exists session w2 e,
       login cleared
         (mkRequest POST (login_form (py "manager") (py "Manager1")))
         (snd (initialize_database fresh_world))
       = (Ok (auth_redirect "home", session), w2)
       /\ security_level (keys session) = Some 2
       /\ emp_id (keys session) = Some (e_id e)
       /\ In e (Employees (database (snd (initialize_database fresh_world))))
       /\ e_name e = py "Bob Manager"
       /\ e_email e = py "bob.manager@example.com".
Proof.
  split; [vm_compute; reflexivity|].
  apply (@seeded_account_logs_in demo_fernet demo_werkzeug demo_werkzeug_laws
           fresh_world
           (mkSeedEntry (py "manager") (py "Manager1") (py "Bob Manager") 2
              (mkSeedEmployee (py "Bob Manager") (py "bob.manager@example.com")
                 (py "Operations") 2))
           (mkRequest POST (login_form (py "manager") (py "Manager1")))).
  - right. left. reflexivity.
  - reflexivity.
  - vm_compute. reflexivity.
  - reflexivity.
  - vm_compute. reflexivity.
  - vm_compute. reflexivity.
Defined.

Lemma initialize_database_seeds_listing_witness :
  exists w' admin,
    initialize_database demo_world = (Returned, w')
    /\ fst (get_user_by_username (py "admin1") w') = Ok (Some admin)
    /\ fst (get_all_payraises w') = Ok [seeded_entry 1 (u_id admin)].
Proof.
  apply (@initialize_database_seeds_listing demo_fernet demo_werkzeug
           demo_fernet_laws demo_world demo_key).
  - split; reflexivity.
  - reflexivity.
  - reflexivity.
  - reflexivity.
Defined.

Lemma main_on_fresh_machine_witness :
  exists w',
    main fresh_world
    = ((Returned, ["Database initialized and seeded successfully."%string]), w')
    /\ map (fun u => (u_id u, u_username u, u_security_level u, u_emp_id u))
         (Users (database w'))
       = [(1, py "admin1", 1, Some 1); (2, py "manager", 2, Some 2);
          (3, py "staff", 3, Some 3)]
    /\ Employees (database w')
       = [mkEmployee 1 (py "Alice Admin") (py "alice.admin@example.com")
            (py "Executive") 1;
          mkEmployee 2 (py "Bob Manager") (py "bob.manager@example.com")
            (py "Operations") 2;
          mkEmployee 3 (py "Cara Staff") (py "cara.staff@example.com")
            (py "Support") 3]
    /\ fst (get_all_payraises w') = Ok [seeded_entry 1 1].
Proof.
  apply (@main_on_fresh_machine demo_fernet demo_werkzeug demo_fernet_laws
           fresh_world).
  - reflexivity.
  - reflexivity.
  - reflexivity.
Defined.
